(** * Dual-hedge bot: the decision, sizing and order logic of [bot.py]

    A shallow embedding of the bot's core functions and the properties its
    specification states about them.

    - Python [float] is IEEE binary64, modelled by [spec_float] with
      precision 53 and maximal exponent 1024 (module [PyFloat]).
    - JSON values are [pyval]; a JSON object is a [gmap string pyval]; a
      [string] holds the UTF-8 bytes of a Python [str].
    - Exceptions are an error monad ([result]); the effects of the HTTP
      client, the clock, the console input and [time.sleep] are explicit
      state passing over a scripted [world] that records a trace of events.
    - Console output ([print]) is not modelled. *)

From Stdlib Require Import ZArith Lia Bool Ascii String List.
From Stdlib Require Import Floats.SpecFloat.
From stdpp Require Import base option list gmap strings pretty.

#[local] Set Warnings "-register-all".
#[local] Open Scope Z_scope.

(** ** Python floats *)

Module PyFloat.

Definition prec : Z := 53.
Definition emax : Z := 1024.

Definition float := spec_float.

Definition nan : float := S754_nan.
Definition inf (neg : bool) : float := S754_infinity neg.

Definition is_nan (x : float) : bool :=
  match x with S754_nan => true | _ => false end.

Definition is_finite (x : float) : bool :=
  match x with S754_zero _ | S754_finite _ _ _ => true | _ => false end.

Definition is_zero (x : float) : bool :=
  match x with S754_zero _ => true | _ => false end.

(** The nearest binary64 value of an integer (ties to even); an integer
    beyond the range rounds to an infinity. *)
Definition of_Z (z : Z) : float := binary_normalize prec emax z 0 false.

(** The nearest binary64 value of [(-1)^neg * d * 10^e], the value of a
    decimal literal with digit string [d] and decimal exponent [e]. *)
Definition of_decimal (neg : bool) (d : Z) (e : Z) : float :=
  match d with
  | Zpos p =>
      if 0 <=? e
      then binary_normalize prec emax (cond_Zopp neg (d * 10 ^ e)) 0 neg
      else SFdiv prec emax (S754_finite neg p 0)
                           (S754_finite false (Z.to_pos (10 ^ (- e))) 0)
  | _ => S754_zero neg
  end.

Definition mul (x y : float) : float := SFmul prec emax x y.
Definition div (x y : float) : float := SFdiv prec emax x y.

Definition ltb (x y : float) : bool := SFltb x y.
Definition leb (x y : float) : bool := SFleb x y.
Definition gtb (x y : float) : bool := SFltb y x.
Definition eqb (x y : float) : bool := SFeqb x y.

(** Exact comparison of a float with an integer, as Python compares a
    [float] with an [int]: [None] when the float is a NaN. *)
Definition compare_Z (x : float) (z : Z) : option comparison :=
  match x with
  | S754_nan => None
  | S754_infinity s => Some (if s then Lt else Gt)
  | S754_zero _ => Some (0 ?= z)
  | S754_finite s m e =>
      let n := cond_Zopp s (Zpos m) in
      Some (if 0 <=? e then (n * 2 ^ e ?= z) else (n ?= z * 2 ^ (- e)))
  end.

(** [x <= z] and [z <= x] for a float [x] and an integer [z]. *)
Definition le_Z (x : float) (z : Z) : bool :=
  match compare_Z x z with Some (Lt | Eq) => true | _ => false end.
Definition Z_le (z : Z) (x : float) : bool :=
  match compare_Z x z with Some (Gt | Eq) => true | _ => false end.

(** Truncation toward zero of a finite float ([int(x)]). *)
Definition trunc (x : float) : option Z :=
  match x with
  | S754_zero _ => Some 0
  | S754_finite s m e =>
      Some (cond_Zopp s (if 0 <=? e then Zpos m * 2 ^ e
                         else Zpos m / 2 ^ (- e)))
  | _ => None
  end.

(** Rounding of the magnitude [m / d] to the nearest integer, ties to
    the even one. *)
Definition round_half_even_div (m d : Z) : Z :=
  let q := m / d in
  let r := m mod d in
  match 2 * r ?= d with
  | Lt => q
  | Gt => q + 1
  | Eq => if Z.even q then q else q + 1
  end.

(** Rounding of a finite float to the nearest integer, ties to even
    ([round(x)] without a digit count). *)
Definition round_half_even (x : float) : option Z :=
  match x with
  | S754_zero _ => Some 0
  | S754_finite s m e =>
      Some (cond_Zopp s (if 0 <=? e then Zpos m * 2 ^ e
                         else round_half_even_div (Zpos m) (2 ^ (- e))))
  | _ => None
  end.

(** The float literals of the source. *)
Definition zero : float := S754_zero false.
Definition one : float := Eval vm_compute in of_decimal false 10 (-1).
Definition half : float := Eval vm_compute in of_decimal false 5 (-1).
Definition two : float := Eval vm_compute in of_decimal false 20 (-1).

End PyFloat.

Abbreviation float := PyFloat.float.

(** ** Exceptions and the error monad *)

(** The reasons for which the source raises [RuntimeError]. *)
Inductive runtime_reason :=
  | MissingCredential
  | NoEligibleOffer
  | ContractNotFound.

Inductive exn :=
  | ValueError
  | TypeError
  | OverflowError
  | ZeroDivisionError
  | KeyError
  | IndexError
  | AttributeError
  | RuntimeError (why : runtime_reason)
  | RequestException
  | EOFError
  | StopIteration.

Inductive result (A : Type) :=
  | Ok (a : A)
  | Raise (e : exn).
Arguments Ok {A} a.
Arguments Raise {A} e.

Definition bind {A B : Type} (r : result A) (k : A -> result B) : result B :=
  match r with
  | Ok a => k a
  | Raise e => Raise e
  end.

Notation "'let?' x ':=' r 'in' k" := (bind r (fun x => k))
  (at level 10, x name, r at level 100, k at level 200).

(** [try: r except ValueError: d] *)
Definition except_ValueError {A : Type} (r : result A) (d : A) : result A :=
  match r with
  | Raise ValueError => Ok d
  | _ => r
  end.

(** ** JSON values and the builtins the source applies to them *)

Inductive pyval :=
  | VNone
  | VBool (b : bool)
  | VInt (z : Z)
  | VFloat (f : float)
  | VStr (s : string)
  | VList (l : list pyval)
  | VDict (d : gmap string pyval).

Abbreviation dict := (gmap string pyval).

(** ** Text

    A [string] holds the UTF-8 bytes of a Python [str]; the code points
    are recovered where the built-ins look at them. *)
Module Unicode.

Definition code (c : ascii) : Z := Z.of_nat (nat_of_ascii c).
Definition byte (z : Z) : ascii := ascii_of_nat (Z.to_nat z).

(** The six payload bits of a continuation byte. *)
Definition continuation (c : ascii) : option Z :=
  let n := code c in
  if (128 <=? n) && (n <? 192) then Some (n - 128) else None.

(** The code points of a UTF-8 byte sequence; [None] when the bytes are
    no UTF-8 (an overlong form or a surrogate included). *)
Fixpoint decode (s : list ascii) : option (list Z) :=
  match s with
  | [] => Some []
  | a :: s1 =>
      let n := code a in
      if n <? 128 then cons n <$> decode s1
      else if n <? 194 then None
      else if n <? 224 then
        match s1 with
        | b :: s2 =>
            match continuation b with
            | Some x => cons ((n - 192) * 64 + x) <$> decode s2
            | None => None
            end
        | [] => None
        end
      else if n <? 240 then
        match s1 with
        | b :: c :: s3 =>
            match continuation b, continuation c with
            | Some x, Some y =>
                let cp := ((n - 224) * 64 + x) * 64 + y in
                if (cp <? 2048) || ((55296 <=? cp) && (cp <? 57344)) then None
                else cons cp <$> decode s3
            | _, _ => None
            end
        | _ => None
        end
      else if n <? 245 then
        match s1 with
        | b :: c :: d :: s4 =>
            match continuation b, continuation c, continuation d with
            | Some x, Some y, Some z =>
                let cp := (((n - 240) * 64 + x) * 64 + y) * 64 + z in
                if (cp <? 65536) || (1114111 <? cp) then None
                else cons cp <$> decode s4
            | _, _, _ => None
            end
        | _ => None
        end
      else None
  end.

Definition encode_one (cp : Z) : list ascii :=
  if cp <? 128 then [byte cp]
  else if cp <? 2048 then [byte (192 + cp / 64); byte (128 + cp mod 64)]
  else if cp <? 65536 then
    [byte (224 + cp / 4096); byte (128 + (cp / 64) mod 64); byte (128 + cp mod 64)]
  else
    [byte (240 + cp / 262144); byte (128 + (cp / 4096) mod 64);
     byte (128 + (cp / 64) mod 64); byte (128 + cp mod 64)].

Definition encode (cps : list Z) : list ascii := concat (encode_one <$> cps).

(** [str.isspace] of one code point. *)
Definition is_space (cp : Z) : bool :=
  ((9 <=? cp) && (cp <=? 13)) || ((28 <=? cp) && (cp <=? 32))
  || (cp =? 133) || (cp =? 160) || (cp =? 5760)
  || ((8192 <=? cp) && (cp <=? 8202))
  || (cp =? 8232) || (cp =? 8233) || (cp =? 8239) || (cp =? 8287)
  || (cp =? 12288).

(** The zero of each run of ten decimal digits (Unicode 14.0, the table
    of Python 3.11). *)
Definition decimal_zeros : list Z :=
  [48; 1632; 1776; 1984; 2406; 2534; 2662; 2790; 2918; 3046; 3174; 3302;
   3430; 3558; 3664; 3792; 3872; 4160; 4240; 6112; 6160; 6470; 6608; 6784;
   6800; 6992; 7088; 7232; 7248; 42528; 43216; 43264; 43472; 43504; 43600;
   44016; 65296; 66720; 68912; 69734; 69872; 69942; 70096; 70384; 70736;
   70864; 71248; 71360; 71472; 71904; 72016; 72784; 73040; 73120; 92768;
   92864; 93008; 120782; 120792; 120802; 120812; 120822; 123200; 123632;
   125264; 130032].

(** The value of a decimal digit, [None] for any other code point. *)
Definition decimal (cp : Z) : option Z :=
  (fun z => cp - z)
    <$> List.find (fun z => (z <=? cp) && (cp <? z + 10)) decimal_zeros.

Fixpoint lstrip (cps : list Z) : list Z :=
  match cps with
  | cp :: cps' => if is_space cp then lstrip cps' else cps
  | [] => []
  end.

(** [str.strip()] on code points. *)
Definition strip (cps : list Z) : list Z := rev (lstrip (rev (lstrip cps))).

End Unicode.

(** ** [int] and [float] of a string *)
Module Parse.

(** The ASCII form in which [int] and [float] read a [str]: a code point
    below 127 stays as it is; beyond, white space becomes a space, a
    decimal digit its ASCII digit, and anything else a question mark at
    which the text ends. *)
Fixpoint ascii_form (cps : list Z) : list ascii :=
  match cps with
  | [] => []
  | cp :: cps' =>
      if cp <? 127 then Unicode.byte cp :: ascii_form cps'
      else if Unicode.is_space cp then " "%char :: ascii_form cps'
      else match Unicode.decimal cp with
           | Some d => Unicode.byte (48 + d) :: ascii_form cps'
           | None => ["?"%char]
           end
  end.

Definition text (s : string) : list ascii :=
  match Unicode.decode (list_ascii_of_string s) with
  | Some cps => ascii_form cps
  | None => ["?"%char]
  end.

(** The white space that the parsers skip at both ends of the ASCII form:
    space, tab, line feed, vertical tab, form feed, carriage return. *)
Definition is_space (c : ascii) : bool :=
  let n := nat_of_ascii c in
  orb (Nat.eqb n 32) (andb (Nat.leb 9 n) (Nat.leb n 13)).

Definition digit_of (c : ascii) : option Z :=
  let n := nat_of_ascii c in
  if andb (Nat.leb 48 n) (Nat.leb n 57) then Some (Z.of_nat (n - 48)) else None.

Definition lower (c : ascii) : ascii :=
  let n := nat_of_ascii c in
  if andb (Nat.leb 65 n) (Nat.leb n 90) then ascii_of_nat (n + 32) else c.

Fixpoint lstrip (s : list ascii) : list ascii :=
  match s with
  | c :: s' => if is_space c then lstrip s' else s
  | [] => []
  end.

Definition strip (s : list ascii) : list ascii :=
  rev (lstrip (rev (lstrip s))).

(** An optional sign: [true] for a minus. *)
Definition sign (s : list ascii) : bool * list ascii :=
  match s with
  | "+"%char :: s' => (false, s')
  | "-"%char :: s' => (true, s')
  | _ => (false, s)
  end.

(** After a digit: further digits, each optionally preceded by one
    underscore. *)
Fixpoint more_digits (s : list ascii) : list Z * list ascii :=
  match s with
  | c :: s' =>
      match digit_of c with
      | Some d => let '(ds, r) := more_digits s' in (d :: ds, r)
      | None =>
          if Ascii.eqb c "_"
          then match s' with
               | c' :: s'' =>
                   match digit_of c' with
                   | Some d => let '(ds, r) := more_digits s'' in (d :: ds, r)
                   | None => ([], s)
                   end
               | [] => ([], s)
               end
          else ([], s)
      end
  | [] => ([], [])
  end.

(** A digit part, [digit (["_"] digit)*]; no digits when [s] does not
    start with one. *)
Definition digitpart (s : list ascii) : list Z * list ascii :=
  match s with
  | c :: s' =>
      match digit_of c with
      | Some d => let '(ds, r) := more_digits s' in (d :: ds, r)
      | None => ([], s)
      end
  | [] => ([], [])
  end.

Definition number_of (ds : list Z) : Z :=
  fold_left (fun acc d => 10 * acc + d) ds 0.

(** [int(s)] for a string, base ten: [None] is a [ValueError]. *)
Definition parse_int (s : string) : option Z :=
  let '(neg, r) := sign (strip (text s)) in
  match digitpart r with
  | ((_ :: _) as ds, []) => Some (cond_Zopp neg (number_of ds))
  | _ => None
  end.

(** The exponent part: [("e" | "E") ["+" | "-"] digitpart], or nothing. *)
Definition exponent (s : list ascii) : option (Z * list ascii) :=
  match s with
  | c :: s' =>
      if Ascii.eqb (lower c) "e"
      then let '(neg, r) := sign s' in
           match digitpart r with
           | ((_ :: _) as ds, r') => Some (cond_Zopp neg (number_of ds), r')
           | ([], _) => None
           end
      else Some (0, s)
  | [] => Some (0, [])
  end.

(** [float(s)] for a string: [None] is a [ValueError]. *)
Definition parse_float (s : string) : option float :=
  let '(neg, r) := sign (strip (text s)) in
  let word := string_of_list_ascii (map lower r) in
  if orb (String.eqb word "inf") (String.eqb word "infinity")
  then Some (PyFloat.inf neg)
  else if String.eqb word "nan" then Some PyFloat.nan
  else
    let '(ip, r1) := digitpart r in
    let '(fp, r2) :=
      match r1 with
      | c :: r1' => if Ascii.eqb c "." then digitpart r1' else ([], r1)
      | [] => ([], [])
      end in
    match ip ++ fp with
    | [] => None
    | ds =>
        match exponent r2 with
        | Some (e, []) =>
            Some (PyFloat.of_decimal neg (number_of ds) (e - Z.of_nat (length fp)))
        | _ => None
        end
    end.

End Parse.

(** [int(v)] *)
Definition py_int (v : pyval) : result Z :=
  match v with
  | VInt z => Ok z
  | VBool b => Ok (if b then 1 else 0)
  | VFloat f =>
      match PyFloat.trunc f with
      | Some z => Ok z
      | None => Raise (if PyFloat.is_nan f then ValueError else OverflowError)
      end
  | VStr s =>
      match Parse.parse_int s with
      | Some z => Ok z
      | None => Raise ValueError
      end
  | VNone | VList _ | VDict _ => Raise TypeError
  end.

(** The conversion of an [int] operand to [float]. *)
Definition float_of_int (z : Z) : result float :=
  let f := PyFloat.of_Z z in
  if PyFloat.is_finite f then Ok f else Raise OverflowError.

(** [float(v)] *)
Definition py_float (v : pyval) : result float :=
  match v with
  | VFloat f => Ok f
  | VInt z => float_of_int z
  | VBool b => Ok (if b then PyFloat.one else PyFloat.zero)
  | VStr s =>
      match Parse.parse_float s with
      | Some f => Ok f
      | None => Raise ValueError
      end
  | VNone | VList _ | VDict _ => Raise TypeError
  end.

(** [round(x)] for a float, without a digit count. *)
Definition py_round (x : float) : result Z :=
  match PyFloat.round_half_even x with
  | Some z => Ok z
  | None => Raise (if PyFloat.is_nan x then ValueError else OverflowError)
  end.

(** [x / y] for two floats. *)
Definition py_truediv (x y : float) : result float :=
  if PyFloat.is_zero y then Raise ZeroDivisionError else Ok (PyFloat.div x y).

(** [v != s] for a string literal [s]. *)
Definition py_ne_str (v : pyval) (s : string) : bool :=
  match v with
  | VStr s' => negb (String.eqb s' s)
  | _ => true
  end.

(** [v == s] for a string [s]. *)
Definition py_eq_str (v : pyval) (s : string) : bool := negb (py_ne_str v s).

(** [d.get(k)] and [d.get(k, default)] *)
Definition dict_get (d : dict) (k : string) : pyval := default VNone (d !! k).
Definition dict_get_or (d : dict) (k : string) (dflt : pyval) : pyval :=
  default dflt (d !! k).

(** [d[k]] *)
Definition dict_item (d : dict) (k : string) : result pyval :=
  match d !! k with
  | Some v => Ok v
  | None => Raise KeyError
  end.

(** [str(z)] for an [int]. *)
Definition str_of_int (z : Z) : string := pretty z.

(** The receiver of [p.get(...)] must be a dict. *)
Definition as_dict (p : pyval) : result dict :=
  match p with
  | VDict d => Ok d
  | _ => Raise AttributeError
  end.

(** The items a [for] loop draws from a JSON value. A dict yields its
    keys; their order is immaterial here, as the first [.get] on a key
    raises. *)
Definition py_iter (v : pyval) : result (list pyval) :=
  match v with
  | VList l => Ok l
  | VDict d => Ok (VStr <$> (map_to_list d).*1)
  | VStr s => Ok ((fun c => VStr (String c EmptyString)) <$> list_ascii_of_string s)
  | VNone | VBool _ | VInt _ | VFloat _ => Raise TypeError
  end.

(** [not v] *)
Definition py_falsy (v : pyval) : bool :=
  match v with
  | VNone => true
  | VBool b => negb b
  | VInt z => z =? 0
  | VFloat f => PyFloat.is_zero f
  | VStr s => String.eqb s ""
  | VList l => match l with [] => true | _ => false end
  | VDict d => bool_decide (d = ∅)
  end.

(** ** Offer Selector *)

Definition one_day_sec : Z := 24 * 60 * 60.

(** [0.5 * one_day_sec] and [2.0 * one_day_sec] *)
Definition window_lo : float := PyFloat.mul PyFloat.half (PyFloat.of_Z one_day_sec).
Definition window_hi : float := PyFloat.mul PyFloat.two (PyFloat.of_Z one_day_sec).

(** [0.5 * one_day_sec <= delta <= 2.0 * one_day_sec] *)
Definition in_window (delta : Z) : bool :=
  PyFloat.le_Z window_lo delta && PyFloat.Z_le delta window_hi.

(** One pass of the loop body over [p]: [None] for [continue], the offer
    with its [_apy] entry set when it is appended to the candidates. *)
Definition consider (now : Z) (p : pyval) : result (option dict) :=
  let? d := as_dict p in
  if py_ne_str (dict_get d "invest_currency") "USDT" then Ok None else
  if py_ne_str (dict_get d "exercise_currency") "ETH" then Ok None else
  if py_ne_str (dict_get d "type") "put" then Ok None else
  if py_ne_str (dict_get d "status") "ONGOING" then Ok None else
  let? delivery := py_int (dict_get_or d "delivery_time" (VInt 0)) in
  if negb (in_window (delivery - now)) then Ok None else
  let? apy := except_ValueError
                (py_float (dict_get_or d "apy_display" (VStr "0")))
                PyFloat.zero in
  Ok (Some (<["_apy" := VFloat apy]> d)).

Fixpoint scan (now : Z) (ps : list pyval) (candidates : list dict)
  : result (list dict) :=
  match ps with
  | [] => Ok candidates
  | p :: ps' =>
      let? c := consider now p in
      scan now ps' (match c with
                    | Some d => candidates ++ [d]
                    | None => candidates
                    end)
  end.

(** The key of the ranking, [x["_apy"]]; the loop stores a float there. *)
Definition apy_key (x : dict) : result float :=
  let? v := dict_item x "_apy" in
  match v with
  | VFloat f => Ok f
  | _ => Raise TypeError
  end.

(** [max(l, key=key)]: the first item whose key no later item exceeds. *)
Fixpoint max_from {A : Type} (key : A -> result float) (best : A)
    (kbest : float) (l : list A) : result A :=
  match l with
  | [] => Ok best
  | x :: l' =>
      let? kx := key x in
      if PyFloat.gtb kx kbest then max_from key x kx l'
      else max_from key best kbest l'
  end.

Definition py_max {A : Type} (key : A -> result float) (l : list A) : result A :=
  match l with
  | [] => Raise ValueError
  | x :: l' => let? kx := key x in max_from key x kx l'
  end.

(** [find_best_eth_dual_one_day], given the fetched [plans] and the clock
    reading [now] of its first two lines. *)
Definition find_best_eth_dual_one_day (plans : pyval) (now : Z) : result dict :=
  let? ps := py_iter plans in
  let? candidates := scan now ps [] in
  match candidates with
  | [] => Raise (RuntimeError NoEligibleOffer)
  | _ => py_max apy_key candidates
  end.

(** ** Hedge Sizer *)

(** [x * v] for a float [x] and a configured scalar [v]. *)
Definition py_mul_float (x : float) (v : pyval) : result float :=
  match v with
  | VFloat y => Ok (PyFloat.mul x y)
  | VInt z => let? y := float_of_int z in Ok (PyFloat.mul x y)
  | VBool b => Ok (PyFloat.mul x (if b then PyFloat.one else PyFloat.zero))
  | VNone | VStr _ | VList _ | VDict _ => Raise TypeError
  end.

Definition calc_hedge_size_usdt (amount_dual_usdt : float)
    (hedge_multiplier : pyval) (exercise_price : float) : result float :=
  py_mul_float amount_dual_usdt hedge_multiplier.

(** The multiplier that [calc_contract_size_from_usdt] divides by. *)
Definition contract_multiplier (contract_info : dict) : result float :=
  match contract_info !! "quanto_multiplier" with
  | Some v => except_ValueError (py_float v) PyFloat.one
  | None => Ok PyFloat.one
  end.

Definition calc_contract_size_from_usdt (notional_usdt : float)
    (contract_info : dict) (mark_price : float) : result Z :=
  let? multiplier := contract_multiplier contract_info in
  let? q := py_truediv notional_usdt multiplier in
  let? size := py_round q in
  Ok (if size =? 0 then 1 else size).

(** ** The world: scripted collaborators and the trace of effects *)

Inductive http_method := GET | POST.

(** A request as it reaches [requests.get] / [requests.post]: the path
    below the API prefix, the query string, the JSON body of a POST and the
    [Timestamp] header of a signed request. *)
Record request := {
  req_method : http_method;
  req_url : string;
  req_query : string;
  req_body : option dict;
  req_timestamp : option string
}.

Inductive event :=
  | Http (r : request)
  | Sleep (secs : pyval).

(** The collaborators of one run. [responses] scripts the outcome of the
    successive HTTP calls, a [Raise] standing for a transport failure or a
    non-success status; when the script is exhausted a call raises
    [StopIteration], as a scripted test double does. [stdin] holds the
    console lines still to be read, [clock n] is the [n]-th reading of
    [time.time()], [config_file] the parsed content of the configuration
    file, and [trace] the events so far, oldest first. *)
Record world := {
  responses : list (result pyval);
  stdin : list string;
  clock : nat -> float;
  clock_reads : nat;
  config_file : result pyval;
  trace : list event
}.

Definition prog (A : Type) : Type := world -> result A * world.

Definition ret {A : Type} (a : A) : prog A := fun w => (Ok a, w).

Definition lift {A : Type} (r : result A) : prog A := fun w => (r, w).

Definition bindp {A B : Type} (p : prog A) (k : A -> prog B) : prog B :=
  fun w =>
    match p w with
    | (Ok a, w') => k a w'
    | (Raise e, w') => (Raise e, w')
    end.

Notation "'let!' x ':=' p 'in' k" := (bindp p (fun x => k))
  (at level 10, x name, p at level 100, k at level 200).

(** Updates of one component of the world. *)
Definition with_trace (w : world) (tr : list event) : world :=
  {| responses := responses w; stdin := stdin w; clock := clock w;
     clock_reads := clock_reads w; config_file := config_file w; trace := tr |}.

Definition with_clock_reads (w : world) (n : nat) : world :=
  {| responses := responses w; stdin := stdin w; clock := clock w;
     clock_reads := n; config_file := config_file w; trace := trace w |}.

Definition with_stdin (w : world) (lines : list string) : world :=
  {| responses := responses w; stdin := lines; clock := clock w;
     clock_reads := clock_reads w; config_file := config_file w;
     trace := trace w |}.

Definition with_responses (w : world) (rs : list (result pyval)) : world :=
  {| responses := rs; stdin := stdin w; clock := clock w;
     clock_reads := clock_reads w; config_file := config_file w;
     trace := trace w |}.

Definition emit (ev : event) : prog unit :=
  fun w => (Ok tt, with_trace w (trace w ++ [ev])).

(** [time.time()] *)
Definition time_time : prog float :=
  fun w => (Ok (clock w (clock_reads w)), with_clock_reads w (S (clock_reads w))).

(** [int(time.time())] *)
Definition int_time : prog Z :=
  let! t := time_time in lift (py_int (VFloat t)).

(** [input(prompt)] *)
Definition input : prog string :=
  fun w =>
    match stdin w with
    | line :: rest => (Ok line, with_stdin w rest)
    | [] => (Raise EOFError, w)
    end.

(** The next scripted outcome of an HTTP call. *)
Definition next_response : prog pyval :=
  fun w =>
    match responses w with
    | r :: rest => (r, with_responses w rest)
    | [] => (Raise StopIteration, w)
    end.

(** [time.sleep(secs)]: a negative or NaN duration is a [ValueError], one
    beyond the range of the system timer (64-bit nanoseconds) an
    [OverflowError]. *)
Definition max_sleep : Z := 9223372036.

Definition time_sleep (secs : pyval) : prog unit :=
  match secs with
  | VInt z =>
      if z <? 0 then lift (Raise ValueError)
      else if z <=? max_sleep then emit (Sleep secs)
      else lift (Raise OverflowError)
  | VBool _ => emit (Sleep secs)
  | VFloat f =>
      if PyFloat.is_nan f || PyFloat.ltb f PyFloat.zero
      then lift (Raise ValueError)
      else if PyFloat.le_Z f max_sleep then emit (Sleep secs)
      else lift (Raise OverflowError)
  | VNone | VStr _ | VList _ | VDict _ => lift (Raise TypeError)
  end.

(** [s.strip()]: the white space of [str.isspace] is removed at both ends.
    Bytes that are no UTF-8 are no [str] and are left as they are. *)
Definition py_strip (s : string) : string :=
  match Unicode.decode (list_ascii_of_string s) with
  | Some cps => string_of_list_ascii (Unicode.encode (Unicode.strip cps))
  | None => s
  end.

(** [s.lower()]: the ASCII letters are lowered and a letter beyond ASCII
    is left as it is. [main] compares the result with "yes", and no
    letter beyond ASCII lowers to a y, an e or an s. *)
Definition py_lower (s : string) : string :=
  string_of_list_ascii (map Parse.lower (list_ascii_of_string s)).

(** ** Signed HTTP client *)

(** [gen_sign]: reads the clock for the [Timestamp] header and signs with
    the secret, which must be a string. The digest itself is not
    modelled; the result is the timestamp. *)
Definition gen_sign (api_secret : pyval) : prog string :=
  let! t := int_time in
  match api_secret with
  | VStr _ => ret (str_of_int t)
  | _ => lift (Raise AttributeError)
  end.

(** [requests.get] / [requests.post] followed by [raise_for_status] and
    [json]: the prepared request is handed to the library and the next
    scripted outcome is its answer. [bot.py] checks nothing of the
    headers itself; what the library makes of them is part of that
    outcome. *)
Definition send (r : request) : prog pyval :=
  let! _ := emit (Http r) in next_response.

Definition http_get (url query : string) (api_key api_secret : pyval)
    (auth : bool) : prog pyval :=
  if auth then
    let! ts := gen_sign api_secret in
    send {| req_method := GET; req_url := url; req_query := query;
            req_body := None; req_timestamp := Some ts |}
  else
    send {| req_method := GET; req_url := url; req_query := query;
            req_body := None; req_timestamp := None |}.

Definition http_post (url : string) (body_dict : dict) (query : string)
    (api_key api_secret : pyval) : prog pyval :=
  let! ts := gen_sign api_secret in
  send {| req_method := POST; req_url := url; req_query := query;
          req_body := Some body_dict; req_timestamp := Some ts |}.

(** [load_config] *)
Definition require_field (cfg : dict) (k : string) : result unit :=
  if py_falsy (dict_get cfg k) then Raise (RuntimeError MissingCredential)
  else Ok tt.

Definition setdefault (k : string) (v : pyval) (cfg : dict) : dict :=
  match cfg !! k with
  | Some _ => cfg
  | None => <[k := v]> cfg
  end.

Definition load_config : prog dict :=
  fun w =>
    (let? v := config_file w in
     let? cfg := as_dict v in
     let? _ := require_field cfg "api_key" in
     let? _ := require_field cfg "api_secret" in
     Ok (setdefault "poll_interval_sec" (VInt 60)
          (setdefault "hedge_multiplier" (VFloat PyFloat.one)
            (setdefault "futures_contract" (VStr "ETH_USDT")
              (setdefault "futures_settle" (VStr "usdt") cfg)))), w).

(** ** Settlement Monitor *)

(** The search of the poll: the first order whose [text] is the tag. *)
Fixpoint find_order (order_text : string) (orders : list pyval)
  : result (option dict) :=
  match orders with
  | [] => Ok None
  | o :: orders' =>
      let? d := as_dict o in
      if py_eq_str (dict_get d "text") order_text then Ok (Some d)
      else find_order order_text orders'
  end.

(** The [while True] loop, with [fuel] bounding the number of polls;
    [None] when the fuel runs out. A found order is a non-empty dict, so
    [not target] holds exactly when none was found. *)
Fixpoint poll_loop (fuel : nat) (order_text : string)
    (api_key api_secret poll_interval : pyval) : prog (option dict) :=
  match fuel with
  | O => ret None
  | S fuel' =>
      let! orders := http_get "/earn/dual/orders" "" api_key api_secret true in
      let! os := lift (py_iter orders) in
      let! target := lift (find_order order_text os) in
      match target with
      | None =>
          let! _ := time_sleep poll_interval in
          poll_loop fuel' order_text api_key api_secret poll_interval
      | Some t =>
          if py_eq_str (dict_get t "status") "SETTLEMENT_SUCCESS"
          then ret (Some t)
          else
            let! _ := time_sleep poll_interval in
            poll_loop fuel' order_text api_key api_secret poll_interval
      end
  end.

(** Every poll consumes one scripted response, so one more unit of fuel
    than there are responses is never used up. *)
Definition wait_for_dual_settlement (order_text : string)
    (api_key api_secret poll_interval : pyval) : prog (option dict) :=
  fun w =>
    poll_loop (S (length (responses w))) order_text api_key api_secret
      poll_interval w.

(** ** Order Orchestrator and main flow *)

Section Orchestrator.

(** [str(v)] (also the formatting of [v] in an f-string) and [a == b] on
    arbitrary JSON values are builtins taken as parameters. *)
Variable py_str : pyval -> string.
Variable py_eq : pyval -> pyval -> bool.

Definition place_dual_order (plan : dict) (amount_usdt : float)
    (api_key api_secret : pyval) (custom_text : string) : prog pyval :=
  let! id := lift (dict_item plan "id") in
  let body : dict :=
    <["text" := VStr custom_text]>
      (<["amount" := VStr (py_str (VFloat amount_usdt))]>
        (<["plan_id" := VStr (py_str id)]> ∅)) in
  http_post "/earn/dual/orders" body "" api_key api_secret.

Definition get_futures_ticker (settle contract : pyval) : prog pyval :=
  let! data := http_get ("/futures/" ++ py_str settle ++ "/tickers")
                        ("contract=" ++ py_str contract) VNone VNone false in
  match data with
  | VList (x :: _) => ret x
  | VList [] => lift (Raise IndexError)
  | _ => ret data
  end.

Fixpoint find_contract (contract : pyval) (cs : list pyval) : result dict :=
  match cs with
  | [] => Raise (RuntimeError ContractNotFound)
  | c :: cs' =>
      let? d := as_dict c in
      if py_eq (dict_get d "name") contract then Ok d
      else find_contract contract cs'
  end.

Definition get_futures_contract (settle contract : pyval) : prog dict :=
  let! data := http_get ("/futures/" ++ py_str settle ++ "/contracts") ""
                        VNone VNone false in
  let! cs := lift (py_iter data) in
  lift (find_contract contract cs).

(** The body that [open_futures_short] posts. *)
Definition short_order_body (contract : pyval) (size : Z) (reduce_only : bool)
  : result dict :=
  let? n := py_int (VInt size) in
  let body : dict :=
    <["text" := VStr "dual-hedge-short"]>
      (<["tif" := VStr "ioc"]>
        (<["iceberg" := VInt 0]>
          (<["size" := VInt (- Z.abs n)]>
            (<["contract" := contract]> ∅)))) in
  Ok (if reduce_only then <["reduce_only" := VBool true]> body else body).

Definition open_futures_short (settle contract : pyval) (size : Z)
    (api_key api_secret : pyval) (reduce_only : bool) : prog pyval :=
  let! body := lift (short_order_body contract size reduce_only) in
  http_post ("/futures/" ++ py_str settle ++ "/orders") body ""
            api_key api_secret.

(** [find_best_eth_dual_one_day()] with its fetch and its clock reading. *)
Definition find_best_eth_dual_one_day_call : prog dict :=
  let! plans := http_get "/earn/dual/investment_plan" "" VNone VNone false in
  let! now := int_time in
  lift (find_best_eth_dual_one_day plans now).

(** [ticker["last"]] on the fetched ticker. *)
Definition py_item (v : pyval) (k : string) : result pyval :=
  match v with
  | VDict d => dict_item d k
  | _ => Raise TypeError
  end.

(** [datetime.fromtimestamp(ts, tz=timezone.utc)] rejects a timestamp
    outside the years 1 to 9999. *)
Definition utc_fromtimestamp (ts : Z) : result unit :=
  if (-62135596800 <=? ts) && (ts <=? 253402300799) then Ok tt
  else Raise ValueError.

(** [custom_text = f"dual-hedge-{int(time.time())}"] *)
Definition custom_text_of (t : Z) : string := "dual-hedge-" ++ str_of_int t.

Definition correlation_tag : prog string :=
  let! t := int_time in ret (custom_text_of t).

Definition main : prog unit :=
  let! cfg := load_config in
  let! api_key := lift (dict_item cfg "api_key") in
  let! api_secret := lift (dict_item cfg "api_secret") in
  let! line := input in
  let! amount_usdt := lift (py_float (VStr (py_strip line))) in
  let! plan := find_best_eth_dual_one_day_call in
  let! ep := lift (dict_item plan "exercise_price") in
  let! exercise_price := lift (py_float ep) in
  let! apy := lift (py_float (dict_get_or plan "apy_display" (VStr "0"))) in
  let! dt := lift (dict_item plan "delivery_time") in
  let! delivery_ts := lift (py_int dt) in
  let! _ := lift (utc_fromtimestamp delivery_ts) in
  let! hm := lift (dict_item cfg "hedge_multiplier") in
  let! hedge_notional := lift (calc_hedge_size_usdt amount_usdt hm exercise_price) in
  let! settle := lift (dict_item cfg "futures_settle") in
  let! contract := lift (dict_item cfg "futures_contract") in
  let! contract_info := get_futures_contract settle contract in
  let! ticker := get_futures_ticker settle contract in
  let! last := lift (py_item ticker "last") in
  let! mark_price := lift (py_float last) in
  let! contract_size :=
    lift (calc_contract_size_from_usdt hedge_notional contract_info mark_price) in
  let! answer := input in
  if negb (String.eqb (py_lower (py_strip answer)) "yes") then ret tt
  else
    let! custom_text := correlation_tag in
    let! dual_resp :=
      place_dual_order plan amount_usdt api_key api_secret custom_text in
    let! fut_resp :=
      open_futures_short settle contract contract_size api_key api_secret false in
    ret tt.


End Orchestrator.

(** ** Vocabulary of the specification *)

(** The reading of the two converted fields of an offer. *)
Definition delivery_time_of (d : dict) : result Z :=
  py_int (dict_get_or d "delivery_time" (VInt 0)).

Definition apy_of (d : dict) : result float :=
  except_ValueError (py_float (dict_get_or d "apy_display" (VStr "0")))
                    PyFloat.zero.

(** The parsed annualized yield of an offer. *)
Definition parsed_yield (d : dict) : float :=
  match apy_of d with
  | Ok f => f
  | Raise _ => PyFloat.zero
  end.

(** The four field filters: funding asset, hedge asset, downside kind,
    ongoing status. *)
Definition fields_pass (d : dict) : bool :=
  py_eq_str (dict_get d "invest_currency") "USDT"
  && py_eq_str (dict_get d "exercise_currency") "ETH"
  && py_eq_str (dict_get d "type") "put"
  && py_eq_str (dict_get d "status") "ONGOING".

(** Time-to-delivery within 0.5 and 2.0 days, both ends included. *)
Definition within_days (delta : Z) : bool :=
  (one_day_sec <=? 2 * delta) && (delta <=? 2 * one_day_sec).

(** The filtering predicate of the Offer Selector. *)
Definition eligible (now : Z) (d : dict) : bool :=
  fields_pass d
  && match delivery_time_of d with
     | Ok t => within_days (t - now)
     | Raise _ => false
     end.

(** An offer whose delivery time converts to an integer and whose yield
    converts to a float or is rejected as malformed. *)
Definition readable (d : dict) : bool :=
  match delivery_time_of d, apy_of d with
  | Ok _, Ok _ => true
  | _, _ => false
  end.

(** The field types of the remote protocol: an integer delivery time and
    a string yield, each possibly absent. *)
Definition typed_offer (d : dict) : bool :=
  match d !! "delivery_time" with
  | Some (VInt _) | None => true
  | Some _ => false
  end
  && match d !! "apy_display" with
     | Some (VStr _) | None => true
     | Some _ => false
     end.

(** A yield field that is missing or a string [float] rejects. *)
Definition yield_missing_or_malformed (d : dict) : Prop :=
  d !! "apy_display" = None
  \/ exists s, d !! "apy_display" = Some (VStr s) /\ Parse.parse_float s = None.

(** The two half-open readings of the delivery window. *)
Definition within_days_right_open (delta : Z) : bool :=
  (one_day_sec <=? 2 * delta) && (delta <? 2 * one_day_sec).
Definition within_days_left_open (delta : Z) : bool :=
  (one_day_sec <? 2 * delta) && (delta <=? 2 * one_day_sec).

(** A position of non-NaN floats in a lexicographic order on integer
    triples that agrees with their comparison. *)
Definition rank (x : float) : Z * Z * Z :=
  match x with
  | S754_nan => (0, 0, 0)
  | S754_infinity true => (-2, 0, 0)
  | S754_infinity false => (2, 0, 0)
  | S754_zero _ => (0, 0, 0)
  | S754_finite true m e => (-1, - e, - Zpos m)
  | S754_finite false m e => (1, e, Zpos m)
  end.

Definition lex_lt (a b : Z * Z * Z) : Prop :=
  let '(a1, a2, a3) := a in
  let '(b1, b2, b3) := b in
  a1 < b1 \/ (a1 = b1 /\ (a2 < b2 \/ (a2 = b2 /\ a3 < b3))).

(** An eligible offer as the loop appends it: with its parsed yield
    stored under [_apy]. *)
Definition with_apy (d : dict) : dict :=
  <["_apy" := VFloat (parsed_yield d)]> d.

Definition candidates_of (now : Z) (offers : list dict) : list dict :=
  with_apy <$> filter (fun d => eligible now d = true) offers.

(** A fetched offer list: a JSON array of objects. *)
Definition offer_list (offers : list dict) : pyval := VList (VDict <$> offers).

(** Sample offers: all four field filters pass; the yield field and the
    delivery time vary. *)
Definition sample_offer (id : Z) (apy : option pyval) (delivery : Z) : dict :=
  let d : dict :=
    <["id" := VInt id]>
      (<["invest_currency" := VStr "USDT"]>
        (<["exercise_currency" := VStr "ETH"]>
          (<["type" := VStr "put"]>
            (<["status" := VStr "ONGOING"]>
              (<["exercise_price" := VStr "3000"]>
                (<["delivery_time" := VInt delivery]> ∅)))))) in
  match apy with
  | Some v => <["apy_display" := v]> d
  | None => d
  end.

Definition sample_now : Z := 1700000000.

Definition offer_at (delta : Z) : dict :=
  sample_offer 1 (Some (VStr "9.0")) (sample_now + delta).

Definition offer_85 : dict := sample_offer 1 (Some (VStr "8.5")) (sample_now + 82800).
Definition offer_92 : dict := sample_offer 2 (Some (VStr "9.2")) (sample_now + 82800).
Definition offer_malformed : dict :=
  sample_offer 3 (Some (VStr "n/a")) (sample_now + 82800).
Definition offer_late : dict :=
  sample_offer 4 (Some (VStr "50")) (sample_now + 7 * one_day_sec).

(** Contract metadata carrying the multiplier [v], and without one. *)
Definition meta_with (v : pyval) : dict :=
  <["quanto_multiplier" := v]> (<["name" := VStr "ETH_USDT"]> ∅).
Definition meta_plain : dict := <["name" := VStr "ETH_USDT"]> ∅.

(** The clamp of a zero size to one lot. *)
Definition clamp_lot (size : Z) : Z := if size =? 0 then 1 else size.

(** ** Vocabulary of the settlement monitor *)

(** What one poll observes of the tagged order. *)
Inductive poll_state :=
  | NotFound
  | Pending
  | Settled (o : dict).

Definition observe (order_text : string) (response : result pyval)
  : result poll_state :=
  let? orders := response in
  let? os := py_iter orders in
  let? target := find_order order_text os in
  Ok (match target with
      | None => NotFound
      | Some t =>
          if py_eq_str (dict_get t "status") "SETTLEMENT_SUCCESS"
          then Settled t else Pending
      end).

Definition non_terminal (order_text : string) (response : result pyval) : Prop :=
  observe order_text response = Ok NotFound
  \/ observe order_text response = Ok Pending.

(** The [Timestamp] header of a request signed at the [n]-th clock
    reading. *)
Definition timestamp_at (clk : nat -> float) (n : nat) : string :=
  match py_int (VFloat (clk n)) with
  | Ok t => str_of_int t
  | Raise _ => ""
  end.

Definition poll_event (clk : nat -> float) (n : nat) : event :=
  Http {| req_method := GET; req_url := "/earn/dual/orders"; req_query := "";
          req_body := None; req_timestamp := Some (timestamp_at clk n) |}.

(** The events of [S n] polls: a poll, then [n] times a sleep of the
    configured interval followed by a poll. *)
Fixpoint polls_trace (clk : nat -> float) (reads : nat) (interval : pyval)
    (n : nat) : list event :=
  match n with
  | O => [poll_event clk reads]
  | S n' => poll_event clk reads :: Sleep interval
            :: polls_trace clk (S reads) interval n'
  end.

Definition is_poll (ev : event) : bool :=
  match ev with
  | Http r =>
      match req_method r with
      | GET => String.eqb (req_url r) "/earn/dual/orders"
      | POST => false
      end
  | Sleep _ => false
  end.

(** A duration that [time.sleep] accepts. *)
Definition valid_sleep (secs : pyval) : bool :=
  match secs with
  | VInt z => (0 <=? z) && (z <=? max_sleep)
  | VBool _ => true
  | VFloat f =>
      negb (PyFloat.is_nan f || PyFloat.ltb f PyFloat.zero)
      && PyFloat.le_Z f max_sleep
  | _ => false
  end.

(** A clock whose readings all convert to whole seconds. *)
Definition clock_ok (clk : nat -> float) : Prop :=
  forall n, exists t, py_int (VFloat (clk n)) = Ok t.

(** ** Vocabulary of the order trace *)

Definition is_get (ev : event) : bool :=
  match ev with
  | Http r => match req_method r with GET => true | POST => false end
  | Sleep _ => false
  end.

Definition is_investment_post (ev : event) : bool :=
  match ev with
  | Http r =>
      match req_method r with
      | POST => String.eqb (req_url r) "/earn/dual/orders"
      | GET => false
      end
  | Sleep _ => false
  end.

Definition is_hedge_post (ev : event) : bool :=
  match ev with
  | Http r =>
      match req_method r with
      | POST => String.prefix "/futures/" (req_url r)
      | GET => false
      end
  | Sleep _ => false
  end.

(** The events of a run: fetches, then nothing, or the investment order,
    or the investment order followed by the hedge order. *)
Definition submissions_ordered (evs : list event) : Prop :=
  exists gets rest,
    evs = gets ++ rest /\ Forall (fun ev => is_get ev = true) gets
    /\ (rest = []
        \/ (exists inv, rest = [inv] /\ is_investment_post inv = true)
        \/ (exists inv hedge, rest = [inv; hedge]
              /\ is_investment_post inv = true /\ is_hedge_post hedge = true)).

(** The request of a short order of [size] lots. *)
Definition is_short_order (url : string) (size : Z) (ev : event) : Prop :=
  exists r body,
    ev = Http r /\ req_method r = POST /\ req_url r = url
    /\ req_body r = Some body
    /\ body !! "size" = Some (VInt (- Z.abs size))
    /\ body !! "tif" = Some (VStr "ioc").

(** ** Sample worlds *)

Definition sample_clock (frac : Z) : nat -> float :=
  fun _ => PyFloat.of_decimal false (sample_now * 100 + frac) (-2).

Definition scripted (rs : list (result pyval)) (lines : list string)
    (clk : nat -> float) (cfg : result pyval) : world :=
  {| responses := rs; stdin := lines; clock := clk; clock_reads := 0;
     config_file := cfg; trace := [] |}.

Definition sample_tag : string := "dual-hedge-1699990000".

Definition order_with (text status : string) : pyval :=
  VDict (<["text" := VStr text]> (<["status" := VStr status]> ∅)).

Definition other_order : pyval := order_with "dual-hedge-1" "SETTLEMENT_SUCCESS".
Definition pending_order : pyval := order_with sample_tag "INIT".
Definition settled_order : pyval := order_with sample_tag "SETTLEMENT_SUCCESS".

Definition settled_record : dict :=
  <["text" := VStr sample_tag]> (<["status" := VStr "SETTLEMENT_SUCCESS"]> ∅).

(** The script not-found, pending, pending, settled. *)
Definition sample_script : list (result pyval) :=
  [Ok (VList [other_order]);
   Ok (VList [other_order; pending_order]);
   Ok (VList [pending_order]);
   Ok (VList [other_order; settled_order; pending_order])].

Definition sample_credentials : result pyval :=
  Ok (VDict (<["api_key" := VStr "key"]> (<["api_secret" := VStr "secret"]> ∅))).

Definition polling_world : world :=
  scripted sample_script [] (sample_clock 50) sample_credentials.

(** The end-to-end scenario: 1000 USDT, one eligible offer at 9 percent
    delivering in 23 hours, hedge multiplier 1.0 by default, no contract
    multiplier. *)
Definition e2e_offer : dict :=
  sample_offer 7 (Some (VStr "9")) (sample_now + 23 * 60 * 60).

Definition e2e_world : world :=
  scripted
    [Ok (offer_list [offer_late; e2e_offer]);
     Ok (VList [VDict (<["name" := VStr "BTC_USDT"]> ∅); VDict meta_plain]);
     Ok (VList [VDict (<["last" := VStr "3012.4"]> ∅)]);
     Ok (VDict (<["id" := VInt 1]> ∅));
     Ok (VDict (<["id" := VInt 2]> ∅))]
    ["1000"; " Yes "]%string (sample_clock 25) sample_credentials.

(** Simple instances of the two builtin parameters, right on the strings
    and integers of the samples. *)
Definition str_sample (v : pyval) : string :=
  match v with
  | VStr s => s
  | VInt z => str_of_int z
  | _ => "?"
  end.

Definition eq_sample (a b : pyval) : bool :=
  match a, b with
  | VStr x, VStr y => String.eqb x y
  | _, _ => false
  end.

(** A program that only adds fetches to the trace, and one whose added
    events are ordered submissions. *)
Definition fetches {A : Type} (p : prog A) : Prop :=
  forall w r w', p w = (r, w') ->
    exists evs, trace w' = trace w ++ evs
                /\ Forall (fun ev => is_get ev = true) evs.

Definition ordered {A : Type} (p : prog A) : Prop :=
  forall w r w', p w = (r, w') ->
    exists evs, trace w' = trace w ++ evs /\ submissions_ordered evs.

(** Every hedge order in [evs] comes after an investment order. *)
Definition hedge_after_investment (evs : list event) : Prop :=
  forall i hedge,
    evs !! i = Some hedge -> is_hedge_post hedge = true ->
    exists j inv, (j < i)%nat /\ evs !! j = Some inv
                  /\ is_investment_post inv = true.

(** Whether a computation returned. *)
Definition is_ok {A : Type} (r : result A) : bool :=
  match r with
  | Ok _ => true
  | Raise _ => false
  end.

(** An equality test made to compute on two strings, elsewhere [py_eq]. *)
Definition on_strings (py_eq : pyval -> pyval -> bool) (a b : pyval) : bool :=
  match a, b with
  | VStr x, VStr y => String.eqb x y
  | _, _ => py_eq a b
  end.

(** Two runs that differ in the amount typed and in the instant, within
    one second, at which they read the clock. *)
Definition run_a : world :=
  scripted [] ["1000"]%string (sample_clock 25) sample_credentials.
Definition run_b : world :=
  scripted [] ["2500"]%string (sample_clock 75) sample_credentials.

(** ** Vocabulary of the further properties *)

(** The defaults that [load_config] fills in. *)
Definition config_default (k : string) : option pyval :=
  if String.eqb k "futures_settle" then Some (VStr "usdt")
  else if String.eqb k "futures_contract" then Some (VStr "ETH_USDT")
  else if String.eqb k "hedge_multiplier" then Some (VFloat PyFloat.one)
  else if String.eqb k "poll_interval_sec" then Some (VInt 60)
  else None.

(** The offer list as one selection pass leaves it: the offers it kept
    carry their [_apy] entry. *)
Definition after_selection (now : Z) (offers : list dict) : list dict :=
  (fun d => if eligible now d then with_apy d else d) <$> offers.

(** A sample configuration file and sample offers with an unusable field. *)
Definition sample_config_file : dict :=
  <["api_key" := VStr "key"]>
    (<["api_secret" := VStr "secret"]>
      (<["futures_contract" := VStr "BTC_USDT"]> ∅)).

Definition offer_bad_delivery : dict :=
  <["delivery_time" := VStr "tomorrow"]> offer_85.

Definition offer_null_yield : dict :=
  <["apy_display" := VNone]> offer_85.

(** A program that leaves the console input untouched. *)
Definition keeps_stdin {A : Type} (p : prog A) : Prop :=
  forall w r w', p w = (r, w') -> stdin w' = stdin w.

(** What a run of [main] over the world [w] that sent an order has done.
    It loaded the configuration, read the amount and the answer yes from
    the first two console lines, selected [plan] from the first response
    at the first clock reading, took the notional from the amount and the
    configured multiplier, found the contract entry in the second
    response, sized the hedge from that notional and entry, sent the
    investment order for that plan and amount, and after it at most the
    hedge order of the computed size. *)
Definition submitted (py_str : pyval -> string) (py_eq : pyval -> pyval -> bool)
    (w : world) (added : list event) : Prop :=
  exists (cfg : dict) (line answer : string) (rest : list string)
         (amount : float) (plans contracts : pyval)
         (later : list (result pyval)) (now : Z) (plan : dict) (id hm : pyval)
         (notional : float) (settle contract : pyval) (cs : list pyval)
         (info : dict) (size : Z) (tag : string) (gets : list event)
         (inv : request) (body : dict) (tail : list event),
    load_config w = (Ok cfg, w)
    /\ stdin w = line :: answer :: rest
    /\ py_float (VStr (py_strip line)) = Ok amount
    /\ py_lower (py_strip answer) = "yes"%string
    /\ responses w = Ok plans :: Ok contracts :: later
    /\ py_int (VFloat (clock w (clock_reads w))) = Ok now
    /\ find_best_eth_dual_one_day plans now = Ok plan
    /\ plan !! "id" = Some id
    /\ cfg !! "hedge_multiplier" = Some hm
    /\ (forall ep, calc_hedge_size_usdt amount hm ep = Ok notional)
    /\ cfg !! "futures_settle" = Some settle
    /\ cfg !! "futures_contract" = Some contract
    /\ py_iter contracts = Ok cs
    /\ find_contract py_eq contract cs = Ok info
    /\ (forall price, calc_contract_size_from_usdt notional info price = Ok size)
    /\ added = gets ++ Http inv :: tail
    /\ Forall (fun ev => is_get ev = true) gets
    /\ is_investment_post (Http inv) = true
    /\ req_body inv = Some body
    /\ body !! "plan_id" = Some (VStr (py_str id))
    /\ body !! "amount" = Some (VStr (py_str (VFloat amount)))
    /\ body !! "text" = Some (VStr tag)
    /\ (tail = []
        \/ exists hedge,
             tail = [hedge]
             /\ is_short_order ("/futures/" ++ py_str settle ++ "/orders") size hedge).

(** Whether a JSON value is a string. *)
Definition is_str (v : pyval) : bool :=
  match v with
  | VStr _ => true
  | _ => false
  end.

(** An unsigned GET as the trace records it. *)
Definition get_event (url query : string) : event :=
  Http {| req_method := GET; req_url := url; req_query := query;
          req_body := None; req_timestamp := None |}.

(** The world after an unsigned GET took the first scripted response. *)
Definition after_get (w : world) (url query : string)
    (rest : list (result pyval)) : world :=
  with_responses (with_trace w (trace w ++ [get_event url query])) rest.

(** A contract entry whose name is not the one looked for. *)
Definition other_contract (py_eq : pyval -> pyval -> bool) (contract : pyval)
    (c : pyval) : Prop :=
  exists d, c = VDict d /\ py_eq (dict_get d "name") contract = false.

(** Runs of [main] that stop early: the user declines, the amount is no
    number, the only offer is too late. *)
Definition declined_world : world :=
  scripted (responses e2e_world) ["1000"; " no "]%string (sample_clock 25)
    sample_credentials.

Definition bad_amount_world : world :=
  scripted (responses e2e_world) ["a lot"; "yes"]%string (sample_clock 25)
    sample_credentials.

Definition no_offer_world : world :=
  scripted [Ok (offer_list [offer_late])] ["1000"; "yes"]%string
    (sample_clock 25) sample_credentials.


(** A run of [main] in which the only offer has a yield that is no number. *)
Definition malformed_yield_world : world :=
  scripted [Ok (offer_list [offer_malformed])] ["1000"; "yes"]%string
    (sample_clock 25) sample_credentials.

(** The three fields of the investment order's body. *)
Definition investment_body (plan_id amount text : string) (field : string)
  : option pyval :=
  if String.eqb field "plan_id" then Some (VStr plan_id)
  else if String.eqb field "amount" then Some (VStr amount)
  else if String.eqb field "text" then Some (VStr text)
  else None.


(** * Properties *)

Lemma is_ok_inv {A : Type} (r : result A) : is_ok r = true -> exists a, r = Ok a.
Proof. destruct r as [a | e]; [eauto | discriminate]. Qed.

(** ** Floats *)

Lemma ltb_rank (x y : float) :
  PyFloat.ltb x y = true <->
  PyFloat.is_nan x = false /\ PyFloat.is_nan y = false /\ lex_lt (rank x) (rank y).
Proof.
  unfold PyFloat.ltb, SFltb, lex_lt.
  destruct x as [sx | sx | | sx mx ex], y as [sy | sy | | sy my ey];
    try destruct sx; try destruct sy; cbn;
    try (split; [discriminate | intros (? & ? & ?); try discriminate; lia]);
    try (split; [intros _; repeat split; lia | reflexivity]).
  - rewrite Z.compare_antisym.
    destruct (Z.compare_spec ey ex) as [-> | H | H]; cbn.
    + change (Pos.compare_cont Eq mx my) with (Pos.compare mx my).
      destruct (Pos.compare_spec mx my) as [-> | H' | H']; cbn;
        (split; [try discriminate; intros _; repeat split; lia
                | intros (_ & _ & ?); try reflexivity; lia]).
    + split; [intros _; repeat split; lia | reflexivity].
    + split; [discriminate | intros (_ & _ & ?); lia].
  - destruct (Z.compare_spec ex ey) as [-> | H | H]; cbn.
    + change (Pos.compare_cont Eq mx my) with (Pos.compare mx my).
      destruct (Pos.compare_spec mx my) as [-> | H' | H']; cbn;
        (split; [try discriminate; intros _; repeat split; lia
                | intros (_ & _ & ?); try reflexivity; lia]).
    + split; [intros _; repeat split; lia | reflexivity].
    + split; [discriminate | intros (_ & _ & ?); lia].
Qed.

Lemma gtb_nan_l (x : float) : PyFloat.gtb PyFloat.nan x = false.
Proof. unfold PyFloat.gtb, SFltb. destruct x; reflexivity. Qed.

Lemma gtb_nan_r (x : float) : PyFloat.gtb x PyFloat.nan = false.
Proof. unfold PyFloat.gtb, SFltb. destruct x; reflexivity. Qed.

Lemma gtb_irrefl (x : float) : PyFloat.gtb x x = false.
Proof.
  change (PyFloat.ltb x x = false).
  destruct (PyFloat.ltb x x) eqn:E; [| reflexivity].
  apply ltb_rank in E. destruct E as (_ & _ & E).
  unfold lex_lt in E. destruct (rank x) as [[a b] c]. lia.
Qed.

(** A float that does not exceed a bound does not exceed anything above
    the bound either. *)
Lemma gtb_false_trans (x y z : float) :
  PyFloat.gtb x y = false -> PyFloat.gtb z y = true -> PyFloat.gtb x z = false.
Proof.
  change (PyFloat.ltb y x = false -> PyFloat.ltb y z = true ->
          PyFloat.ltb z x = false).
  intros Hxy Hzy.
  apply ltb_rank in Hzy. destruct Hzy as (Hy & Hz & Hlt).
  destruct (PyFloat.ltb z x) eqn:E; [| reflexivity].
  apply ltb_rank in E. destruct E as (_ & Hx & Hlt').
  assert (PyFloat.ltb y x = true) as Habs; [| congruence].
  apply ltb_rank. repeat split; try assumption.
  unfold lex_lt in *.
  destruct (rank x) as [[x1 x2] x3], (rank y) as [[y1 y2] y3], (rank z) as [[z1 z2] z3].
  lia.
Qed.

Lemma leb_of_not_gtb (x y : float) :
  PyFloat.is_nan x = false -> PyFloat.is_nan y = false ->
  PyFloat.gtb x y = false -> PyFloat.leb x y = true.
Proof.
  unfold PyFloat.gtb, PyFloat.leb, SFltb, SFleb.
  destruct x as [sx | sx | | sx mx ex], y as [sy | sy | | sy my ey];
    try destruct sx; try destruct sy; cbn; try congruence.
  - rewrite (Z.compare_antisym ex ey).
    change (Pos.compare_cont Eq my mx) with (Pos.compare my mx).
    change (Pos.compare_cont Eq mx my) with (Pos.compare mx my).
    rewrite (Pos.compare_antisym mx my).
    destruct (ex ?= ey); cbn; try congruence.
    destruct (mx ?= my)%positive; cbn; congruence.
  - rewrite (Z.compare_antisym ex ey).
    change (Pos.compare_cont Eq my mx) with (Pos.compare my mx).
    change (Pos.compare_cont Eq mx my) with (Pos.compare mx my).
    rewrite (Pos.compare_antisym mx my).
    destruct (ex ?= ey); cbn; try congruence.
    destruct (mx ?= my)%positive; cbn; congruence.
Qed.

(** The float comparison of the source is the closed window on whole
    seconds. *)
Lemma in_window_within_days (delta : Z) : in_window delta = within_days delta.
Proof.
  unfold in_window.
  assert (window_lo = S754_finite false 5937362789990400 (-37)) as ->
    by (vm_compute; reflexivity).
  assert (window_hi = S754_finite false 5937362789990400 (-35)) as ->
    by (vm_compute; reflexivity).
  unfold within_days, PyFloat.le_Z, PyFloat.Z_le, PyFloat.compare_Z,
    one_day_sec.
  cbn [cond_Zopp].
  change (0 <=? -37) with false. change (0 <=? -35) with false.
  change (2 ^ (- (-37))) with 137438953472.
  change (2 ^ (- (-35))) with 34359738368.
  destruct (Z.compare_spec 5937362789990400 (delta * 137438953472));
    destruct (Z.compare_spec 5937362789990400 (delta * 34359738368));
    destruct (Z.leb_spec (24 * 60 * 60) (2 * delta));
    destruct (Z.leb_spec delta (2 * (24 * 60 * 60)));
    cbn; try reflexivity; lia.
Qed.

(** ** Offer Selector *)

Lemma consider_dict (now : Z) (d : dict) :
  consider now (VDict d) =
  if fields_pass d then
    let? t := delivery_time_of d in
    if within_days (t - now) then
      let? f := apy_of d in Ok (Some (<["_apy" := VFloat f]> d))
    else Ok None
  else Ok None.
Proof.
  unfold consider, fields_pass, py_eq_str, delivery_time_of, apy_of. cbn [as_dict bind].
  destruct (py_ne_str (dict_get d "invest_currency") "USDT"); [reflexivity |].
  destruct (py_ne_str (dict_get d "exercise_currency") "ETH"); [reflexivity |].
  destruct (py_ne_str (dict_get d "type") "put"); [reflexivity |].
  destruct (py_ne_str (dict_get d "status") "ONGOING"); [reflexivity |].
  cbn [negb andb].
  destruct (py_int (dict_get_or d "delivery_time" (VInt 0))) as [t | e]; [| reflexivity].
  cbn [bind]. rewrite in_window_within_days.
  destruct (within_days (t - now)); reflexivity.
Qed.

Lemma consider_some (now : Z) (p : pyval) (c : dict) :
  consider now p = Ok (Some c) ->
  exists d t, p = VDict d /\ eligible now d = true /\ delivery_time_of d = Ok t
              /\ within_days (t - now) = true /\ c = with_apy d.
Proof.
  destruct p as [| | | | | |d]; try discriminate.
  rewrite consider_dict.
  destruct (fields_pass d) eqn:F; [| discriminate].
  destruct (delivery_time_of d) as [t | e] eqn:T; [| discriminate]. cbn [bind].
  destruct (within_days (t - now)) eqn:W; [| discriminate].
  destruct (apy_of d) as [f | e] eqn:Y; [| discriminate]. cbn [bind].
  intros [= <-]. exists d, t. unfold eligible, with_apy, parsed_yield.
  rewrite F, T, W, Y. repeat split; reflexivity.
Qed.

Lemma consider_readable (now : Z) (d : dict) :
  readable d = true ->
  consider now (VDict d) = Ok (if eligible now d then Some (with_apy d) else None).
Proof.
  rewrite consider_dict. unfold readable, eligible, with_apy, parsed_yield.
  destruct (delivery_time_of d) as [t | e]; [| discriminate].
  destruct (apy_of d) as [f | e]; [| discriminate]. intros _.
  destruct (fields_pass d); [| reflexivity]. cbn [bind andb].
  destruct (within_days (t - now)); reflexivity.
Qed.

Lemma scan_ok (now : Z) (ps : list pyval) :
  forall acc cands, scan now ps acc = Ok cands ->
  forall c, c ∈ cands -> c ∈ acc \/ exists p, p ∈ ps /\ consider now p = Ok (Some c).
Proof.
  induction ps as [| p ps IH]; intros acc cands; cbn [scan].
  - intros [= <-] c Hc. left. exact Hc.
  - destruct (consider now p) as [r | e] eqn:E; [| discriminate]. cbn [bind].
    intros H c Hc. destruct (IH _ _ H c Hc) as [Hin | (q & Hq & Hcq)].
    + destruct r as [d |].
      * apply elem_of_app in Hin. destruct Hin as [Hin | Hin]; [left; exact Hin |].
        apply list_elem_of_singleton in Hin. subst c.
        right. exists p. split; [left | exact E].
      * left. exact Hin.
    + right. exists q. split; [right; exact Hq | exact Hcq].
Qed.

Lemma scan_readable (now : Z) (offers : list dict) :
  Forall (fun d => readable d = true) offers ->
  forall acc, scan now (VDict <$> offers) acc = Ok (acc ++ candidates_of now offers).
Proof.
  unfold candidates_of.
  induction 1 as [| d ds Hd _ IH]; intros acc; cbn [scan fmap list_fmap].
  - cbn. now rewrite app_nil_r.
  - rewrite (consider_readable now d Hd). cbn [bind]. rewrite IH.
    rewrite filter_cons. destruct (eligible now d) eqn:E.
    + rewrite decide_True by reflexivity. cbn. now rewrite <- app_assoc.
    + rewrite decide_False by discriminate. reflexivity.
Qed.

Lemma apy_key_with_apy (d : dict) : apy_key (with_apy d) = Ok (parsed_yield d).
Proof.
  unfold apy_key, with_apy, dict_item. now rewrite lookup_insert_eq.
Qed.

(** ** The ranking *)

Section Ranking.
Context {A : Type} (key : A -> result float).

Lemma max_from_spec (l : list A) :
  forall best kbest b,
    max_from key best kbest l = Ok b ->
    key best = Ok kbest ->
    (b = best \/ b ∈ l)
    /\ exists kb, key b = Ok kb
         /\ (forall k, PyFloat.gtb k kbest = false -> PyFloat.gtb k kb = false)
         /\ (forall x kx, x ∈ l -> key x = Ok kx -> PyFloat.gtb kx kb = false).
Proof.
  induction l as [| x l IH]; intros best kbest b; cbn [max_from].
  - intros [= <-] Hk. split; [now left |]. exists kbest.
    repeat split; [assumption | auto |]. intros x kx Hx. inversion Hx.
  - destruct (key x) as [kx | e] eqn:Ex; [| discriminate]. cbn [bind].
    destruct (PyFloat.gtb kx kbest) eqn:G; intros H Hk.
    + destruct (IH _ _ _ H Ex) as (Hb & kb & Hkb & Hle & Hall).
      split; [right; destruct Hb as [-> | Hb]; [left | now right] |].
      exists kb. repeat split; [assumption | |].
      * intros k Hkk. apply Hle. eapply gtb_false_trans; eassumption.
      * intros y ky Hy Eky. apply elem_of_cons in Hy. destruct Hy as [-> | Hy].
        -- rewrite Ex in Eky. injection Eky as <-. apply Hle, gtb_irrefl.
        -- eapply Hall; eassumption.
    + destruct (IH _ _ _ H Hk) as (Hb & kb & Hkb & Hle & Hall).
      split; [destruct Hb as [-> | Hb]; [now left | right; now right] |].
      exists kb. repeat split; [assumption | assumption |].
      intros y ky Hy Eky. apply elem_of_cons in Hy. destruct Hy as [-> | Hy].
      * rewrite Ex in Eky. injection Eky as <-. apply Hle, G.
      * eapply Hall; eassumption.
Qed.

Lemma py_max_spec (l : list A) (b : A) :
  py_max key l = Ok b ->
  b ∈ l /\ exists kb, key b = Ok kb
             /\ forall x kx, x ∈ l -> key x = Ok kx -> PyFloat.gtb kx kb = false.
Proof.
  destruct l as [| x l]; [discriminate |]. cbn [py_max].
  destruct (key x) as [kx | e] eqn:Ex; [| discriminate]. cbn [bind]. intros H.
  destruct (max_from_spec _ _ _ _ H Ex) as (Hb & kb & Hkb & Hle & Hall).
  split; [destruct Hb as [-> | Hb]; [left | now right] |].
  exists kb. split; [assumption |].
  intros y ky Hy Eky. apply elem_of_cons in Hy. destruct Hy as [-> | Hy].
  - rewrite Ex in Eky. injection Eky as <-. apply Hle, gtb_irrefl.
  - eapply Hall; eassumption.
Qed.

Lemma max_from_total (l : list A) :
  (forall x, x ∈ l -> exists k, key x = Ok k) ->
  forall best kbest, exists b, max_from key best kbest l = Ok b.
Proof.
  induction l as [| x l IH]; intros Hall best kbest; cbn [max_from].
  - now exists best.
  - destruct (Hall x) as [kx ->]; [left |]. cbn [bind].
    assert (forall y, y ∈ l -> exists k, key y = Ok k) as Hl
      by (intros y Hy; apply Hall; now right).
    destruct (PyFloat.gtb kx kbest); apply IH; assumption.
Qed.

Lemma py_max_total (l : list A) :
  l <> [] -> (forall x, x ∈ l -> exists k, key x = Ok k) ->
  exists b, py_max key l = Ok b.
Proof.
  destruct l as [| x l]; [congruence |]. intros _ Hall. cbn [py_max].
  destruct (Hall x) as [kx ->]; [left |]. cbn [bind].
  apply max_from_total. intros y Hy. apply Hall. now right.
Qed.
End Ranking.

Lemma py_eq_str_true (v : pyval) (s : string) :
  py_eq_str v s = true <-> v = VStr s.
Proof.
  unfold py_eq_str, py_ne_str. destruct v as [| | | |s'| |]; cbn;
    try (split; [discriminate | congruence]).
  rewrite negb_involutive, String.eqb_eq. split; congruence.
Qed.

Lemma dict_get_with_apy (d : dict) (k : string) :
  k <> "_apy" -> dict_get (with_apy d) k = dict_get d k.
Proof.
  intros Hk. unfold dict_get, with_apy. now rewrite lookup_insert_ne.
Qed.

Lemma delivery_time_of_with_apy (d : dict) :
  delivery_time_of (with_apy d) = delivery_time_of d.
Proof.
  unfold delivery_time_of, dict_get_or, with_apy.
  now rewrite lookup_insert_ne.
Qed.

Lemma fields_pass_true (d : dict) :
  fields_pass d = true <->
  dict_get d "invest_currency" = VStr "USDT"
  /\ dict_get d "exercise_currency" = VStr "ETH"
  /\ dict_get d "type" = VStr "put"
  /\ dict_get d "status" = VStr "ONGOING".
Proof.
  unfold fields_pass. rewrite !andb_true_iff, !py_eq_str_true. tauto.
Qed.

Lemma within_days_true (delta : Z) :
  within_days delta = true <->
  one_day_sec <= 2 * delta /\ delta <= 2 * one_day_sec.
Proof. unfold within_days. rewrite andb_true_iff, !Z.leb_le. tauto. Qed.

Lemma find_best_ok (plans : pyval) (now : Z) (best : dict) :
  find_best_eth_dual_one_day plans now = Ok best ->
  exists ps cands, py_iter plans = Ok ps /\ scan now ps [] = Ok cands
                   /\ py_max apy_key cands = Ok best.
Proof.
  unfold find_best_eth_dual_one_day.
  destruct (py_iter plans) as [ps | e] eqn:Hps; [| discriminate]. cbn [bind].
  destruct (scan now ps []) as [cands | e] eqn:Hscan; [| discriminate]. cbn [bind].
  destruct cands as [| c cands]; [discriminate |].
  intros H. exists ps, (c :: cands). auto.
Qed.

Lemma find_best_from_plans (plans : pyval) (now : Z) (best : dict) :
  find_best_eth_dual_one_day plans now = Ok best ->
  exists ps d t, py_iter plans = Ok ps /\ VDict d ∈ ps /\ eligible now d = true
                 /\ delivery_time_of d = Ok t /\ within_days (t - now) = true
                 /\ best = with_apy d.
Proof.
  intros H. destruct (find_best_ok _ _ _ H) as (ps & cands & Hps & Hscan & Hmax).
  apply py_max_spec in Hmax. destruct Hmax as (Hin & _).
  destruct (scan_ok _ _ _ _ Hscan _ Hin) as [Hnil | (p & Hp & Hc)].
  - inversion Hnil.
  - apply consider_some in Hc. destruct Hc as (d & t & -> & He & Ht & Hw & ->).
    exists ps, d, t. auto 10.
Qed.

Lemma py_iter_offer_list (offers : list dict) :
  py_iter (offer_list offers) = Ok (VDict <$> offers).
Proof. reflexivity. Qed.

Lemma candidates_of_nil (now : Z) (offers : list dict) :
  candidates_of now offers = [] <->
  Forall (fun d => eligible now d = false) offers.
Proof.
  unfold candidates_of. induction offers as [| d ds IH].
  - split; [constructor | reflexivity].
  - rewrite filter_cons. destruct (eligible now d) eqn:E.
    + rewrite decide_True by reflexivity. cbn. split; [discriminate |].
      intros H. inversion H; congruence.
    + rewrite decide_False by discriminate. rewrite IH. split.
      * intros H. constructor; assumption.
      * intros H. now inversion H.
Qed.

Lemma elem_of_candidates_of (now : Z) (offers : list dict) (c : dict) :
  c ∈ candidates_of now offers <->
  exists d, d ∈ offers /\ eligible now d = true /\ c = with_apy d.
Proof.
  unfold candidates_of. rewrite list_elem_of_fmap. split.
  - intros (d & -> & Hd). apply list_elem_of_filter in Hd. destruct Hd.
    exists d. auto.
  - intros (d & Hd & He & ->). exists d. split; [reflexivity |].
    apply list_elem_of_filter. auto.
Qed.

Lemma find_best_readable (offers : list dict) (now : Z) :
  Forall (fun d => readable d = true) offers ->
  find_best_eth_dual_one_day (offer_list offers) now =
  match candidates_of now offers with
  | [] => Raise (RuntimeError NoEligibleOffer)
  | cands => py_max apy_key cands
  end.
Proof.
  intros Hr. unfold find_best_eth_dual_one_day.
  rewrite py_iter_offer_list. cbn [bind].
  rewrite (scan_readable now offers Hr []). cbn [bind app].
  destruct (candidates_of now offers); reflexivity.
Qed.

Lemma py_max_candidates_total (now : Z) (offers : list dict) :
  candidates_of now offers <> [] ->
  exists best, py_max apy_key (candidates_of now offers) = Ok best.
Proof.
  intros Hne. apply py_max_total; [assumption |].
  intros c Hc. apply elem_of_candidates_of in Hc.
  destruct Hc as (d & _ & _ & ->). exists (parsed_yield d).
  apply apy_key_with_apy.
Qed.

(** C1 (amended): every offer that [find_best_eth_dual_one_day] returns is
    one of the fetched offers, carries investment currency USDT, exercise
    currency ETH, kind put and status ONGOING, and its time-to-delivery
    lies in the closed window from 0.5 to 2.0 days, both ends included. *)
Theorem selector_returns_only_filtered_offers
    (plans : pyval) (now : Z) (best : dict) :
  find_best_eth_dual_one_day plans now = Ok best ->
  dict_get best "invest_currency" = VStr "USDT"
  /\ dict_get best "exercise_currency" = VStr "ETH"
  /\ dict_get best "type" = VStr "put"
  /\ dict_get best "status" = VStr "ONGOING"
  /\ (exists t, delivery_time_of best = Ok t
                /\ one_day_sec <= 2 * (t - now) /\ t - now <= 2 * one_day_sec)
  /\ (exists ps d, py_iter plans = Ok ps /\ VDict d ∈ ps
                   /\ eligible now d = true /\ best = with_apy d).
Proof.
  intros H.
  destruct (find_best_from_plans _ _ _ H) as (ps & d & t & Hps & Hin & He & Ht & Hw & ->).
  assert (fields_pass d = true) as Hf
    by (unfold eligible in He; apply andb_true_iff in He; tauto).
  apply fields_pass_true in Hf. destruct Hf as (F1 & F2 & F3 & F4).
  rewrite !dict_get_with_apy by discriminate.
  rewrite delivery_time_of_with_apy.
  apply within_days_true in Hw.
  repeat split; try assumption.
  - exists t. tauto.
  - exists ps, d. auto.
Qed.

Lemma selector_returns_only_filtered_offers_witness :
  exists best,
    find_best_eth_dual_one_day (offer_list [offer_late; offer_85]) sample_now = Ok best
    /\ dict_get best "status" = VStr "ONGOING"
    /\ exists t, delivery_time_of best = Ok t
                 /\ one_day_sec <= 2 * (t - sample_now)
                 /\ t - sample_now <= 2 * one_day_sec.
Proof.
  assert (is_ok (find_best_eth_dual_one_day
                   (offer_list [offer_late; offer_85]) sample_now) = true) as Hok
    by (vm_compute; reflexivity).
  destruct (is_ok_inv _ Hok) as [best E].
  exists best. split; [exact E |].
  pose proof (selector_returns_only_filtered_offers
                (offer_list [offer_late; offer_85]) sample_now best E) as H.
  tauto.
Defined.

(** C1 (as stated, refuted): the window is not half-open. An offer
    delivering in exactly 2.0 days is returned, and so is one delivering
    in exactly 0.5 days: neither end of the window is excluded. *)
Lemma selector_window_not_half_open :
  find_best_eth_dual_one_day (offer_list [offer_at (2 * one_day_sec)]) sample_now
    = Ok (with_apy (offer_at (2 * one_day_sec)))
  /\ within_days_right_open (2 * one_day_sec) = false
  /\ find_best_eth_dual_one_day (offer_list [offer_at (one_day_sec / 2)]) sample_now
    = Ok (with_apy (offer_at (one_day_sec / 2)))
  /\ within_days_left_open (one_day_sec / 2) = false.
Proof. repeat split; vm_compute; reflexivity. Qed.

Lemma typed_offer_readable (d : dict) : typed_offer d = true -> readable d = true.
Proof.
  unfold typed_offer, readable, delivery_time_of, apy_of, dict_get_or.
  destruct (d !! "delivery_time") as [[| | z | | | |] |]; cbn; try discriminate.
  all: destruct (d !! "apy_display") as [[| | | | s | |] |]; cbn; try discriminate.
  all: try (destruct (Parse.parse_float s); reflexivity).
  all: reflexivity.
Qed.

Lemma consider_typed (now : Z) (d : dict) :
  (fields_pass d = true -> typed_offer d = true) ->
  consider now (VDict d) = Ok (if eligible now d then Some (with_apy d) else None).
Proof.
  intros H. destruct (fields_pass d) eqn:F.
  - apply consider_readable, typed_offer_readable, H. reflexivity.
  - rewrite consider_dict, F. unfold eligible. rewrite F. reflexivity.
Qed.

Lemma scan_typed (now : Z) (offers : list dict) :
  Forall (fun d => fields_pass d = true -> typed_offer d = true) offers ->
  forall acc, scan now (VDict <$> offers) acc = Ok (acc ++ candidates_of now offers).
Proof.
  unfold candidates_of.
  induction 1 as [| d ds Hd _ IH]; intros acc; cbn [scan fmap list_fmap].
  - cbn. now rewrite app_nil_r.
  - rewrite (consider_typed now d Hd). cbn [bind]. rewrite IH.
    rewrite filter_cons. destruct (eligible now d) eqn:E.
    + rewrite decide_True by reflexivity. cbn. now rewrite <- app_assoc.
    + rewrite decide_False by discriminate. reflexivity.
Qed.

Lemma find_best_typed (offers : list dict) (now : Z) :
  Forall (fun d => fields_pass d = true -> typed_offer d = true) offers ->
  find_best_eth_dual_one_day (offer_list offers) now =
  match candidates_of now offers with
  | [] => Raise (RuntimeError NoEligibleOffer)
  | cands => py_max apy_key cands
  end.
Proof.
  intros Hr. unfold find_best_eth_dual_one_day.
  rewrite py_iter_offer_list. cbn [bind].
  rewrite (scan_typed now offers Hr []). cbn [bind app].
  destruct (candidates_of now offers); reflexivity.
Qed.

Lemma selector_returns_when_eligible (offers : list dict) (now : Z) :
  Forall (fun d => fields_pass d = true -> typed_offer d = true) offers ->
  (exists d, d ∈ offers /\ eligible now d = true) ->
  exists best, find_best_eth_dual_one_day (offer_list offers) now = Ok best.
Proof.
  intros Hr (d & Hd & He). rewrite (find_best_typed offers now Hr).
  assert (with_apy d ∈ candidates_of now offers) as Hin
    by (apply elem_of_candidates_of; eauto).
  destruct (py_max_candidates_total now offers) as [best Hbest].
  - intros E. rewrite E in Hin. inversion Hin.
  - exists best. destruct (candidates_of now offers); [inversion Hin | exact Hbest].
Qed.

(** C6 (amended): on a list in which every offer that passes the four
    field filters has an integer or absent delivery time and a string or
    absent yield field, [find_best_eth_dual_one_day] raises the
    no-eligible-offer error exactly when no offer passes the filtering
    predicate, and returns an offer whenever at least one passes. *)
Theorem selector_fails_iff_no_eligible_offer (offers : list dict) (now : Z) :
  Forall (fun d => fields_pass d = true -> typed_offer d = true) offers ->
  (find_best_eth_dual_one_day (offer_list offers) now
     = Raise (RuntimeError NoEligibleOffer)
   <-> Forall (fun d => eligible now d = false) offers)
  /\ ((exists d, d ∈ offers /\ eligible now d = true) ->
      exists best, find_best_eth_dual_one_day (offer_list offers) now = Ok best).
Proof.
  intros Hr. split; [| apply selector_returns_when_eligible; exact Hr].
  rewrite (find_best_typed offers now Hr), <- candidates_of_nil.
  destruct (candidates_of now offers) as [| c cands] eqn:E; [tauto |].
  destruct (py_max_candidates_total now offers) as [best Hbest];
    [rewrite E; discriminate |].
  rewrite E in Hbest. rewrite Hbest. split; discriminate.
Qed.

Lemma selector_fails_iff_no_eligible_offer_witness :
  find_best_eth_dual_one_day (offer_list [offer_late]) sample_now
    = Raise (RuntimeError NoEligibleOffer)
  /\ exists best,
       find_best_eth_dual_one_day (offer_list [offer_late; offer_85]) sample_now
         = Ok best.
Proof.
  split.
  - apply (selector_fails_iff_no_eligible_offer [offer_late] sample_now).
    + repeat constructor.
    + repeat constructor.
  - apply (selector_fails_iff_no_eligible_offer [offer_late; offer_85] sample_now).
    + repeat constructor.
    + exists offer_85. split; [right; left | vm_compute; reflexivity].
Defined.

(** C6 (as stated, refuted): on other field types the selector fails with
    another error, whether or not an offer passes. With a first offer
    that passes and a second whose yield is a JSON null it raises
    [TypeError] instead of returning the first; on a single offer whose
    delivery time is a word, so that no offer passes, it raises
    [ValueError] and not the no-eligible-offer error. *)
Lemma selector_fails_otherwise_on_ill_typed_offer :
  (eligible sample_now offer_92 = true
   /\ find_best_eth_dual_one_day (offer_list [offer_92; offer_null_yield]) sample_now
      = Raise TypeError)
  /\ (Forall (fun d => eligible sample_now d = false) [offer_bad_delivery]
      /\ find_best_eth_dual_one_day (offer_list [offer_bad_delivery]) sample_now
         = Raise ValueError).
Proof.
  split; split.
  - vm_compute. reflexivity.
  - vm_compute. reflexivity.
  - constructor; [vm_compute; reflexivity | constructor].
  - vm_compute. reflexivity.
Qed.

Lemma eligible_delivery (now : Z) (d : dict) :
  eligible now d = true -> exists t, delivery_time_of d = Ok t.
Proof.
  unfold eligible. rewrite andb_true_iff. intros [_ H].
  destruct (delivery_time_of d) as [t | e]; [eauto | discriminate].
Qed.

Lemma apy_of_display (d : dict) (s : string) :
  d !! "apy_display" = Some (VStr s) ->
  apy_of d = Ok (default PyFloat.zero (Parse.parse_float s)).
Proof.
  intros H. unfold apy_of, dict_get_or. rewrite H. cbn.
  destruct (Parse.parse_float s); reflexivity.
Qed.

Lemma apy_of_missing_or_malformed (d : dict) :
  yield_missing_or_malformed d -> apy_of d = Ok PyFloat.zero.
Proof.
  intros [H | (s & H & Hs)].
  - unfold apy_of, dict_get_or. rewrite H. reflexivity.
  - rewrite (apy_of_display d s H), Hs. reflexivity.
Qed.

Lemma selector_max_yield (offers : list dict) (now : Z) :
  Forall (fun d => fields_pass d = true -> typed_offer d = true) offers ->
  (exists d, d ∈ offers /\ eligible now d = true) ->
  exists d, d ∈ offers /\ eligible now d = true
    /\ find_best_eth_dual_one_day (offer_list offers) now = Ok (with_apy d)
    /\ forall d', d' ∈ offers -> eligible now d' = true ->
         PyFloat.gtb (parsed_yield d') (parsed_yield d) = false
         /\ (PyFloat.is_nan (parsed_yield d') = false ->
             PyFloat.is_nan (parsed_yield d) = false ->
             PyFloat.leb (parsed_yield d') (parsed_yield d) = true).
Proof.
  intros Hr Hex.
  destruct (selector_returns_when_eligible offers now Hr Hex) as [best Hbest].
  pose proof Hbest as Hfind.
  rewrite (find_best_typed offers now Hr) in Hbest.
  assert (py_max apy_key (candidates_of now offers) = Ok best) as Hmax.
  { destruct (candidates_of now offers); [discriminate | exact Hbest]. }
  apply py_max_spec in Hmax. destruct Hmax as (Hin & kb & Hkb & Hall).
  apply elem_of_candidates_of in Hin. destruct Hin as (d & Hd & He & ->).
  rewrite apy_key_with_apy in Hkb. injection Hkb as <-.
  exists d. repeat split; try assumption.
  - apply (Hall (with_apy d')); [| apply apy_key_with_apy].
    apply elem_of_candidates_of. eauto.
  - intros N1 N2. apply leb_of_not_gtb; try assumption.
    apply (Hall (with_apy d')); [| apply apy_key_with_apy].
    apply elem_of_candidates_of. eauto.
Qed.

Lemma selector_keeps_malformed_yield (now : Z) (d : dict) :
  yield_missing_or_malformed d ->
  apy_of d = Ok PyFloat.zero
  /\ parsed_yield d = PyFloat.zero
  /\ (eligible now d = true -> consider now (VDict d) = Ok (Some (with_apy d))).
Proof.
  intros H. pose proof (apy_of_missing_or_malformed d H) as Hy.
  split; [exact Hy |]. split; [unfold parsed_yield; now rewrite Hy |].
  intros He. destruct (eligible_delivery now d He) as [t Ht].
  rewrite consider_readable, He; [reflexivity |].
  unfold readable. now rewrite Ht, Hy.
Qed.

Lemma selector_prefers_92_over_85 (now : Z) (d1 d2 : dict) :
  eligible now d1 = true -> eligible now d2 = true ->
  d1 !! "apy_display" = Some (VStr "8.5") ->
  d2 !! "apy_display" = Some (VStr "9.2") ->
  find_best_eth_dual_one_day (offer_list [d1; d2]) now = Ok (with_apy d2)
  /\ find_best_eth_dual_one_day (offer_list [d2; d1]) now = Ok (with_apy d2).
Proof.
  intros E1 E2 H1 H2.
  pose proof (apy_of_display d1 _ H1) as Y1.
  pose proof (apy_of_display d2 _ H2) as Y2.
  destruct (eligible_delivery now d1 E1) as [t1 T1].
  destruct (eligible_delivery now d2 E2) as [t2 T2].
  assert (readable d1 = true) as R1 by (unfold readable; now rewrite T1, Y1).
  assert (readable d2 = true) as R2 by (unfold readable; now rewrite T2, Y2).
  assert (PyFloat.gtb (parsed_yield d2) (parsed_yield d1) = true) as G21
    by (unfold parsed_yield; rewrite Y1, Y2; vm_compute; reflexivity).
  assert (PyFloat.gtb (parsed_yield d1) (parsed_yield d2) = false) as G12
    by (unfold parsed_yield; rewrite Y1, Y2; vm_compute; reflexivity).
  split.
  - rewrite (find_best_readable [d1; d2] now) by (repeat constructor; assumption).
    unfold candidates_of. rewrite !filter_cons, !decide_True by assumption.
    cbn [filter fmap list_fmap py_max max_from].
    rewrite !apy_key_with_apy. cbn [bind]. rewrite G21. reflexivity.
  - rewrite (find_best_readable [d2; d1] now) by (repeat constructor; assumption).
    unfold candidates_of. rewrite !filter_cons, !decide_True by assumption.
    cbn [filter fmap list_fmap py_max max_from].
    rewrite !apy_key_with_apy. cbn [bind]. rewrite G12. reflexivity.
Qed.

(** C2 (amended): on a list in which every offer that passes the four
    field filters has an integer or absent delivery time and a string or
    absent yield field, and of which at least one offer is eligible,
    [find_best_eth_dual_one_day] returns an eligible offer whose parsed
    yield no eligible offer exceeds (and which is at least every other
    eligible yield when no NaN is involved); an offer whose yield field is
    missing or is a string that [float] rejects has yield 0.0 and is still
    appended to the candidates, without error; of two eligible offers with
    yields 8.5 and 9.2 the 9.2 one is returned, whatever their order. *)
Theorem selector_returns_max_yield :
  (forall (offers : list dict) (now : Z),
     Forall (fun d => fields_pass d = true -> typed_offer d = true) offers ->
     (exists d, d ∈ offers /\ eligible now d = true) ->
     exists d, d ∈ offers /\ eligible now d = true
       /\ find_best_eth_dual_one_day (offer_list offers) now = Ok (with_apy d)
       /\ forall d', d' ∈ offers -> eligible now d' = true ->
            PyFloat.gtb (parsed_yield d') (parsed_yield d) = false
            /\ (PyFloat.is_nan (parsed_yield d') = false ->
                PyFloat.is_nan (parsed_yield d) = false ->
                PyFloat.leb (parsed_yield d') (parsed_yield d) = true))
  /\ (forall (now : Z) (d : dict),
        yield_missing_or_malformed d ->
        apy_of d = Ok PyFloat.zero
        /\ parsed_yield d = PyFloat.zero
        /\ (eligible now d = true ->
            consider now (VDict d) = Ok (Some (with_apy d))))
  /\ (forall (now : Z) (d1 d2 : dict),
        eligible now d1 = true -> eligible now d2 = true ->
        d1 !! "apy_display" = Some (VStr "8.5") ->
        d2 !! "apy_display" = Some (VStr "9.2") ->
        find_best_eth_dual_one_day (offer_list [d1; d2]) now = Ok (with_apy d2)
        /\ find_best_eth_dual_one_day (offer_list [d2; d1]) now = Ok (with_apy d2)).
Proof.
  split; [exact selector_max_yield |].
  split; [exact selector_keeps_malformed_yield | exact selector_prefers_92_over_85].
Qed.

Lemma selector_returns_max_yield_witness :
  (exists d, d ∈ [offer_malformed; offer_85; offer_late] /\ eligible sample_now d = true
     /\ find_best_eth_dual_one_day
          (offer_list [offer_malformed; offer_85; offer_late]) sample_now
        = Ok (with_apy d))
  /\ consider sample_now (VDict offer_malformed) = Ok (Some (with_apy offer_malformed))
  /\ find_best_eth_dual_one_day (offer_list [offer_85; offer_92]) sample_now
     = Ok (with_apy offer_92).
Proof.
  destruct selector_returns_max_yield as (Hmax & Hmal & H92).
  split; [| split].
  - destruct (Hmax [offer_malformed; offer_85; offer_late] sample_now)
      as (d & Hd & He & Hf & _).
    + repeat constructor.
    + exists offer_85. split; [right; left | vm_compute; reflexivity].
    + exists d. auto.
  - apply (Hmal sample_now offer_malformed).
    + right. exists "n/a"%string. split; vm_compute; reflexivity.
    + vm_compute; reflexivity.
  - apply (H92 sample_now offer_85 offer_92); vm_compute; reflexivity.
Defined.

(** C2 (as stated, refuted): a yield field that is no string is not
    parsed as zero. An eligible offer whose yield is a JSON null makes its
    pass raise [TypeError], and the selection over a list that holds it
    after an eligible offer with yield 9.2 raises that error instead of
    returning an offer. *)
Lemma selector_null_yield_aborts_selection :
  eligible sample_now offer_null_yield = true
  /\ offer_null_yield !! "apy_display" = Some VNone
  /\ consider sample_now (VDict offer_null_yield) = Raise TypeError
  /\ eligible sample_now offer_92 = true
  /\ find_best_eth_dual_one_day (offer_list [offer_92; offer_null_yield]) sample_now
     = Raise TypeError.
Proof. repeat split; vm_compute; reflexivity. Qed.

(** ** Hedge Sizer *)

Lemma round_half_even_div_nearest (m d : Z) :
  0 <= m -> 0 < d -> 2 * Z.abs (PyFloat.round_half_even_div m d * d - m) <= d.
Proof.
  intros Hm Hd. unfold PyFloat.round_half_even_div. cbv zeta.
  pose proof (Z.div_mod m d ltac:(lia)) as E.
  pose proof (Z.mod_pos_bound m d Hd) as B.
  set (q := m / d) in *. set (r := m mod d) in *.
  destruct (Z.compare_spec (2 * r) d); [destruct (Z.even q) | |]; nia.
Qed.

Lemma round_half_even_div_nonneg (m d : Z) :
  0 <= m -> 0 < d -> 0 <= PyFloat.round_half_even_div m d.
Proof.
  intros Hm Hd. unfold PyFloat.round_half_even_div. cbv zeta.
  pose proof (Z.div_pos m d Hm Hd).
  destruct (2 * (m mod d) ?= d); [destruct (Z.even (m / d)) | |]; lia.
Qed.

Lemma round_half_even_finite (x : float) :
  PyFloat.is_finite x = true -> exists r, PyFloat.round_half_even x = Some r.
Proof. destruct x; try discriminate; cbn; eauto. Qed.

Lemma round_half_even_sign (x : float) (r : Z) :
  PyFloat.round_half_even x = Some r ->
  PyFloat.ltb x PyFloat.zero = false -> 0 <= r.
Proof.
  destruct x as [s | s | | s m e]; try discriminate; cbn.
  - intros [= <-] _. lia.
  - intros [= <-]. destruct s; [discriminate |]. intros _. cbn [cond_Zopp].
    destruct (0 <=? e) eqn:E.
    + apply Z.leb_le in E. apply Z.mul_nonneg_nonneg; [lia |].
      apply Z.pow_nonneg. lia.
    + apply Z.leb_gt in E. apply round_half_even_div_nonneg; [lia |].
      apply Z.pow_pos_nonneg; lia.
Qed.

Lemma contract_multiplier_cases (info : dict) :
  (info !! "quanto_multiplier" = None -> contract_multiplier info = Ok PyFloat.one)
  /\ (forall s, info !! "quanto_multiplier" = Some (VStr s) ->
                Parse.parse_float s = None ->
                contract_multiplier info = Ok PyFloat.one)
  /\ (forall v f, info !! "quanto_multiplier" = Some v -> py_float v = Ok f ->
                  contract_multiplier info = Ok f).
Proof.
  unfold contract_multiplier. repeat split.
  - intros ->. reflexivity.
  - intros s -> Hs. cbn. now rewrite Hs.
  - intros v f -> Hf. now rewrite Hf.
Qed.

Lemma calc_contract_size_unfold (notional : float) (info : dict) (price m : float) :
  contract_multiplier info = Ok m ->
  calc_contract_size_from_usdt notional info price =
  if PyFloat.is_zero m then Raise ZeroDivisionError
  else let? size := py_round (PyFloat.div notional m) in Ok (clamp_lot size).
Proof.
  intros H. unfold calc_contract_size_from_usdt, py_truediv. rewrite H. cbn [bind].
  destruct (PyFloat.is_zero m); reflexivity.
Qed.

Lemma contract_size_of_quotient (notional : float) (info : dict) (price m : float) :
  contract_multiplier info = Ok m ->
  PyFloat.is_zero m = false ->
  PyFloat.is_finite (PyFloat.div notional m) = true ->
  exists r, PyFloat.round_half_even (PyFloat.div notional m) = Some r
    /\ calc_contract_size_from_usdt notional info price = Ok (clamp_lot r)
    /\ clamp_lot r <> 0
    /\ (PyFloat.ltb (PyFloat.div notional m) PyFloat.zero = false -> 1 <= clamp_lot r)
    /\ (r < 0 -> clamp_lot r = r).
Proof.
  intros Hm Hz Hf. destruct (round_half_even_finite _ Hf) as [r Hr].
  exists r. rewrite (calc_contract_size_unfold _ _ _ _ Hm), Hz.
  unfold py_round. rewrite Hr. cbn [bind]. unfold clamp_lot.
  repeat split.
  - destruct (Z.eqb_spec r 0); lia.
  - intros Hs. pose proof (round_half_even_sign _ _ Hr Hs).
    destruct (Z.eqb_spec r 0); lia.
  - intros Hneg. destruct (Z.eqb_spec r 0); lia.
Qed.

(** C3 (amended): when the quotient of the notional by the lot multiplier
    is finite, [calc_contract_size_from_usdt] returns that quotient rounded
    to the nearest integer (ties to even), with a zero replaced by 1; the
    lot multiplier is 1.0 when the metadata has no multiplier field or a
    string that does not parse, and the converted field otherwise. The
    result is never zero and is at least 1 when the quotient is not
    negative; a quotient that rounds to a negative integer is returned as
    it is. The sizes for 1000, 0.4 and 250 over multipliers 1.0, 1.0 and
    10.0 are 1000, 1 and 25 for every mark price. *)
Theorem contract_size_rounds_and_clamps :
  (forall (notional : float) (info : dict) (price m : float),
     contract_multiplier info = Ok m ->
     PyFloat.is_zero m = false ->
     PyFloat.is_finite (PyFloat.div notional m) = true ->
     exists r, PyFloat.round_half_even (PyFloat.div notional m) = Some r
       /\ calc_contract_size_from_usdt notional info price = Ok (clamp_lot r)
       /\ clamp_lot r <> 0
       /\ (PyFloat.ltb (PyFloat.div notional m) PyFloat.zero = false ->
           1 <= clamp_lot r)
       /\ (r < 0 -> clamp_lot r = r))
  /\ (forall info : dict,
        (info !! "quanto_multiplier" = None ->
         contract_multiplier info = Ok PyFloat.one)
        /\ (forall s, info !! "quanto_multiplier" = Some (VStr s) ->
                      Parse.parse_float s = None ->
                      contract_multiplier info = Ok PyFloat.one)
        /\ (forall v f, info !! "quanto_multiplier" = Some v ->
                        py_float v = Ok f ->
                        contract_multiplier info = Ok f))
  /\ (forall price : float,
        calc_contract_size_from_usdt (PyFloat.of_Z 1000)
          (meta_with (VFloat (PyFloat.of_decimal false 10 (-1)))) price = Ok 1000
        /\ calc_contract_size_from_usdt (PyFloat.of_decimal false 4 (-1))
             (meta_with (VFloat (PyFloat.of_decimal false 10 (-1)))) price = Ok 1
        /\ calc_contract_size_from_usdt (PyFloat.of_Z 250)
             (meta_with (VFloat (PyFloat.of_decimal false 100 (-1)))) price = Ok 25).
Proof.
  split; [exact contract_size_of_quotient |].
  split; [exact contract_multiplier_cases |].
  intros price. repeat split; vm_compute; reflexivity.
Qed.

Lemma contract_size_rounds_and_clamps_witness :
  exists r, PyFloat.round_half_even
              (PyFloat.div (PyFloat.of_decimal false 25 (-1)) PyFloat.one) = Some r
    /\ calc_contract_size_from_usdt (PyFloat.of_decimal false 25 (-1))
         (meta_with (VStr "bad")) PyFloat.zero = Ok (clamp_lot r)
    /\ 1 <= clamp_lot r.
Proof.
  destruct contract_size_rounds_and_clamps as (Hq & Hm & _).
  destruct (Hq (PyFloat.of_decimal false 25 (-1)) (meta_with (VStr "bad"))
               PyFloat.zero PyFloat.one) as (r & Hr & Hc & _ & Hpos & _).
  - apply (Hm (meta_with (VStr "bad"))) with (s := "bad"%string);
      vm_compute; reflexivity.
  - reflexivity.
  - vm_compute; reflexivity.
  - exists r. repeat split; [exact Hr | exact Hc |].
    apply Hpos. vm_compute; reflexivity.
Defined.

(** C3 (as stated, refuted): the result is not always non-negative. A
    notional of -5 over the default multiplier yields the size -5. *)
Lemma contract_size_can_be_negative :
  calc_contract_size_from_usdt (PyFloat.of_Z (-5)) meta_plain PyFloat.one = Ok (-5)
  /\ ~ (forall (notional : float) (info : dict) (price : float) (size : Z),
          calc_contract_size_from_usdt notional info price = Ok size -> 0 <= size).
Proof.
  assert (calc_contract_size_from_usdt (PyFloat.of_Z (-5)) meta_plain PyFloat.one
          = Ok (-5)) as E by (vm_compute; reflexivity).
  split; [exact E |]. intros H. specialize (H _ _ _ _ E). lia.
Qed.

(** C9: the mark price has no influence on the computed contract size. *)
Theorem contract_size_ignores_mark_price
    (notional : float) (info : dict) (p1 p2 : float) :
  calc_contract_size_from_usdt notional info p1
  = calc_contract_size_from_usdt notional info p2.
Proof. reflexivity. Qed.

(** C10 (amended): when the multiplier field converts to a zero,
    [calc_contract_size_from_usdt] raises the division-by-zero error for
    every notional, and the string "0" is such a field; when the
    multiplier is not zero that error is never raised, and a size is
    returned whenever the quotient is finite. *)
Theorem contract_size_zero_divisor :
  (forall (notional : float) (info : dict) (price m : float),
     contract_multiplier info = Ok m -> PyFloat.is_zero m = true ->
     calc_contract_size_from_usdt notional info price = Raise ZeroDivisionError)
  /\ (exists z, contract_multiplier (meta_with (VStr "0")) = Ok z
                /\ PyFloat.is_zero z = true)
  /\ (forall (notional : float) (info : dict) (price m : float),
        contract_multiplier info = Ok m -> PyFloat.is_zero m = false ->
        calc_contract_size_from_usdt notional info price <> Raise ZeroDivisionError
        /\ (PyFloat.is_finite (PyFloat.div notional m) = true ->
            exists size, calc_contract_size_from_usdt notional info price = Ok size)).
Proof.
  split; [| split].
  - intros notional info price m Hm Hz.
    now rewrite (calc_contract_size_unfold _ _ _ _ Hm), Hz.
  - exists PyFloat.zero. split; vm_compute; reflexivity.
  - intros notional info price m Hm Hz. split.
    + rewrite (calc_contract_size_unfold _ _ _ _ Hm), Hz. unfold py_round.
      destruct (PyFloat.round_half_even (PyFloat.div notional m)); cbn [bind];
        [discriminate |].
      destruct (PyFloat.is_nan (PyFloat.div notional m)); discriminate.
    + intros Hf.
      destruct (contract_size_of_quotient notional info price m Hm Hz Hf)
        as (r & _ & Hc & _).
      eauto.
Qed.

Lemma contract_size_zero_divisor_witness :
  calc_contract_size_from_usdt (PyFloat.of_Z 1000) (meta_with (VStr "0")) PyFloat.one
    = Raise ZeroDivisionError
  /\ exists size,
       calc_contract_size_from_usdt (PyFloat.of_Z 1000) (meta_with (VStr "0.01"))
         PyFloat.one = Ok size.
Proof.
  destruct contract_size_zero_divisor as (Hzero & _ & Hnz).
  split.
  - apply (Hzero _ (meta_with (VStr "0")) _ PyFloat.zero); vm_compute; reflexivity.
  - apply (Hnz (PyFloat.of_Z 1000) (meta_with (VStr "0.01")) PyFloat.one
               (PyFloat.of_decimal false 1 (-2))); vm_compute; reflexivity.
Defined.

(** C10 (as stated, refuted): a non-zero multiplier does not make the
    function total. The field "nan" converts to a NaN, which is not zero,
    and the rounding of the quotient then raises [ValueError]; a quotient
    that overflows raises [OverflowError]. *)
Lemma contract_size_not_total_on_nonzero_multiplier :
  contract_multiplier (meta_with (VStr "nan")) = Ok PyFloat.nan
  /\ PyFloat.is_zero PyFloat.nan = false
  /\ calc_contract_size_from_usdt (PyFloat.of_Z 1000) (meta_with (VStr "nan"))
       PyFloat.one = Raise ValueError
  /\ PyFloat.is_zero (PyFloat.of_decimal false 1 (-300)) = false
  /\ calc_contract_size_from_usdt (PyFloat.of_decimal false 1 300)
       (meta_with (VStr "1e-300")) PyFloat.one = Raise OverflowError.
Proof. repeat split; vm_compute; reflexivity. Qed.

(** ** The scripted world *)

Lemma int_time_run (w : world) :
  int_time w = (py_int (VFloat (clock w (clock_reads w))),
                with_clock_reads w (S (clock_reads w))).
Proof. reflexivity. Qed.

Lemma gen_sign_run (secret : pyval) (w : world) :
  gen_sign secret w =
  (let? t := py_int (VFloat (clock w (clock_reads w))) in
   match secret with
   | VStr _ => Ok (str_of_int t)
   | _ => Raise AttributeError
   end,
   with_clock_reads w (S (clock_reads w))).
Proof.
  unfold gen_sign, bindp. rewrite int_time_run.
  destruct (py_int (VFloat (clock w (clock_reads w)))); [| reflexivity].
  destruct secret; reflexivity.
Qed.

Lemma timestamp_at_ok (clk : nat -> float) (n : nat) (t : Z) :
  py_int (VFloat (clk n)) = Ok t -> timestamp_at clk n = str_of_int t.
Proof. unfold timestamp_at. now intros ->. Qed.

Lemma time_sleep_run (secs : pyval) (w : world) :
  (valid_sleep secs = true
   /\ time_sleep secs w = (Ok tt, with_trace w (trace w ++ [Sleep secs])))
  \/ (valid_sleep secs = false /\ exists e, time_sleep secs w = (Raise e, w)).
Proof.
  destruct secs as [| b | z | f | s | l | d]; cbn [time_sleep valid_sleep];
    try (right; split; [reflexivity | eexists; reflexivity]).
  - left. split; reflexivity.
  - destruct (Z.ltb_spec z 0), (Z.leb_spec 0 z); try lia; cbn [andb].
    + right. split; [reflexivity | eexists; reflexivity].
    + destruct (z <=? max_sleep).
      * left. split; reflexivity.
      * right. split; [reflexivity | eexists; reflexivity].
  - destruct (PyFloat.is_nan f || PyFloat.ltb f PyFloat.zero); cbn [negb andb].
    + right. split; [reflexivity | eexists; reflexivity].
    + destruct (PyFloat.le_Z f max_sleep).
      * left. split; reflexivity.
      * right. split; [reflexivity | eexists; reflexivity].
Qed.

(** A signed fetch that answers has read the clock once, logged the
    request with its timestamp and consumed the first scripted response. *)
Lemma http_get_auth_ok (url query : string) (key secret : pyval)
    (w : world) (v : pyval) (w1 : world) :
  http_get url query key secret true w = (Ok v, w1) ->
  exists t rest,
    py_int (VFloat (clock w (clock_reads w))) = Ok t
    /\ responses w = Ok v :: rest
    /\ w1 = with_responses
              (with_trace (with_clock_reads w (S (clock_reads w)))
                 (trace w ++ [Http {| req_method := GET; req_url := url;
                                      req_query := query; req_body := None;
                                      req_timestamp := Some (str_of_int t) |}]))
              rest.
Proof.
  unfold http_get, bindp. rewrite gen_sign_run.
  destruct (py_int (VFloat (clock w (clock_reads w)))) as [t | e]; [| discriminate].
  cbn [bind].
  destruct secret; try discriminate.
  unfold send, bindp, emit, next_response. cbn.
  destruct (responses w) as [| r rest]; [discriminate |].
  intros [= -> <-]. exists t, rest. repeat split.
Qed.

Lemma http_get_auth_run (url query k s : string) (w : world) (t : Z)
    (r : result pyval) (rest : list (result pyval)) :
  py_int (VFloat (clock w (clock_reads w))) = Ok t ->
  responses w = r :: rest ->
  http_get url query (VStr k) (VStr s) true w =
  (r, with_responses
        (with_trace (with_clock_reads w (S (clock_reads w)))
           (trace w ++ [Http {| req_method := GET; req_url := url;
                                req_query := query; req_body := None;
                                req_timestamp := Some (str_of_int t) |}]))
        rest).
Proof.
  intros Ht Hr. unfold http_get, bindp. rewrite gen_sign_run, Ht. cbn [bind].
  unfold send, bindp, emit, next_response. cbn. rewrite Hr. reflexivity.
Qed.

(** ** Settlement Monitor *)

Section Monitor.
Variable order_text : string.
Variables api_key api_secret poll_interval : pyval.

Lemma poll_loop_step (fuel : nat) (w : world) :
  poll_loop (S fuel) order_text api_key api_secret poll_interval w =
  match http_get "/earn/dual/orders" "" api_key api_secret true w with
  | (Raise e, w1) => (Raise e, w1)
  | (Ok orders, w1) =>
      match observe order_text (Ok orders) with
      | Raise e => (Raise e, w1)
      | Ok (Settled t) => (Ok (Some t), w1)
      | Ok _ =>
          match time_sleep poll_interval w1 with
          | (Raise e, w2) => (Raise e, w2)
          | (Ok _, w2) =>
              poll_loop fuel order_text api_key api_secret poll_interval w2
          end
      end
  end.
Proof.
  cbn [poll_loop]. unfold bindp at 1.
  destruct (http_get "/earn/dual/orders" "" api_key api_secret true w)
    as [[orders | e] w1]; [| reflexivity].
  unfold observe. cbn [bind]. unfold bindp at 1. unfold lift at 1.
  destruct (py_iter orders) as [os | e]; [| reflexivity]. cbn [bind].
  unfold bindp at 1. unfold lift at 1.
  destruct (find_order order_text os) as [[t |] | e]; cbn [bind];
    [| | reflexivity].
  - destruct (py_eq_str (dict_get t "status") "SETTLEMENT_SUCCESS");
      [reflexivity |].
    unfold bindp. destruct (time_sleep poll_interval w1) as [[u | e] w2];
      reflexivity.
  - unfold bindp. destruct (time_sleep poll_interval w1) as [[u | e] w2];
      reflexivity.
Qed.

Lemma find_order_some (os : list pyval) (t : dict) :
  find_order order_text os = Ok (Some t) ->
  VDict t ∈ os /\ dict_get t "text" = VStr order_text.
Proof.
  induction os as [| o os IH]; cbn [find_order]; [discriminate |].
  destruct o as [| | | | | | d]; try discriminate. cbn [as_dict bind].
  destruct (py_eq_str (dict_get d "text") order_text) eqn:E.
  - intros [= <-]. split; [left | now apply py_eq_str_true].
  - intros H. destruct (IH H). split; [now right | assumption].
Qed.

Lemma observe_settled (response : result pyval) (o : dict) :
  observe order_text response = Ok (Settled o) ->
  exists orders os,
    response = Ok orders /\ py_iter orders = Ok os
    /\ find_order order_text os = Ok (Some o)
    /\ dict_get o "text" = VStr order_text
    /\ dict_get o "status" = VStr "SETTLEMENT_SUCCESS".
Proof.
  unfold observe. destruct response as [orders | e]; [| discriminate]. cbn [bind].
  destruct (py_iter orders) as [os | e] eqn:I; [| discriminate]. cbn [bind].
  destruct (find_order order_text os) as [[t |] | e] eqn:F; try discriminate.
  cbn [bind].
  destruct (py_eq_str (dict_get t "status") "SETTLEMENT_SUCCESS") eqn:E;
    [| discriminate].
  intros [= <-]. exists orders, os. pose proof (find_order_some _ _ F) as [_ F'].
  apply py_eq_str_true in E. repeat split; assumption.
Qed.

(** A run of the loop that returns a record has consumed a prefix of
    non-terminal responses and then one showing the record settled. *)
Lemma poll_loop_returns (fuel : nat) :
  forall (w : world) (o : dict) (w' : world),
    poll_loop fuel order_text api_key api_secret poll_interval w = (Ok (Some o), w') ->
    exists pre r post,
      responses w = pre ++ r :: post
      /\ responses w' = post
      /\ Forall (non_terminal order_text) pre
      /\ observe order_text r = Ok (Settled o)
      /\ clock w' = clock w
      /\ trace w' = trace w ++ polls_trace (clock w) (clock_reads w)
                                 poll_interval (length pre).
Proof.
  induction fuel as [| fuel IH]; intros w o w'; [discriminate |].
  rewrite poll_loop_step.
  destruct (http_get "/earn/dual/orders" "" api_key api_secret true w)
    as [[orders | e] w1] eqn:G; [| discriminate].
  destruct (http_get_auth_ok _ _ _ _ _ _ _ G) as (t & rest & Ht & Hr & ->).
  assert (Http {| req_method := GET; req_url := "/earn/dual/orders";
                  req_query := ""; req_body := None;
                  req_timestamp := Some (str_of_int t) |}
          = poll_event (clock w) (clock_reads w)) as Hev
    by (unfold poll_event; now rewrite (timestamp_at_ok _ _ _ Ht)).
  rewrite Hev.
  destruct (observe order_text (Ok orders)) as [st | e] eqn:O; [| discriminate].
  assert (forall w2,
            st = NotFound \/ st = Pending ->
            match time_sleep poll_interval
                    (with_responses
                       (with_trace (with_clock_reads w (S (clock_reads w)))
                          (trace w ++ [poll_event (clock w) (clock_reads w)])) rest)
            with
            | (Ok _, w2) =>
                poll_loop fuel order_text api_key api_secret poll_interval w2
            | (Raise e, w2) => (Raise e, w2)
            end = (Ok (Some o), w2) ->
            exists pre r post,
              responses w = pre ++ r :: post /\ responses w2 = post
              /\ Forall (non_terminal order_text) pre
              /\ observe order_text r = Ok (Settled o)
              /\ clock w2 = clock w
              /\ trace w2 = trace w ++ polls_trace (clock w) (clock_reads w)
                                         poll_interval (length pre)) as Hcont.
  { intros w2 Hst.
    destruct (time_sleep_run poll_interval
                (with_responses
                   (with_trace (with_clock_reads w (S (clock_reads w)))
                      (trace w ++ [poll_event (clock w) (clock_reads w)])) rest))
      as [[_ ->] | [_ [e ->]]]; [| discriminate].
    intros H. apply IH in H.
    destruct H as (pre & r & post & Hresp & Hpost & Hpre & Hobs & Hclk & Htr).
    cbn in Hresp, Hclk, Htr.
    exists (Ok orders :: pre), r, post. rewrite Hr, Hresp.
    repeat split; try assumption.
    - constructor; [| assumption]. unfold non_terminal. rewrite O.
      destruct Hst as [-> | ->]; [now left | now right].
    - rewrite Htr. cbn [length polls_trace]. rewrite <- !app_assoc. reflexivity. }
  destruct st as [| | t'].
  - intros H. apply (Hcont w'); [now left | exact H].
  - intros H. apply (Hcont w'); [now right | exact H].
  - intros [= <- <-]. exists [], (Ok orders), rest. cbn.
    repeat split; assumption || constructor.
Qed.

(** The fuel given by [wait_for_dual_settlement] never runs out. *)
Lemma poll_loop_fuel (fuel : nat) :
  forall w : world,
    (length (responses w) < fuel)%nat ->
    fst (poll_loop fuel order_text api_key api_secret poll_interval w) <> Ok None.
Proof.
  induction fuel as [| fuel IH]; intros w Hlen; [lia |].
  rewrite poll_loop_step.
  destruct (http_get "/earn/dual/orders" "" api_key api_secret true w)
    as [[orders | e] w1] eqn:G; [| discriminate].
  destruct (http_get_auth_ok _ _ _ _ _ _ _ G) as (t & rest & Ht & Hr & ->).
  rewrite Hr in Hlen. cbn [length] in Hlen.
  destruct (observe order_text (Ok orders)) as [[| | t'] | e]; try discriminate.
  all: match goal with
       | |- context [time_sleep poll_interval ?w1] =>
           destruct (time_sleep_run poll_interval w1) as [[_ ->] | [_ [e ->]]];
             [apply IH; cbn; lia | discriminate]
       end.
Qed.

End Monitor.

(** On a script of non-terminal responses followed by a settled one, the
    loop returns the settled record after one poll per response. *)
Lemma poll_loop_settles (order_text k s : string) (poll_interval : pyval)
    (r : result pyval) (o : dict) (post : list (result pyval)) :
  valid_sleep poll_interval = true ->
  observe order_text r = Ok (Settled o) ->
  forall (pre : list (result pyval)) (fuel : nat) (w : world),
    (length pre < fuel)%nat ->
    clock_ok (clock w) ->
    responses w = pre ++ r :: post ->
    Forall (non_terminal order_text) pre ->
    exists w',
      poll_loop fuel order_text (VStr k) (VStr s) poll_interval w = (Ok (Some o), w')
      /\ responses w' = post
      /\ trace w' = trace w ++ polls_trace (clock w) (clock_reads w)
                                 poll_interval (length pre).
Proof.
  intros Hsleep Hobs.
  induction pre as [| x pre IH]; intros fuel w Hfuel Hclk Hresp Hpre.
  - destruct fuel as [| fuel]; [cbn in Hfuel; lia |].
    rewrite poll_loop_step. destruct (Hclk (clock_reads w)) as [t Ht].
    cbn [app] in Hresp. rewrite (http_get_auth_run _ _ _ _ _ t r post Ht Hresp).
    destruct (observe_settled _ _ _ Hobs) as (orders & os & -> & _).
    rewrite Hobs. eexists. split; [reflexivity |]. split; [reflexivity |].
    cbn. unfold poll_event. now rewrite (timestamp_at_ok _ _ _ Ht).
  - destruct fuel as [| fuel]; [cbn in Hfuel; lia |].
    cbn [length] in Hfuel.
    rewrite poll_loop_step. destruct (Hclk (clock_reads w)) as [t Ht].
    cbn [app] in Hresp.
    rewrite (http_get_auth_run _ _ _ _ _ t x (pre ++ r :: post) Ht Hresp).
    inversion Hpre as [| ? ? Hx Hpre']; subst.
    assert (exists orders st, x = Ok orders /\ observe order_text (Ok orders) = Ok st
                              /\ (st = NotFound \/ st = Pending))
      as (orders & st & -> & Hst & Hcase).
    { destruct x as [orders | e].
      - destruct Hx as [Hx | Hx]; exists orders; eexists; eauto.
      - destruct Hx as [Hx | Hx]; discriminate. }
    rewrite Hst.
    match goal with
    | |- context [time_sleep poll_interval ?w1] =>
        destruct (time_sleep_run poll_interval w1) as [[_ Hrun] | [Hbad _]];
          [| congruence];
          destruct (IH fuel (with_trace w1 (trace w1 ++ [Sleep poll_interval])))
            as (w' & Hloop & Hpost & Htr);
          [lia | exact Hclk | reflexivity | exact Hpre' |]
    end.
    exists w'. split.
    + destruct Hcase as [-> | ->]; rewrite Hrun; exact Hloop.
    + split; [exact Hpost |]. rewrite Htr. cbn. unfold poll_event.
      rewrite (timestamp_at_ok _ _ _ Ht), <- !app_assoc. reflexivity.
Qed.


Lemma polls_trace_count (clk : nat -> float) (interval : pyval) (n : nat) :
  forall reads,
    length (List.filter is_poll (polls_trace clk reads interval n)) = S n
    /\ Forall (fun ev => is_poll ev = true \/ ev = Sleep interval)
              (polls_trace clk reads interval n).
Proof.
  induction n as [| n IH]; intros reads; cbn [polls_trace].
  - split; [reflexivity |]. constructor; [now left | constructor].
  - destruct (IH (S reads)) as [Hc Hf]. split.
    + cbn. now rewrite Hc.
    + constructor; [now left |]. constructor; [now right | exact Hf].
Qed.

Lemma wait_returns (order_text : string) (api_key api_secret poll_interval : pyval)
    (w : world) (o : dict) (w' : world) :
  wait_for_dual_settlement order_text api_key api_secret poll_interval w
    = (Ok (Some o), w') ->
  dict_get o "text" = VStr order_text
  /\ dict_get o "status" = VStr "SETTLEMENT_SUCCESS"
  /\ exists pre r post,
       responses w = pre ++ r :: post
       /\ responses w' = post
       /\ Forall (non_terminal order_text) pre
       /\ observe order_text r = Ok (Settled o)
       /\ trace w' = trace w ++ polls_trace (clock w) (clock_reads w)
                                  poll_interval (length pre)
       /\ length (List.filter is_poll
                    (polls_trace (clock w) (clock_reads w) poll_interval
                       (length pre))) = S (length pre).
Proof.
  unfold wait_for_dual_settlement. intros H.
  apply poll_loop_returns in H.
  destruct H as (pre & r & post & Hresp & Hpost & Hpre & Hobs & _ & Htr).
  destruct (observe_settled _ _ _ Hobs) as (_ & _ & _ & _ & _ & Htext & Hstatus).
  split; [exact Htext |]. split; [exact Hstatus |].
  exists pre, r, post. repeat split; try assumption.
  apply polls_trace_count.
Qed.

Lemma wait_settles (order_text k s : string) (poll_interval : pyval) (w : world)
    (pre : list (result pyval)) (r : result pyval) (post : list (result pyval))
    (o : dict) :
  valid_sleep poll_interval = true ->
  clock_ok (clock w) ->
  responses w = pre ++ r :: post ->
  Forall (non_terminal order_text) pre ->
  observe order_text r = Ok (Settled o) ->
  exists w',
    wait_for_dual_settlement order_text (VStr k) (VStr s) poll_interval w
      = (Ok (Some o), w')
    /\ responses w' = post
    /\ trace w' = trace w ++ polls_trace (clock w) (clock_reads w)
                               poll_interval (length pre).
Proof.
  intros Hsleep Hclk Hresp Hpre Hobs. unfold wait_for_dual_settlement.
  apply (poll_loop_settles order_text k s poll_interval r o post Hsleep Hobs pre);
    try assumption.
  rewrite Hresp, length_app. cbn. lia.
Qed.

Lemma polling_clock_ok : clock_ok (clock polling_world).
Proof. intros n. eexists. vm_compute. reflexivity. Qed.

(** C4: [wait_for_dual_settlement] returns a record only after a poll in
    which the first order carrying the tag has status SETTLEMENT_SUCCESS,
    and returns that record; every earlier response showed no such order
    or one in another status, and was followed by a sleep of the
    configured interval and a new poll. It never stops polling otherwise.
    With string credentials, a valid interval and a working clock, a
    script of non-terminal responses followed by a settled one makes it
    return after exactly one poll per response; on the script not-found,
    pending, pending, settled it issues 4 polls and returns the settled
    record. *)
Theorem settlement_monitor_returns_only_settled :
  (forall (order_text : string) (api_key api_secret poll_interval : pyval)
          (w : world) (o : dict) (w' : world),
     wait_for_dual_settlement order_text api_key api_secret poll_interval w
       = (Ok (Some o), w') ->
     dict_get o "text" = VStr order_text
     /\ dict_get o "status" = VStr "SETTLEMENT_SUCCESS"
     /\ exists pre r post,
          responses w = pre ++ r :: post
          /\ responses w' = post
          /\ Forall (non_terminal order_text) pre
          /\ observe order_text r = Ok (Settled o)
          /\ trace w' = trace w ++ polls_trace (clock w) (clock_reads w)
                                     poll_interval (length pre)
          /\ length (List.filter is_poll
                       (polls_trace (clock w) (clock_reads w) poll_interval
                          (length pre))) = S (length pre))
  /\ (forall (order_text : string) (api_key api_secret poll_interval : pyval)
             (w : world),
        fst (wait_for_dual_settlement order_text api_key api_secret
               poll_interval w) <> Ok None)
  /\ (forall (order_text k s : string) (poll_interval : pyval) (w : world)
             (pre : list (result pyval)) (r : result pyval)
             (post : list (result pyval)) (o : dict),
        valid_sleep poll_interval = true ->
        clock_ok (clock w) ->
        responses w = pre ++ r :: post ->
        Forall (non_terminal order_text) pre ->
        observe order_text r = Ok (Settled o) ->
        exists w',
          wait_for_dual_settlement order_text (VStr k) (VStr s) poll_interval w
            = (Ok (Some o), w')
          /\ responses w' = post
          /\ trace w' = trace w ++ polls_trace (clock w) (clock_reads w)
                                     poll_interval (length pre))
  /\ (exists w',
        wait_for_dual_settlement sample_tag (VStr "key") (VStr "secret")
          (VInt 60) polling_world = (Ok (Some settled_record), w')
        /\ length (List.filter is_poll (trace w')) = 4%nat
        /\ trace w' = polls_trace (clock polling_world) 0 (VInt 60) 3
        /\ responses w' = []).
Proof.
  split; [exact wait_returns |].
  split; [| split; [exact wait_settles |]].
  - intros order_text api_key api_secret poll_interval w.
    unfold wait_for_dual_settlement. apply poll_loop_fuel. lia.
  - eexists. split; [vm_compute; reflexivity |].
    repeat split; vm_compute; reflexivity.
Qed.

Lemma settlement_monitor_returns_only_settled_witness :
  exists w',
    wait_for_dual_settlement sample_tag (VStr "key") (VStr "secret") (VInt 60)
      polling_world = (Ok (Some settled_record), w')
    /\ responses w' = []
    /\ dict_get settled_record "status" = VStr "SETTLEMENT_SUCCESS".
Proof.
  destruct settlement_monitor_returns_only_settled as (Hret & _ & Hlive & _).
  destruct (Hlive sample_tag "key"%string "secret"%string (VInt 60) polling_world
              [Ok (VList [other_order]);
               Ok (VList [other_order; pending_order]);
               Ok (VList [pending_order])]
              (Ok (VList [other_order; settled_order; pending_order]))
              [] settled_record) as (w' & Hrun & Hpost & _).
  - reflexivity.
  - exact polling_clock_ok.
  - reflexivity.
  - repeat constructor; (left; vm_compute; reflexivity)
                        || (right; vm_compute; reflexivity).
  - vm_compute; reflexivity.
  - exists w'. split; [exact Hrun |]. split; [exact Hpost |].
    apply (Hret _ _ _ _ _ _ _ Hrun).
Defined.

(** ** Order Orchestrator *)

Lemma fetches_quiet {A : Type} (p : prog A) :
  (forall w r w', p w = (r, w') -> trace w' = trace w) -> fetches p.
Proof.
  intros H w r w' E. exists []. rewrite app_nil_r. split; [eauto | constructor].
Qed.

Lemma fetches_ret {A : Type} (a : A) : fetches (ret a).
Proof. apply fetches_quiet. intros w r w' [= _ <-]. reflexivity. Qed.

Lemma fetches_lift {A : Type} (r : result A) : fetches (lift r).
Proof. apply fetches_quiet. intros w r' w' [= _ <-]. reflexivity. Qed.

Lemma fetches_input : fetches input.
Proof.
  apply fetches_quiet. intros w r w'. unfold input.
  destruct (stdin w); intros [= _ <-]; reflexivity.
Qed.

Lemma fetches_int_time : fetches int_time.
Proof.
  apply fetches_quiet. intros w r w'. rewrite int_time_run.
  intros [= _ <-]. reflexivity.
Qed.

Lemma fetches_load_config : fetches load_config.
Proof. apply fetches_quiet. intros w r w' [= _ <-]. reflexivity. Qed.

Lemma fetches_bind {A B : Type} (p : prog A) (k : A -> prog B) :
  fetches p -> (forall a, fetches (k a)) -> fetches (bindp p k).
Proof.
  intros Hp Hk w r w'. unfold bindp.
  destruct (p w) as [[a | e] w1] eqn:E.
  - intros H. destruct (Hp _ _ _ E) as (evs1 & T1 & F1).
    destruct (Hk a _ _ _ H) as (evs2 & T2 & F2).
    exists (evs1 ++ evs2). rewrite T2, T1, app_assoc.
    split; [reflexivity | now apply Forall_app].
  - intros [= _ <-]. eauto.
Qed.

Lemma send_run (rq : request) (w : world) (r : result pyval) (w' : world) :
  send rq w = (r, w') -> trace w' = trace w ++ [Http rq].
Proof.
  unfold send, bindp, emit, next_response. cbn.
  destruct (responses w); intros [= _ <-]; reflexivity.
Qed.

Lemma fetches_http_get (url query : string) (key secret : pyval) (auth : bool) :
  fetches (http_get url query key secret auth).
Proof.
  intros w r w'. unfold http_get. destruct auth.
  - unfold bindp. rewrite gen_sign_run.
    destruct (let? t := py_int (VFloat (clock w (clock_reads w))) in
              match secret with VStr _ => Ok (str_of_int t) | _ => Raise AttributeError end)
      as [ts | e].
    + intros H. apply send_run in H. cbn [trace with_clock_reads] in H.
      rewrite H. eexists. split; [reflexivity |]. repeat constructor.
    + intros [= _ <-]. exists []. rewrite app_nil_r.
      split; [reflexivity | constructor].
  - intros H. apply send_run in H. rewrite H.
    eexists. split; [reflexivity |]. repeat constructor.
Qed.

Lemma http_post_run (url : string) (body : dict) (query : string)
    (key secret : pyval) (w : world) (r : result pyval) (w' : world) :
  http_post url body query key secret w = (r, w') ->
  (trace w' = trace w /\ exists e, r = Raise e)
  \/ exists ts,
       trace w' = trace w ++ [Http {| req_method := POST; req_url := url;
                                      req_query := query; req_body := Some body;
                                      req_timestamp := Some ts |}].
Proof.
  unfold http_post, bindp. rewrite gen_sign_run.
  destruct (let? t := py_int (VFloat (clock w (clock_reads w))) in
            match secret with VStr _ => Ok (str_of_int t) | _ => Raise AttributeError end)
    as [ts | e].
  - intros H. apply send_run in H. cbn [trace with_clock_reads] in H.
    right. eauto.
  - intros [= <- <-]. left. eauto.
Qed.

Lemma prefix_append (p s : string) : String.prefix p (p ++ s) = true.
Proof.
  induction p as [| a p IH].
  - destruct s; reflexivity.
  - change (match ascii_dec a a with
            | left _ => String.prefix p (p ++ s)
            | right _ => false
            end = true).
    destruct (ascii_dec a a); [exact IH | congruence].
Qed.

Lemma not_hedge_of_get (ev : event) : is_get ev = true -> is_hedge_post ev = false.
Proof. destruct ev as [[[] ? ? ? ?] |]; cbn; congruence. Qed.

Lemma not_hedge_of_investment (ev : event) :
  is_investment_post ev = true -> is_hedge_post ev = false.
Proof.
  destruct ev as [[[] url ? ? ?] |]; cbn; try congruence.
  intros H. apply String.eqb_eq in H. subst url. reflexivity.
Qed.

Lemma submissions_ordered_hedge (evs : list event) :
  submissions_ordered evs -> hedge_after_investment evs.
Proof.
  intros (gets & rest & -> & Hgets & Hrest) i hedge Hi Hh.
  destruct (decide (i < length gets)%nat) as [Hlt | Hge].
  - rewrite lookup_app_l in Hi by exact Hlt.
    rewrite Forall_forall in Hgets.
    apply list_elem_of_lookup_2, Hgets, not_hedge_of_get in Hi.
    congruence.
  - rewrite lookup_app_r in Hi by lia.
    destruct Hrest as [-> | [(inv & -> & Hinv) | (inv & h & -> & Hinv & _)]].
    + rewrite lookup_nil in Hi. discriminate.
    + destruct (i - length gets)%nat as [| n] eqn:En; cbn in Hi; [| discriminate].
      injection Hi as ->. apply not_hedge_of_investment in Hinv. congruence.
    + destruct (i - length gets)%nat as [| [| n]] eqn:En; cbn in Hi;
        [| | discriminate].
      * injection Hi as ->. apply not_hedge_of_investment in Hinv. congruence.
      * exists (length gets), inv. split; [lia |]. split; [| exact Hinv].
        rewrite lookup_app_r by lia. now rewrite Nat.sub_diag.
Qed.

Lemma ordered_of_fetches {A : Type} (p : prog A) : fetches p -> ordered p.
Proof.
  intros Hp w r w' E. destruct (Hp _ _ _ E) as (evs & T & F).
  exists evs. split; [exact T |]. exists evs, []. rewrite app_nil_r. auto.
Qed.

Lemma ordered_bind {A B : Type} (p : prog A) (k : A -> prog B) :
  fetches p -> (forall a, ordered (k a)) -> ordered (bindp p k).
Proof.
  intros Hp Hk w r w'. unfold bindp.
  destruct (p w) as [[a | e] w1] eqn:E.
  - intros H. destruct (Hp _ _ _ E) as (evs1 & T1 & F1).
    destruct (Hk a _ _ _ H) as (evs2 & T2 & gets & rest & -> & F2 & Hrest).
    exists (evs1 ++ gets ++ rest). rewrite T2, T1, <- app_assoc.
    split; [reflexivity |].
    exists (evs1 ++ gets), rest. rewrite <- app_assoc.
    split; [reflexivity |]. split; [now apply Forall_app | exact Hrest].
  - intros [= <- <-]. apply (ordered_of_fetches p Hp _ _ _ E).
Qed.

Section OrchestratorFacts.
Variable py_str : pyval -> string.
Variable py_eq : pyval -> pyval -> bool.

Lemma place_dual_order_run (plan : dict) (amount : float) (key secret : pyval)
    (text : string) (w : world) (r : result pyval) (w' : world) :
  place_dual_order py_str plan amount key secret text w = (r, w') ->
  (trace w' = trace w /\ exists e, r = Raise e)
  \/ exists inv body,
       trace w' = trace w ++ [Http inv]
       /\ is_investment_post (Http inv) = true
       /\ req_body inv = Some body
       /\ body !! "text" = Some (VStr text)
       /\ body !! "amount" = Some (VStr (py_str (VFloat amount))).
Proof.
  unfold place_dual_order, bindp, lift.
  destruct (dict_item plan "id") as [id | e].
  - intros H. apply http_post_run in H. destruct H as [H | [ts H]]; [now left |].
    right. eexists. eexists. split; [exact H |]. cbn.
    repeat split; reflexivity.
  - intros [= <- <-]. left. eauto.
Qed.

Lemma open_futures_short_run (settle contract : pyval) (size : Z)
    (key secret : pyval) (reduce_only : bool) (w : world) (r : result pyval)
    (w' : world) :
  open_futures_short py_str settle contract size key secret reduce_only w = (r, w') ->
  (trace w' = trace w /\ exists e, r = Raise e)
  \/ exists hedge,
       trace w' = trace w ++ [hedge]
       /\ is_hedge_post hedge = true
       /\ is_short_order ("/futures/" ++ py_str settle ++ "/orders") size hedge.
Proof.
  unfold open_futures_short, bindp, lift, short_order_body. cbn [py_int bind].
  intros H. apply http_post_run in H. destruct H as [H | [ts H]]; [now left |].
  right. destruct reduce_only.
  all: eexists; split; [exact H |]; split; [apply prefix_append |].
  all: eexists; eexists; split; [reflexivity |].
  all: repeat split; reflexivity.
Qed.

Lemma fetches_get_futures_contract (settle contract : pyval) :
  fetches (get_futures_contract py_str py_eq settle contract).
Proof.
  unfold get_futures_contract.
  apply fetches_bind; [apply fetches_http_get | intros data].
  apply fetches_bind; [apply fetches_lift | intros cs]. apply fetches_lift.
Qed.

Lemma fetches_get_futures_ticker (settle contract : pyval) :
  fetches (get_futures_ticker py_str settle contract).
Proof.
  unfold get_futures_ticker.
  apply fetches_bind; [apply fetches_http_get | intros data].
  destruct data as [| | | | | [| x l] |]; apply fetches_ret || apply fetches_lift.
Qed.

Lemma fetches_find_best_call : fetches find_best_eth_dual_one_day_call.
Proof.
  unfold find_best_eth_dual_one_day_call.
  apply fetches_bind; [apply fetches_http_get | intros plans].
  apply fetches_bind; [apply fetches_int_time | intros now]. apply fetches_lift.
Qed.

Lemma fetches_correlation_tag : fetches correlation_tag.
Proof.
  unfold correlation_tag.
  apply fetches_bind; [apply fetches_int_time | intros t]. apply fetches_ret.
Qed.

Lemma ordered_submit (plan : dict) (amount : float) (key secret : pyval)
    (text : string) (settle contract : pyval) (size : Z) :
  ordered
    (let! dual_resp := place_dual_order py_str plan amount key secret text in
     let! fut_resp := open_futures_short py_str settle contract size key secret false in
     ret tt).
Proof.
  intros w r w'. unfold bindp at 1.
  destruct (place_dual_order py_str plan amount key secret text w)
    as [[v | e] w1] eqn:P.
  - apply place_dual_order_run in P.
    destruct P as [[_ [e E]] | (inv & body & T1 & Hinv & _)]; [discriminate |].
    unfold bindp.
    destruct (open_futures_short py_str settle contract size key secret false w1)
      as [[v2 | e2] w2] eqn:O; intros [= <- <-];
      apply open_futures_short_run in O;
      destruct O as [[T2 _] | (hedge & T2 & Hh & _)].
    + exists [Http inv]. rewrite T2, T1. split; [reflexivity |].
      exists [], [Http inv]. split; [reflexivity |]. split; [constructor |].
      right. left. eauto.
    + exists [Http inv; hedge]. rewrite T2, T1, <- app_assoc.
      split; [reflexivity |].
      exists [], [Http inv; hedge]. split; [reflexivity |]. split; [constructor |].
      right. right. eauto.
    + exists [Http inv]. rewrite T2, T1. split; [reflexivity |].
      exists [], [Http inv]. split; [reflexivity |]. split; [constructor |].
      right. left. eauto.
    + exists [Http inv; hedge]. rewrite T2, T1, <- app_assoc.
      split; [reflexivity |].
      exists [], [Http inv; hedge]. split; [reflexivity |]. split; [constructor |].
      right. right. eauto.
  - intros [= <- <-]. apply place_dual_order_run in P.
    destruct P as [[T _] | (inv & body & T1 & Hinv & _)].
    + exists []. rewrite app_nil_r. split; [exact T |].
      exists [], []. split; [reflexivity |]. split; [constructor | now left].
    + exists [Http inv]. split; [exact T1 |].
      exists [], [Http inv]. split; [reflexivity |]. split; [constructor |].
      right. left. eauto.
Qed.

Lemma ordered_main : ordered (main py_str py_eq).
Proof.
  unfold main.
  repeat (apply ordered_bind;
          [ first [ apply fetches_load_config | apply fetches_lift
                  | apply fetches_input | apply fetches_find_best_call
                  | apply fetches_get_futures_contract
                  | apply fetches_get_futures_ticker ]
          | intros ? ]).
  match goal with
  | |- ordered (if ?b then _ else _) => destruct b
  end.
  - apply ordered_of_fetches, fetches_ret.
  - apply ordered_bind; [apply fetches_correlation_tag | intros text].
    apply ordered_submit.
Qed.

End OrchestratorFacts.

Lemma bindp_ext {A B : Type} (p p' : prog A) (k k' : A -> prog B) (w : world) :
  p w = p' w -> (forall a w1, k a w1 = k' a w1) -> bindp p k w = bindp p' k' w.
Proof.
  intros Hp Hk. unfold bindp. rewrite Hp.
  destruct (p' w) as [[a | e] w1]; [apply Hk | reflexivity].
Qed.

Section BuiltinEquality.
Variable py_str : pyval -> string.
Variables py_eq py_eq' : pyval -> pyval -> bool.
Hypothesis py_eq_agree : forall a b, py_eq a b = py_eq' a b.

Lemma find_contract_ext (contract : pyval) (cs : list pyval) :
  find_contract py_eq contract cs = find_contract py_eq' contract cs.
Proof.
  induction cs as [| c cs IH]; cbn [find_contract]; [reflexivity |].
  destruct (as_dict c) as [d | e]; [| reflexivity]. cbn [bind].
  now rewrite py_eq_agree, IH.
Qed.

Lemma get_futures_contract_ext (settle contract : pyval) (w : world) :
  get_futures_contract py_str py_eq settle contract w
  = get_futures_contract py_str py_eq' settle contract w.
Proof.
  unfold get_futures_contract.
  apply bindp_ext; [reflexivity | intros data w1].
  apply bindp_ext; [reflexivity | intros cs w2].
  unfold lift. now rewrite find_contract_ext.
Qed.

Lemma main_ext (w : world) : main py_str py_eq w = main py_str py_eq' w.
Proof.
  unfold main.
  repeat (apply bindp_ext;
          [ reflexivity || apply get_futures_contract_ext | intros ? ? ]).
  reflexivity.
Qed.

End BuiltinEquality.

Lemma on_strings_agree (py_eq : pyval -> pyval -> bool) :
  (forall x y, py_eq (VStr x) (VStr y) = String.eqb x y) ->
  forall a b, py_eq a b = on_strings py_eq a b.
Proof.
  intros H a b. unfold on_strings.
  destruct a; try reflexivity. destruct b; try reflexivity. apply H.
Qed.

(** C5: in every run of [main], whatever the collaborators answer, the
    events added to the trace are fetches followed by nothing, by the
    investment order alone, or by the investment order and then the hedge
    order; so a hedge order is always preceded by the investment order. *)
Theorem investment_submitted_before_hedge
    (py_str : pyval -> string) (py_eq : pyval -> pyval -> bool)
    (w : world) (r : result unit) (w' : world) :
  main py_str py_eq w = (r, w') ->
  exists evs,
    trace w' = trace w ++ evs
    /\ submissions_ordered evs
    /\ hedge_after_investment evs.
Proof.
  intros H. destruct (ordered_main py_str py_eq _ _ _ H) as (evs & T & O).
  exists evs. split; [exact T |]. split; [exact O |].
  now apply submissions_ordered_hedge.
Qed.

Lemma investment_submitted_before_hedge_witness :
  exists evs,
    trace (snd (main str_sample eq_sample e2e_world)) = trace e2e_world ++ evs
    /\ submissions_ordered evs
    /\ hedge_after_investment evs.
Proof.
  apply (investment_submitted_before_hedge str_sample eq_sample e2e_world
           (fst (main str_sample eq_sample e2e_world))).
  destruct (main str_sample eq_sample e2e_world); reflexivity.
Defined.

Lemma http_post_posts (url : string) (body : dict) (query k s : string)
    (w : world) (t : Z) :
  py_int (VFloat (clock w (clock_reads w))) = Ok t ->
  exists r w',
    http_post url body query (VStr k) (VStr s) w = (r, w')
    /\ trace w' = trace w ++ [Http {| req_method := POST; req_url := url;
                                      req_query := query; req_body := Some body;
                                      req_timestamp := Some (str_of_int t) |}].
Proof.
  intros Ht. unfold http_post, bindp. rewrite gen_sign_run, Ht. cbn [bind].
  unfold send, bindp, emit, next_response. cbn.
  destruct (responses w); eexists; eexists; split; reflexivity.
Qed.

Lemma open_futures_short_posts (py_str : pyval -> string) (settle contract : pyval)
    (size : Z) (k s : string) (reduce_only : bool) (w : world) :
  clock_ok (clock w) ->
  exists r w' hedge,
    open_futures_short py_str settle contract size (VStr k) (VStr s) reduce_only w
      = (r, w')
    /\ trace w' = trace w ++ [hedge]
    /\ is_short_order ("/futures/" ++ py_str settle ++ "/orders") size hedge.
Proof.
  intros Hclk. destruct (Hclk (clock_reads w)) as [t Ht].
  destruct (http_post_posts ("/futures/" ++ py_str settle ++ "/orders")
              (if reduce_only
               then <["reduce_only" := VBool true]>
                      (<["text" := VStr "dual-hedge-short"]>
                        (<["tif" := VStr "ioc"]>
                          (<["iceberg" := VInt 0]>
                            (<["size" := VInt (- Z.abs size)]>
                              (<["contract" := contract]> ∅)))))
               else <["text" := VStr "dual-hedge-short"]>
                      (<["tif" := VStr "ioc"]>
                        (<["iceberg" := VInt 0]>
                          (<["size" := VInt (- Z.abs size)]>
                            (<["contract" := contract]> ∅)))))
              "" k s w t Ht) as (r & w' & Hrun & Htr).
  exists r, w'. eexists. split; [exact Hrun |]. split; [exact Htr |].
  destruct reduce_only.
  all: eexists; eexists; split; [reflexivity |].
  all: repeat split; reflexivity.
Qed.

Lemma e2e_run (py_str : pyval -> string) (py_eq : pyval -> pyval -> bool) :
  (forall x y, py_eq (VStr x) (VStr y) = String.eqb x y) ->
  exists w' g1 g2 g3 inv hedge,
    main py_str py_eq e2e_world = (Ok tt, w')
    /\ trace w' = [g1; g2; g3; inv; hedge]
    /\ is_investment_post inv = true
    /\ is_short_order ("/futures/" ++ py_str (VStr "usdt") ++ "/orders") 1000 hedge.
Proof.
  intros Heq.
  rewrite (main_ext py_str py_eq (on_strings py_eq) (on_strings_agree py_eq Heq)).
  eexists. eexists. eexists. eexists. eexists. eexists.
  split; [vm_compute; reflexivity |].
  split; [reflexivity |]. split; [reflexivity |].
  eexists. eexists. split; [reflexivity |].
  repeat split; reflexivity.
Qed.

(** C7: whatever [open_futures_short] sends is one POST to the futures
    orders path whose body carries the size [- |size|] and the
    time-in-force "ioc"; with string credentials and a working clock it
    sends exactly that request. In the end-to-end scenario, 1000 USDT
    with one eligible offer and no contract multiplier, the run posts the
    investment order and then a hedge order of size -1000. *)
Theorem hedge_order_is_short_ioc :
  (forall (py_str : pyval -> string) (settle contract : pyval) (size : Z)
          (key secret : pyval) (reduce_only : bool)
          (w : world) (r : result pyval) (w' : world),
     open_futures_short py_str settle contract size key secret reduce_only w
       = (r, w') ->
     (trace w' = trace w /\ exists e, r = Raise e)
     \/ exists hedge,
          trace w' = trace w ++ [hedge]
          /\ is_hedge_post hedge = true
          /\ is_short_order ("/futures/" ++ py_str settle ++ "/orders") size hedge)
  /\ (forall (py_str : pyval -> string) (settle contract : pyval) (size : Z)
             (k s : string) (reduce_only : bool) (w : world),
        clock_ok (clock w) ->
        exists r w' hedge,
          open_futures_short py_str settle contract size (VStr k) (VStr s)
            reduce_only w = (r, w')
          /\ trace w' = trace w ++ [hedge]
          /\ is_short_order ("/futures/" ++ py_str settle ++ "/orders") size hedge)
  /\ (forall (py_str : pyval -> string) (py_eq : pyval -> pyval -> bool),
        (forall x y, py_eq (VStr x) (VStr y) = String.eqb x y) ->
        exists w' g1 g2 g3 inv hedge,
          main py_str py_eq e2e_world = (Ok tt, w')
          /\ trace w' = [g1; g2; g3; inv; hedge]
          /\ is_investment_post inv = true
          /\ is_short_order ("/futures/" ++ py_str (VStr "usdt") ++ "/orders")
               1000 hedge).
Proof.
  split; [exact open_futures_short_run |].
  split; [exact open_futures_short_posts | exact e2e_run].
Qed.

Lemma hedge_order_is_short_ioc_witness :
  (exists r w' hedge,
     open_futures_short str_sample (VStr "usdt") (VStr "ETH_USDT") 7
       (VStr "key") (VStr "secret") false polling_world = (r, w')
     /\ trace w' = trace polling_world ++ [hedge]
     /\ is_short_order "/futures/usdt/orders" 7 hedge)
  /\ exists w' g1 g2 g3 inv hedge,
       main str_sample eq_sample e2e_world = (Ok tt, w')
       /\ trace w' = [g1; g2; g3; inv; hedge]
       /\ is_investment_post inv = true
       /\ is_short_order "/futures/usdt/orders" 1000 hedge.
Proof.
  destruct hedge_order_is_short_ioc as (_ & Hposts & He2e).
  split.
  - apply (Hposts str_sample (VStr "usdt") (VStr "ETH_USDT") 7 "key"%string
                  "secret"%string false polling_world).
    exact polling_clock_ok.
  - apply (He2e str_sample eq_sample). intros x y. reflexivity.
Defined.

(** ** Correlation tag *)

Lemma correlation_tag_run (w : world) :
  correlation_tag w =
  (let? t := py_int (VFloat (clock w (clock_reads w))) in Ok (custom_text_of t),
   with_clock_reads w (S (clock_reads w))).
Proof.
  unfold correlation_tag, bindp. rewrite int_time_run.
  destruct (py_int (VFloat (clock w (clock_reads w)))); reflexivity.
Qed.

Lemma custom_text_of_inj (a b : Z) : custom_text_of a = custom_text_of b -> a = b.
Proof.
  unfold custom_text_of, str_of_int. cbn [String.append]. intros H.
  injection H as H. exact (pretty_Z_inj a b H).
Qed.

(** C8 (amended): the tag of a run is "dual-hedge-" followed by the whole
    second at which the run reads the clock, so the tags of two runs differ
    exactly when those seconds differ. *)
Theorem correlation_tags_differ_iff_seconds_differ
    (w1 w2 : world) (tag1 tag2 : string) (w1' w2' : world) :
  correlation_tag w1 = (Ok tag1, w1') ->
  correlation_tag w2 = (Ok tag2, w2') ->
  exists t1 t2,
    py_int (VFloat (clock w1 (clock_reads w1))) = Ok t1
    /\ py_int (VFloat (clock w2 (clock_reads w2))) = Ok t2
    /\ tag1 = custom_text_of t1
    /\ tag2 = custom_text_of t2
    /\ (tag1 <> tag2 <-> t1 <> t2).
Proof.
  rewrite !correlation_tag_run.
  destruct (py_int (VFloat (clock w1 (clock_reads w1)))) as [t1 | e1];
    [| discriminate].
  destruct (py_int (VFloat (clock w2 (clock_reads w2)))) as [t2 | e2];
    [| discriminate].
  cbn [bind]. intros [= <- _] [= <- _]. exists t1, t2.
  repeat split; try reflexivity.
  - intros Hne ->. now apply Hne.
  - intros Hne H. apply custom_text_of_inj in H. now apply Hne.
Qed.

Lemma correlation_tags_differ_iff_seconds_differ_witness :
  exists t1 t2,
    py_int (VFloat (clock run_a (clock_reads run_a))) = Ok t1
    /\ py_int (VFloat (clock e2e_world (clock_reads e2e_world))) = Ok t2
    /\ "dual-hedge-1700000000"%string = custom_text_of t1
    /\ "dual-hedge-1700000000"%string = custom_text_of t2
    /\ ("dual-hedge-1700000000"%string <> "dual-hedge-1700000000"%string
        <-> t1 <> t2).
Proof.
  apply (correlation_tags_differ_iff_seconds_differ run_a e2e_world
           "dual-hedge-1700000000" "dual-hedge-1700000000"
           (snd (correlation_tag run_a)) (snd (correlation_tag e2e_world))).
  - apply injective_projections; [vm_compute; reflexivity | reflexivity].
  - apply injective_projections; [vm_compute; reflexivity | reflexivity].
Defined.

(** C8 (as stated, refuted): two distinct runs can generate the same tag.
    Two runs that differ in their input and read the clock a quarter and
    three quarters into the same second both generate
    "dual-hedge-1700000000". *)
Lemma correlation_tags_collide_within_a_second :
  stdin run_a <> stdin run_b
  /\ PyFloat.eqb (clock run_a 0) (clock run_b 0) = false
  /\ fst (correlation_tag run_a) = Ok "dual-hedge-1700000000"%string
  /\ fst (correlation_tag run_b) = Ok "dual-hedge-1700000000"%string.
Proof.
  split; [discriminate |]. repeat split; vm_compute; reflexivity.
Qed.

(** * Further properties *)

(** ** Configuration *)

Lemma lookup_setdefault (k : string) (v : pyval) (cfg : dict) (k' : string) :
  setdefault k v cfg !! k' =
  match cfg !! k' with
  | Some x => Some x
  | None => if String.eqb k' k then Some v else None
  end.
Proof.
  unfold setdefault. destruct (String.eqb_spec k' k) as [-> | Hne].
  - destruct (cfg !! k) eqn:E; [now rewrite E | now rewrite lookup_insert_eq].
  - destruct (cfg !! k) eqn:E; [now destruct (cfg !! k') |].
    rewrite lookup_insert_ne by congruence. now destruct (cfg !! k').
Qed.

(** X1: a configuration that [load_config] returns is the file's object
    with truthy credentials, every entry of the file kept as it is, and
    the four defaults (usdt, ETH_USDT, 1.0, 60) filled in only for the
    keys the file lacks; loading changes nothing in the world. *)
Theorem load_config_keeps_file_and_fills_defaults
    (w : world) (cfg : dict) (w' : world) :
  load_config w = (Ok cfg, w') ->
  w' = w
  /\ exists file,
       config_file w = Ok (VDict file)
       /\ py_falsy (dict_get file "api_key") = false
       /\ py_falsy (dict_get file "api_secret") = false
       /\ forall k, cfg !! k = match file !! k with
                                | Some v => Some v
                                | None => config_default k
                                end.
Proof.
  unfold load_config. intros [= H <-]. split; [reflexivity |].
  destruct (config_file w) as [v | e]; [| discriminate]. cbn [bind] in H.
  destruct v as [| | | | | | file]; try discriminate. cbn [as_dict bind] in H.
  unfold require_field in H.
  destruct (py_falsy (dict_get file "api_key")) eqn:K; [discriminate |].
  cbn [bind] in H.
  destruct (py_falsy (dict_get file "api_secret")) eqn:S; [discriminate |].
  cbn [bind] in H. injection H as <-.
  exists file. split; [reflexivity |]. split; [exact K |]. split; [exact S |].
  intros k. rewrite !lookup_setdefault. unfold config_default.
  destruct (file !! k); [reflexivity |].
  destruct (String.eqb_spec k "futures_settle") as [-> | _]; [reflexivity |].
  destruct (String.eqb_spec k "futures_contract") as [-> | _]; [reflexivity |].
  destruct (String.eqb_spec k "hedge_multiplier") as [-> | _]; [reflexivity |].
  destruct (String.eqb_spec k "poll_interval_sec") as [-> | _]; reflexivity.
Qed.

Lemma load_config_keeps_file_and_fills_defaults_witness :
  exists cfg : dict,
    cfg !! "futures_contract" = Some (VStr "BTC_USDT")
    /\ cfg !! "futures_settle" = Some (VStr "usdt")
    /\ cfg !! "poll_interval_sec" = Some (VInt 60).
Proof.
  assert (is_ok (fst (load_config
                        (scripted [] [] (sample_clock 0)
                           (Ok (VDict sample_config_file))))) = true) as Hok
    by (vm_compute; reflexivity).
  destruct (load_config (scripted [] [] (sample_clock 0)
                           (Ok (VDict sample_config_file))))
    as [r w'] eqn:E.
  destruct (is_ok_inv _ Hok) as [cfg Hcfg]. cbn [fst] in Hcfg. subst r.
  destruct (load_config_keeps_file_and_fills_defaults _ _ _ E)
    as (_ & file & Hfile & _ & _ & Hk).
  injection Hfile as <-. exists cfg.
  rewrite !Hk. repeat split; vm_compute; reflexivity.
Defined.

(** X2: on a configuration file holding an object, [load_config] raises
    the missing-credential error exactly when [api_key] or [api_secret] is
    absent or falsy (null, empty string, zero, false, empty container);
    a file that does not hold an object raises [AttributeError]. *)
Theorem load_config_requires_credentials (w : world) :
  (forall file,
     config_file w = Ok (VDict file) ->
     (load_config w = (Raise (RuntimeError MissingCredential), w)
      <-> py_falsy (dict_get file "api_key") = true
          \/ py_falsy (dict_get file "api_secret") = true))
  /\ (forall v, config_file w = Ok v -> (forall file, v <> VDict file) ->
                load_config w = (Raise AttributeError, w)).
Proof.
  split.
  - intros file Hfile. unfold load_config, require_field. rewrite Hfile.
    cbn [bind as_dict].
    destruct (py_falsy (dict_get file "api_key")); cbn [bind].
    + split; [auto | reflexivity].
    + destruct (py_falsy (dict_get file "api_secret")); cbn [bind].
      * split; [auto | reflexivity].
      * split; [discriminate | intros [H | H]; discriminate].
  - intros v Hv Hnot. unfold load_config. rewrite Hv. cbn [bind].
    destruct v; try reflexivity. now destruct (Hnot d).
Qed.

Lemma load_config_requires_credentials_witness :
  load_config (scripted [] [] (sample_clock 0)
                 (Ok (VDict (<["api_key" := VStr ""]> sample_config_file))))
  = (Raise (RuntimeError MissingCredential),
     scripted [] [] (sample_clock 0)
       (Ok (VDict (<["api_key" := VStr ""]> sample_config_file)))).
Proof.
  destruct (load_config_requires_credentials
              (scripted [] [] (sample_clock 0)
                 (Ok (VDict (<["api_key" := VStr ""]> sample_config_file)))))
    as [H _].
  apply (H (<["api_key" := VStr ""]> sample_config_file)); [reflexivity |].
  left. vm_compute. reflexivity.
Defined.

(** ** Offer Selector: further properties *)

Lemma parsed_yield_with_apy (d : dict) : parsed_yield (with_apy d) = parsed_yield d.
Proof.
  unfold parsed_yield at 1. unfold apy_of, dict_get_or, with_apy.
  rewrite lookup_insert_ne by discriminate. reflexivity.
Qed.

Lemma apy_of_with_apy (d : dict) : apy_of (with_apy d) = apy_of d.
Proof.
  unfold apy_of, dict_get_or, with_apy.
  rewrite lookup_insert_ne by discriminate. reflexivity.
Qed.

Lemma eligible_with_apy (now : Z) (d : dict) :
  eligible now (with_apy d) = eligible now d.
Proof.
  unfold eligible, fields_pass.
  rewrite !dict_get_with_apy by discriminate.
  now rewrite delivery_time_of_with_apy.
Qed.

Lemma readable_with_apy (d : dict) : readable (with_apy d) = readable d.
Proof.
  unfold readable. now rewrite delivery_time_of_with_apy, apy_of_with_apy.
Qed.

Lemma with_apy_idem (d : dict) : with_apy (with_apy d) = with_apy d.
Proof.
  unfold with_apy at 1 3. rewrite parsed_yield_with_apy.
  unfold with_apy. apply insert_insert_eq.
Qed.

Lemma candidates_of_after_selection (now : Z) (offers : list dict) :
  candidates_of now (after_selection now offers) = candidates_of now offers.
Proof.
  unfold candidates_of, after_selection.
  induction offers as [| d ds IH]; [reflexivity |].
  cbn [fmap list_fmap]. rewrite !filter_cons.
  destruct (eligible now d) eqn:E.
  - rewrite eligible_with_apy, E. rewrite !decide_True by reflexivity.
    cbn [fmap list_fmap]. rewrite with_apy_idem. f_equal. exact IH.
  - rewrite E. rewrite !decide_False by discriminate. exact IH.
Qed.

Lemma readable_after_selection (now : Z) (offers : list dict) :
  Forall (fun d => readable d = true) offers ->
  Forall (fun d => readable d = true) (after_selection now offers).
Proof.
  unfold after_selection. induction 1 as [| d ds Hd _ IH]; cbn; constructor.
  - destruct (eligible now d); [now rewrite readable_with_apy | exact Hd].
  - exact IH.
Qed.

(** X3: selecting again from the list as a first pass left it, with the
    [_apy] entries the pass wrote into the kept offers, gives the same
    result: the annotation does not disturb the filters or the ranking. *)
Theorem selector_stable_under_its_annotation (offers : list dict) (now : Z) :
  Forall (fun d => readable d = true) offers ->
  find_best_eth_dual_one_day (offer_list (after_selection now offers)) now
  = find_best_eth_dual_one_day (offer_list offers) now.
Proof.
  intros Hr.
  rewrite (find_best_readable _ now (readable_after_selection now offers Hr)).
  rewrite (find_best_readable offers now Hr).
  now rewrite candidates_of_after_selection.
Qed.

Lemma selector_stable_under_its_annotation_witness :
  find_best_eth_dual_one_day
    (offer_list (after_selection sample_now [offer_85; offer_late; offer_92]))
    sample_now
  = find_best_eth_dual_one_day (offer_list [offer_85; offer_late; offer_92])
      sample_now.
Proof.
  apply (selector_stable_under_its_annotation
           [offer_85; offer_late; offer_92] sample_now).
  repeat constructor.
Defined.

Lemma candidates_of_filter (now : Z) (offers : list dict) :
  candidates_of now (filter (fun d => eligible now d = true) offers)
  = candidates_of now offers.
Proof.
  unfold candidates_of. f_equal.
  induction offers as [| d ds IH]; [reflexivity |].
  rewrite filter_cons. destruct (eligible now d) eqn:E.
  - rewrite decide_True by reflexivity. rewrite filter_cons.
    rewrite decide_True by exact E. now rewrite IH.
  - rewrite decide_False by discriminate. exact IH.
Qed.

(** X4: offers that fail the filter have no influence on the outcome:
    the selection over a list equals the selection over its eligible
    offers alone, the same offer or the same no-eligible-offer error. *)
Theorem selector_ignores_ineligible_offers (offers : list dict) (now : Z) :
  Forall (fun d => readable d = true) offers ->
  find_best_eth_dual_one_day
    (offer_list (filter (fun d => eligible now d = true) offers)) now
  = find_best_eth_dual_one_day (offer_list offers) now.
Proof.
  intros Hr.
  assert (Forall (fun d => readable d = true)
            (filter (fun d => eligible now d = true) offers)) as Hr'.
  { rewrite Forall_forall in Hr. apply Forall_forall. intros d Hd.
    apply list_elem_of_filter in Hd. apply Hr. tauto. }
  rewrite (find_best_readable _ now Hr'), (find_best_readable offers now Hr).
  now rewrite candidates_of_filter.
Qed.

Lemma selector_ignores_ineligible_offers_witness :
  find_best_eth_dual_one_day
    (offer_list (filter (fun d => eligible sample_now d = true)
                   [offer_late; offer_85; offer_late]))
    sample_now
  = find_best_eth_dual_one_day (offer_list [offer_late; offer_85; offer_late])
      sample_now.
Proof.
  apply (selector_ignores_ineligible_offers
           [offer_late; offer_85; offer_late] sample_now).
  repeat constructor.
Defined.

Lemma scan_raises (now : Z) (pre : list pyval) (p : pyval) (post : list pyval)
    (e : exn) :
  Forall (fun q => exists r, consider now q = Ok r) pre ->
  consider now p = Raise e ->
  forall acc, scan now (pre ++ p :: post) acc = Raise e.
Proof.
  intros Hpre Hp. induction Hpre as [| q pre [r Hq] _ IH]; intros acc.
  - cbn [app scan]. now rewrite Hp.
  - cbn [app scan]. rewrite Hq. cbn [bind]. apply IH.
Qed.

Lemma consider_raises (now : Z) (p : pyval) (e : exn) :
  consider now p = Raise e <->
  ((forall d, p <> VDict d) /\ e = AttributeError)
  \/ exists d, p = VDict d /\ fields_pass d = true
       /\ (delivery_time_of d = Raise e
           \/ exists t, delivery_time_of d = Ok t
                /\ within_days (t - now) = true /\ apy_of d = Raise e).
Proof.
  destruct p as [| | | | | | d];
    try (cbn; split;
         [ intros [= <-]; left; split; [intros d; discriminate | reflexivity]
         | intros [[_ ->] | (d & H & _)]; [reflexivity | discriminate] ]).
  rewrite consider_dict. split.
  - intros H. right. exists d. split; [reflexivity |].
    destruct (fields_pass d); [| discriminate]. split; [reflexivity |].
    destruct (delivery_time_of d) as [t | e'] eqn:T; cbn [bind] in H.
    + right. exists t. split; [reflexivity |].
      destruct (within_days (t - now)); [| discriminate]. split; [reflexivity |].
      destruct (apy_of d) as [f | e']; [discriminate |]. cbn [bind] in H.
      congruence.
    + left. congruence.
  - intros [[Hnot _] | (d' & [= <-] & Hf & H)]; [now destruct (Hnot d) |].
    rewrite Hf. destruct H as [-> | (t & Ht & Hw & Ha)]; [reflexivity |].
    rewrite Ht. cbn [bind]. rewrite Hw, Ha. reflexivity.
Qed.

(** X5: one unusable offer aborts the whole selection. When the first
    offer whose pass raises comes after offers that pass or are skipped,
    [find_best_eth_dual_one_day] raises that error, eligible offers
    elsewhere in the list notwithstanding. A pass raises exactly for an
    item that is no object ([AttributeError]) and for an offer passing the
    four field filters whose delivery time does not convert or, within
    the window, whose yield raises something other than [ValueError]. *)
Theorem selector_aborts_on_first_unusable_offer (now : Z) :
  (forall (pre : list pyval) (p : pyval) (post : list pyval) (e : exn),
     Forall (fun q => exists r, consider now q = Ok r) pre ->
     consider now p = Raise e ->
     find_best_eth_dual_one_day (VList (pre ++ p :: post)) now = Raise e)
  /\ (forall (p : pyval) (e : exn),
        consider now p = Raise e <->
        ((forall d, p <> VDict d) /\ e = AttributeError)
        \/ exists d, p = VDict d /\ fields_pass d = true
             /\ (delivery_time_of d = Raise e
                 \/ exists t, delivery_time_of d = Ok t
                      /\ within_days (t - now) = true /\ apy_of d = Raise e)).
Proof.
  split; [| apply consider_raises].
  intros pre p post e Hpre Hp. unfold find_best_eth_dual_one_day.
  cbn [py_iter bind]. now rewrite (scan_raises now pre p post e Hpre Hp).
Qed.

Lemma selector_aborts_on_first_unusable_offer_witness :
  find_best_eth_dual_one_day
    (VList [VDict offer_92; VDict offer_bad_delivery; VDict offer_85]) sample_now
  = Raise ValueError
  /\ find_best_eth_dual_one_day
       (VList [VDict offer_92; VDict offer_null_yield]) sample_now
     = Raise TypeError.
Proof.
  destruct (selector_aborts_on_first_unusable_offer sample_now) as [H _].
  split.
  - apply (H [VDict offer_92] (VDict offer_bad_delivery) [VDict offer_85]).
    + repeat constructor. eexists. apply consider_readable. reflexivity.
    + vm_compute. reflexivity.
  - apply (H [VDict offer_92] (VDict offer_null_yield) []).
    + repeat constructor. eexists. apply consider_readable. reflexivity.
    + vm_compute. reflexivity.
Defined.



Section RankingPosition.
Context {A : Type} (key : A -> result float).



End RankingPosition.





(** ** Hedge Sizer: further properties *)

Lemma py_float_raises (v : pyval) (e : exn) :
  py_float v = Raise e ->
  e = ValueError
  \/ (e = TypeError /\ (v = VNone \/ (exists l, v = VList l) \/ exists d, v = VDict d))
  \/ (e = OverflowError
      /\ exists z, v = VInt z /\ PyFloat.is_finite (PyFloat.of_Z z) = false).
Proof.
  destruct v as [| b | z | f | s | l | d]; cbn; try discriminate.
  - intros [= <-]. right. left. auto.
  - unfold float_of_int. destruct (PyFloat.is_finite (PyFloat.of_Z z)) eqn:F;
      [discriminate |].
    intros [= <-]. right. right. eauto.
  - destruct (Parse.parse_float s); [discriminate |]. intros [= <-]. now left.
  - intros [= <-]. right. left. eauto.
  - intros [= <-]. right. left. eauto.
Qed.

(** X7: only a [ValueError] of the multiplier conversion falls back to
    1.0. When the multiplier field is present and its conversion raises
    another error, a [TypeError] for null, a list or an object, an
    [OverflowError] for an integer beyond the float range,
    [calc_contract_size_from_usdt] raises that error for every notional. *)
Theorem contract_size_propagates_other_errors
    (notional : float) (info : dict) (price : float) (v : pyval) (e : exn) :
  info !! "quanto_multiplier" = Some v ->
  py_float v = Raise e ->
  e <> ValueError ->
  calc_contract_size_from_usdt notional info price = Raise e
  /\ ((e = TypeError
       /\ (v = VNone \/ (exists l, v = VList l) \/ exists d, v = VDict d))
      \/ (e = OverflowError
          /\ exists z, v = VInt z /\ PyFloat.is_finite (PyFloat.of_Z z) = false)).
Proof.
  intros Hv Hf Hne. split.
  - unfold calc_contract_size_from_usdt, contract_multiplier.
    rewrite Hv, Hf. destruct e; try reflexivity. congruence.
  - destruct (py_float_raises v e Hf) as [-> | H]; [congruence | exact H].
Qed.

Lemma contract_size_propagates_other_errors_witness :
  calc_contract_size_from_usdt (PyFloat.of_Z 1000) (meta_with VNone) PyFloat.one
  = Raise TypeError.
Proof.
  apply (contract_size_propagates_other_errors
           (PyFloat.of_Z 1000) (meta_with VNone) PyFloat.one VNone TypeError).
  - reflexivity.
  - reflexivity.
  - discriminate.
Defined.

(** ** Settlement Monitor: further properties *)

Lemma find_order_first (order_text : string) (pre : list pyval) (d : dict)
    (post : list pyval) :
  Forall (fun o => exists d', o = VDict d' /\ dict_get d' "text" <> VStr order_text)
         pre ->
  dict_get d "text" = VStr order_text ->
  find_order order_text (pre ++ VDict d :: post) = Ok (Some d).
Proof.
  intros Hpre Hd. induction Hpre as [| o pre (d' & -> & Hne) _ IH]; cbn [app find_order].
  - cbn [as_dict bind]. apply py_eq_str_true in Hd. now rewrite Hd.
  - cbn [as_dict bind].
    destruct (py_eq_str (dict_get d' "text") order_text) eqn:E;
      [apply py_eq_str_true in E; contradiction | exact IH].
Qed.

Lemma find_order_none (order_text : string) (os : list pyval) :
  Forall (fun o => exists d', o = VDict d' /\ dict_get d' "text" <> VStr order_text)
         os ->
  find_order order_text os = Ok None.
Proof.
  induction 1 as [| o os (d' & -> & Hne) _ IH]; cbn [find_order]; [reflexivity |].
  cbn [as_dict bind].
  destruct (py_eq_str (dict_get d' "text") order_text) eqn:E;
    [apply py_eq_str_true in E; contradiction | exact IH].
Qed.

(** X8: a poll looks at the first order carrying the tag and at nothing
    after it. After orders with another text, the first tagged order
    alone decides between pending and settled, whatever follows it, be it
    a settled duplicate of the tag or an item that is no object; a list
    of orders with other texts is not-found; and an item that is no
    object before any tagged order makes the poll raise
    [AttributeError]. *)
Theorem monitor_inspects_first_tagged_order (order_text : string)
    (pre : list pyval) :
  Forall (fun o => exists d', o = VDict d' /\ dict_get d' "text" <> VStr order_text)
         pre ->
  (forall (d : dict) (post : list pyval),
     dict_get d "text" = VStr order_text ->
     observe order_text (Ok (VList (pre ++ VDict d :: post)))
     = Ok (if py_eq_str (dict_get d "status") "SETTLEMENT_SUCCESS"
           then Settled d else Pending))
  /\ observe order_text (Ok (VList pre)) = Ok NotFound
  /\ (forall (o : pyval) (post : list pyval),
        (forall d, o <> VDict d) ->
        observe order_text (Ok (VList (pre ++ o :: post))) = Raise AttributeError).
Proof.
  intros Hpre. split; [| split].
  - intros d post Hd. unfold observe. cbn [bind py_iter].
    now rewrite (find_order_first order_text pre d post Hpre Hd).
  - unfold observe. cbn [bind py_iter].
    now rewrite (find_order_none order_text pre Hpre).
  - intros o post Hnot. unfold observe. cbn [bind py_iter].
    assert (find_order order_text (pre ++ o :: post) = Raise AttributeError) as ->;
      [| reflexivity].
    induction Hpre as [| o' pre (d' & -> & Hne) _ IH]; cbn [app find_order].
    + destruct o; try reflexivity. now destruct (Hnot d).
    + cbn [as_dict bind].
      destruct (py_eq_str (dict_get d' "text") order_text) eqn:E;
        [apply py_eq_str_true in E; contradiction | exact IH].
Qed.

Lemma monitor_inspects_first_tagged_order_witness :
  observe sample_tag (Ok (VList ([other_order] ++ pending_order :: [settled_order])))
  = Ok Pending.
Proof.
  destruct (monitor_inspects_first_tagged_order sample_tag [other_order])
    as (H & _ & _).
  - repeat constructor. eexists. split; [reflexivity |]. vm_compute. discriminate.
  - exact (H (<["text" := VStr sample_tag]> (<["status" := VStr "INIT"]> ∅))
             [settled_order] eq_refl).
Defined.

(** A response on which the poll raises ends the loop with that error. *)
Lemma poll_loop_raises (order_text k s : string) (poll_interval : pyval)
    (r : result pyval) (e : exn) (post : list (result pyval)) :
  valid_sleep poll_interval = true ->
  observe order_text r = Raise e ->
  forall (pre : list (result pyval)) (fuel : nat) (w : world),
    (length pre < fuel)%nat ->
    clock_ok (clock w) ->
    responses w = pre ++ r :: post ->
    Forall (non_terminal order_text) pre ->
    exists w',
      poll_loop fuel order_text (VStr k) (VStr s) poll_interval w = (Raise e, w')
      /\ responses w' = post
      /\ trace w' = trace w ++ polls_trace (clock w) (clock_reads w)
                                 poll_interval (length pre).
Proof.
  intros Hsleep Hobs.
  induction pre as [| x pre IH]; intros fuel w Hfuel Hclk Hresp Hpre.
  - destruct fuel as [| fuel]; [cbn in Hfuel; lia |].
    rewrite poll_loop_step. destruct (Hclk (clock_reads w)) as [t Ht].
    cbn [app] in Hresp. rewrite (http_get_auth_run _ _ _ _ _ t r post Ht Hresp).
    assert (trace w ++ [Http {| req_method := GET; req_url := "/earn/dual/orders";
                                req_query := ""; req_body := None;
                                req_timestamp := Some (str_of_int t) |}]
            = trace w ++ polls_trace (clock w) (clock_reads w) poll_interval 0)
      as Htr by (cbn; unfold poll_event; now rewrite (timestamp_at_ok _ _ _ Ht)).
    destruct r as [orders | e0].
    + rewrite Hobs. eexists. split; [reflexivity |]. split; [reflexivity | exact Htr].
    + cbn in Hobs. injection Hobs as ->.
      eexists. split; [reflexivity |]. split; [reflexivity | exact Htr].
  - destruct fuel as [| fuel]; [cbn in Hfuel; lia |].
    cbn [length] in Hfuel.
    rewrite poll_loop_step. destruct (Hclk (clock_reads w)) as [t Ht].
    cbn [app] in Hresp.
    rewrite (http_get_auth_run _ _ _ _ _ t x (pre ++ r :: post) Ht Hresp).
    inversion Hpre as [| ? ? Hx Hpre']; subst.
    assert (exists orders st, x = Ok orders /\ observe order_text (Ok orders) = Ok st
                              /\ (st = NotFound \/ st = Pending))
      as (orders & st & -> & Hst & Hcase).
    { destruct x as [orders | e0].
      - destruct Hx as [Hx | Hx]; exists orders; eexists; eauto.
      - destruct Hx as [Hx | Hx]; discriminate. }
    rewrite Hst.
    match goal with
    | |- context [time_sleep poll_interval ?w1] =>
        destruct (time_sleep_run poll_interval w1) as [[_ Hrun] | [Hbad _]];
          [| congruence];
          destruct (IH fuel (with_trace w1 (trace w1 ++ [Sleep poll_interval])))
            as (w' & Hloop & Hpost & Htr);
          [lia | exact Hclk | reflexivity | exact Hpre' |]
    end.
    exists w'. split.
    + destruct Hcase as [-> | ->]; rewrite Hrun; exact Hloop.
    + split; [exact Hpost |]. rewrite Htr. cbn. unfold poll_event.
      rewrite (timestamp_at_ok _ _ _ Ht), <- !app_assoc. reflexivity.
Qed.

(** X9: the monitor does not retry a failed poll. After non-terminal
    responses, a poll that fails in transport, or whose answer makes the
    search raise, ends [wait_for_dual_settlement] with that error; every
    response before it was polled and slept on, the failing poll was
    sent, and the responses after it are left unread. *)
Theorem monitor_stops_on_failed_poll (order_text k s : string)
    (poll_interval : pyval) (w : world) (pre : list (result pyval))
    (r : result pyval) (post : list (result pyval)) (e : exn) :
  valid_sleep poll_interval = true ->
  clock_ok (clock w) ->
  responses w = pre ++ r :: post ->
  Forall (non_terminal order_text) pre ->
  observe order_text r = Raise e ->
  exists w',
    wait_for_dual_settlement order_text (VStr k) (VStr s) poll_interval w
      = (Raise e, w')
    /\ responses w' = post
    /\ trace w' = trace w ++ polls_trace (clock w) (clock_reads w)
                               poll_interval (length pre).
Proof.
  intros Hsleep Hclk Hresp Hpre Hobs. unfold wait_for_dual_settlement.
  apply (poll_loop_raises order_text k s poll_interval r e post Hsleep Hobs pre);
    try assumption.
  rewrite Hresp, length_app. cbn. lia.
Qed.

Lemma monitor_stops_on_failed_poll_witness :
  exists w',
    wait_for_dual_settlement sample_tag (VStr "key") (VStr "secret") (VInt 60)
      (scripted [Ok (VList [pending_order]); Raise RequestException;
                 Ok (VList [settled_order])]
         [] (sample_clock 50) sample_credentials)
    = (Raise RequestException, w')
    /\ responses w' = [Ok (VList [settled_order])].
Proof.
  destruct (monitor_stops_on_failed_poll sample_tag "key" "secret" (VInt 60)
              (scripted [Ok (VList [pending_order]); Raise RequestException;
                         Ok (VList [settled_order])]
                 [] (sample_clock 50) sample_credentials)
              [Ok (VList [pending_order])] (Raise RequestException)
              [Ok (VList [settled_order])] RequestException)
    as (w' & Hrun & Hpost & _).
  - reflexivity.
  - intros n. eexists. vm_compute. reflexivity.
  - reflexivity.
  - constructor; [right; vm_compute; reflexivity | constructor].
  - reflexivity.
  - exists w'. auto.
Defined.

(** ** Signed HTTP client: further properties *)

(** X10: a signed request needs a string secret, and the key is not
    looked at. With a clock reading that converts to whole seconds [t], a
    secret that is no string makes [http_post] and the signed [http_get]
    raise [AttributeError], the clock read once, nothing sent and no
    response consumed; with a string secret the request is handed over
    stamped [t], whatever the key is, and the next scripted outcome is
    returned. *)
Theorem signed_request_needs_string_secret
    (url query : string) (body : dict) (key secret : pyval) (w : world) (t : Z) :
  py_int (VFloat (clock w (clock_reads w))) = Ok t ->
  let w1 := with_clock_reads w (S (clock_reads w)) in
  (is_str secret = false ->
   http_post url body query key secret w = (Raise AttributeError, w1)
   /\ http_get url query key secret true w = (Raise AttributeError, w1)
   /\ trace w1 = trace w
   /\ responses w1 = responses w)
  /\ (forall r rest,
        is_str secret = true ->
        responses w = r :: rest ->
        http_post url body query key secret w
        = (r, with_responses
                (with_trace w1
                   (trace w ++ [Http {| req_method := POST; req_url := url;
                                        req_query := query;
                                        req_body := Some body;
                                        req_timestamp := Some (str_of_int t) |}]))
                rest)
        /\ http_get url query key secret true w
           = (r, with_responses
                   (with_trace w1
                      (trace w ++ [Http {| req_method := GET; req_url := url;
                                           req_query := query;
                                           req_body := None;
                                           req_timestamp := Some (str_of_int t) |}]))
                   rest)).
Proof.
  intros Ht. cbv zeta. split.
  - intros Hs. unfold http_post, http_get, bindp. rewrite !gen_sign_run, Ht.
    cbn [bind]. destruct secret; try discriminate; repeat split; reflexivity.
  - intros r rest Hs Hr. unfold http_post, http_get, bindp.
    rewrite !gen_sign_run, Ht. cbn [bind].
    destruct secret; try discriminate.
    unfold send, bindp, emit, next_response. cbn. rewrite Hr.
    split; reflexivity.
Qed.

Lemma signed_request_needs_string_secret_witness :
  http_post "/earn/dual/orders" ∅ "" (VStr "key") VNone polling_world
  = (Raise AttributeError, with_clock_reads polling_world 1)
  /\ exists w',
       http_get "/earn/dual/orders" "" VNone (VStr "secret") true polling_world
       = (Ok (VList [other_order]), w').
Proof.
  destruct (signed_request_needs_string_secret
              "/earn/dual/orders" "" ∅ (VStr "key") VNone polling_world 1700000000)
    as [Hbad _]; [vm_compute; reflexivity |].
  destruct (signed_request_needs_string_secret
              "/earn/dual/orders" "" ∅ VNone (VStr "secret") polling_world
              1700000000)
    as [_ Hgood]; [vm_compute; reflexivity |].
  split.
  - apply Hbad. reflexivity.
  - eexists.
    apply (Hgood (Ok (VList [other_order])) (tl (responses polling_world)));
      reflexivity.
Defined.

Lemma http_get_plain_run (url query : string) (key secret : pyval) (w : world)
    (r : result pyval) (rest : list (result pyval)) :
  responses w = r :: rest ->
  http_get url query key secret false w = (r, after_get w url query rest).
Proof.
  intros Hr. unfold http_get, send, bindp, emit, next_response. cbn.
  rewrite Hr. reflexivity.
Qed.

Section Lookups.
Variable py_str : pyval -> string.
Variable py_eq : pyval -> pyval -> bool.

Lemma find_contract_first (contract : pyval) (pre : list pyval) (d : dict)
    (post : list pyval) :
  Forall (other_contract py_eq contract) pre ->
  py_eq (dict_get d "name") contract = true ->
  find_contract py_eq contract (pre ++ VDict d :: post) = Ok d.
Proof.
  intros Hpre Hd. induction Hpre as [| c pre (d' & -> & Hne) _ IH];
    cbn [app find_contract as_dict bind].
  - now rewrite Hd.
  - now rewrite Hne.
Qed.

Lemma find_contract_none (contract : pyval) (cs : list pyval) :
  Forall (other_contract py_eq contract) cs ->
  find_contract py_eq contract cs = Raise (RuntimeError ContractNotFound).
Proof.
  induction 1 as [| c cs (d' & -> & Hne) _ IH]; cbn [find_contract as_dict bind];
    [reflexivity | now rewrite Hne].
Qed.

(** X11: [get_futures_contract] sends one unsigned GET of the contracts
    of the settle currency, without reading the clock, and takes the
    first entry whose name equals the contract, ignoring what follows it;
    when no entry of the list has that name, an empty list included, it
    raises the contract-not-found error. *)
Theorem contract_lookup_takes_first_match
    (settle contract : pyval) (w : world) (cs : list pyval)
    (rest : list (result pyval)) :
  responses w = Ok (VList cs) :: rest ->
  let w' := after_get w ("/futures/" ++ py_str settle ++ "/contracts") "" rest in
  (forall pre d post,
     cs = pre ++ VDict d :: post ->
     Forall (other_contract py_eq contract) pre ->
     py_eq (dict_get d "name") contract = true ->
     get_futures_contract py_str py_eq settle contract w = (Ok d, w'))
  /\ (Forall (other_contract py_eq contract) cs ->
      get_futures_contract py_str py_eq settle contract w
      = (Raise (RuntimeError ContractNotFound), w'))
  /\ clock_reads w' = clock_reads w.
Proof.
  intros Hr. cbv zeta. split; [| split; [| reflexivity]].
  - intros pre d post -> Hpre Hd. unfold get_futures_contract, bindp.
    rewrite (http_get_plain_run _ _ _ _ _ _ _ Hr). cbn [lift py_iter].
    now rewrite (find_contract_first contract pre d post Hpre Hd).
  - intros Hall. unfold get_futures_contract, bindp.
    rewrite (http_get_plain_run _ _ _ _ _ _ _ Hr). cbn [lift py_iter].
    now rewrite (find_contract_none contract cs Hall).
Qed.

(** X12: [get_futures_ticker] sends one unsigned GET of the tickers with
    the contract in the query; from a list it returns the first element,
    from an empty list it raises [IndexError], and any other answer is
    returned as it is. *)
Theorem ticker_takes_first_of_list
    (settle contract : pyval) (w : world) (data : pyval)
    (rest : list (result pyval)) :
  responses w = Ok data :: rest ->
  let w' := after_get w ("/futures/" ++ py_str settle ++ "/tickers")
                        ("contract=" ++ py_str contract) rest in
  (forall x l, data = VList (x :: l) ->
               get_futures_ticker py_str settle contract w = (Ok x, w'))
  /\ (data = VList [] ->
      get_futures_ticker py_str settle contract w = (Raise IndexError, w'))
  /\ ((forall l, data <> VList l) ->
      get_futures_ticker py_str settle contract w = (Ok data, w')).
Proof.
  intros Hr. cbv zeta. unfold get_futures_ticker, bindp.
  rewrite (http_get_plain_run _ _ _ _ _ _ _ Hr). repeat split.
  - intros x l ->. reflexivity.
  - intros ->. reflexivity.
  - intros Hnot. destruct data as [| | | | | l |]; try reflexivity.
    now destruct (Hnot l).
Qed.


End Lookups.


Lemma contract_lookup_takes_first_match_witness :
  get_futures_contract str_sample eq_sample (VStr "usdt") (VStr "ETH_USDT")
    (scripted [Ok (VList [VDict (<["name" := VStr "BTC_USDT"]> ∅);
                          VDict meta_plain; VDict (meta_with (VStr "2"))])]
       [] (sample_clock 0) sample_credentials)
  = (Ok meta_plain,
     after_get (scripted [Ok (VList [VDict (<["name" := VStr "BTC_USDT"]> ∅);
                                     VDict meta_plain;
                                     VDict (meta_with (VStr "2"))])]
                  [] (sample_clock 0) sample_credentials)
       "/futures/usdt/contracts" "" []).
Proof.
  destruct (contract_lookup_takes_first_match str_sample eq_sample
              (VStr "usdt") (VStr "ETH_USDT")
              (scripted [Ok (VList [VDict (<["name" := VStr "BTC_USDT"]> ∅);
                                    VDict meta_plain;
                                    VDict (meta_with (VStr "2"))])]
                 [] (sample_clock 0) sample_credentials)
              [VDict (<["name" := VStr "BTC_USDT"]> ∅); VDict meta_plain;
               VDict (meta_with (VStr "2"))] [] eq_refl) as (H & _ & _).
  apply (H [VDict (<["name" := VStr "BTC_USDT"]> ∅)] meta_plain
           [VDict (meta_with (VStr "2"))]).
  - reflexivity.
  - repeat constructor. eexists. split; reflexivity.
  - reflexivity.
Defined.

Lemma ticker_takes_first_of_list_witness :
  get_futures_ticker str_sample (VStr "usdt") (VStr "ETH_USDT")
    (scripted [Ok (VList [])] [] (sample_clock 0) sample_credentials)
  = (Raise IndexError,
     after_get (scripted [Ok (VList [])] [] (sample_clock 0) sample_credentials)
       "/futures/usdt/tickers" "contract=ETH_USDT" []).
Proof.
  destruct (ticker_takes_first_of_list str_sample (VStr "usdt") (VStr "ETH_USDT")
              (scripted [Ok (VList [])] [] (sample_clock 0) sample_credentials)
              (VList []) [] eq_refl) as (_ & H & _).
  apply H. reflexivity.
Defined.


(** ** Order Orchestrator and main flow: further properties *)

Lemma bindp_inv {A B : Type} (p : prog A) (k : A -> prog B) (w : world)
    (r : result B) (w' : world) :
  bindp p k w = (r, w') ->
  (exists a w1, p w = (Ok a, w1) /\ k a w1 = (r, w'))
  \/ (exists e, p w = (Raise e, w') /\ r = Raise e).
Proof.
  unfold bindp. destruct (p w) as [[a | e] w1].
  - intros H. left. eauto.
  - intros [= <- <-]. right. eauto.
Qed.

Lemma keeps_stdin_ret {A : Type} (a : A) : keeps_stdin (ret a).
Proof. intros w r w' [= _ <-]. reflexivity. Qed.

Lemma keeps_stdin_lift {A : Type} (r : result A) : keeps_stdin (lift r).
Proof. intros w r' w' [= _ <-]. reflexivity. Qed.

Lemma keeps_stdin_load_config : keeps_stdin load_config.
Proof. intros w r w' [= _ <-]. reflexivity. Qed.

Lemma keeps_stdin_int_time : keeps_stdin int_time.
Proof. intros w r w'. rewrite int_time_run. intros [= _ <-]. reflexivity. Qed.

Lemma keeps_stdin_bind {A B : Type} (p : prog A) (k : A -> prog B) :
  keeps_stdin p -> (forall a, keeps_stdin (k a)) -> keeps_stdin (bindp p k).
Proof.
  intros Hp Hk w r w' H. apply bindp_inv in H.
  destruct H as [(a & w1 & E1 & E2) | (e & E & _)].
  - rewrite (Hk a _ _ _ E2). exact (Hp _ _ _ E1).
  - exact (Hp _ _ _ E).
Qed.

Lemma keeps_stdin_send (rq : request) : keeps_stdin (send rq).
Proof.
  intros w r w'. unfold send, bindp, emit, next_response. cbn.
  destruct (responses w); intros [= _ <-]; reflexivity.
Qed.

Lemma keeps_stdin_gen_sign (secret : pyval) : keeps_stdin (gen_sign secret).
Proof. intros w r w'. rewrite gen_sign_run. intros [= _ <-]. reflexivity. Qed.

Lemma keeps_stdin_http_get (url query : string) (key secret : pyval) (auth : bool) :
  keeps_stdin (http_get url query key secret auth).
Proof.
  unfold http_get. destruct auth.
  - apply keeps_stdin_bind; [apply keeps_stdin_gen_sign | intros ts].
    apply keeps_stdin_send.
  - apply keeps_stdin_send.
Qed.

Lemma keeps_stdin_http_post (url : string) (body : dict) (query : string)
    (key secret : pyval) : keeps_stdin (http_post url body query key secret).
Proof.
  unfold http_post.
  apply keeps_stdin_bind; [apply keeps_stdin_gen_sign | intros ts].
  apply keeps_stdin_send.
Qed.

Lemma input_inv (w : world) (line : string) (w1 : world) :
  input w = (Ok line, w1) ->
  exists rest, stdin w = line :: rest /\ w1 = with_stdin w rest.
Proof.
  unfold input. destruct (stdin w) as [| l rest] eqn:E; [discriminate |].
  intros [= <- <-]. eauto.
Qed.

Lemma dict_item_ok (d : dict) (k : string) (v : pyval) :
  dict_item d k = Ok v -> d !! k = Some v.
Proof. unfold dict_item. destruct (d !! k); [now intros [= ->] | discriminate]. Qed.

Lemma http_get_plain_ok (url query : string) (key secret : pyval) (w : world)
    (v : pyval) (w1 : world) :
  http_get url query key secret false w = (Ok v, w1) ->
  exists rest, responses w = Ok v :: rest /\ w1 = after_get w url query rest.
Proof.
  unfold http_get, send, bindp, emit, next_response. cbn.
  destruct (responses w) as [| r rest] eqn:E; [discriminate |].
  intros [= -> <-]. exists rest. split; reflexivity.
Qed.

Lemma input_raise (w : world) (e : exn) (w' : world) :
  input w = (Raise e, w') -> w' = w.
Proof.
  unfold input. destruct (stdin w); [now intros [= _ <-] | discriminate].
Qed.

(** One step of a run whose events so far are fetches: a step that only
    fetches and keeps the console input either ends the run, with fetches
    alone, or hands on to the rest. *)
Lemma step_fetch {A B : Type} (p : prog A) (k : A -> prog B) (w0 wi : world)
    (G : list event) (r : result B) (w' : world) (added : list event) (P : Prop) :
  fetches p -> keeps_stdin p ->
  trace wi = trace w0 ++ G -> Forall (fun ev => is_get ev = true) G ->
  bindp p k wi = (r, w') -> trace w' = trace w0 ++ added ->
  (forall a w1 G1,
     p wi = (Ok a, w1) -> stdin w1 = stdin wi ->
     trace w1 = trace w0 ++ G1 -> Forall (fun ev => is_get ev = true) G1 ->
     k a w1 = (r, w') -> Forall (fun ev => is_get ev = true) added \/ P) ->
  Forall (fun ev => is_get ev = true) added \/ P.
Proof.
  intros Hf Hs HT HG H Hadd Hk. apply bindp_inv in H.
  destruct H as [(a & w1 & E1 & E2) | (e & E & _)].
  - destruct (Hf _ _ _ E1) as (g & Tg & Fg).
    apply (Hk a w1 (G ++ g)); try assumption.
    + exact (Hs _ _ _ E1).
    + now rewrite Tg, HT, app_assoc.
    + now apply Forall_app.
  - left. destruct (Hf _ _ _ E) as (g & Tg & Fg).
    assert (added = G ++ g) as ->.
    { apply (app_inv_head (trace w0)). rewrite <- Hadd, Tg, HT.
      now rewrite app_assoc. }
    now apply Forall_app.
Qed.

Lemma step_input {B : Type} (k : string -> prog B) (w0 wi : world)
    (G : list event) (r : result B) (w' : world) (added : list event) (P : Prop) :
  trace wi = trace w0 ++ G -> Forall (fun ev => is_get ev = true) G ->
  bindp input k wi = (r, w') -> trace w' = trace w0 ++ added ->
  (forall line rest,
     stdin wi = line :: rest -> trace (with_stdin wi rest) = trace w0 ++ G ->
     k line (with_stdin wi rest) = (r, w') ->
     Forall (fun ev => is_get ev = true) added \/ P) ->
  Forall (fun ev => is_get ev = true) added \/ P.
Proof.
  intros HT HG H Hadd Hk. apply bindp_inv in H.
  destruct H as [(line & w1 & E1 & E2) | (e & E & _)].
  - destruct (input_inv _ _ _ E1) as (rest & Hs & ->).
    apply (Hk line rest); [exact Hs | exact HT | exact E2].
  - left. apply input_raise in E. subst w'.
    assert (added = G) as ->
      by (apply (app_inv_head (trace w0)); now rewrite <- Hadd, HT).
    exact HG.
Qed.

Lemma lift_ok {A : Type} (x : result A) (w : world) (a : A) (w1 : world) :
  lift x w = (Ok a, w1) -> x = Ok a /\ w1 = w.
Proof. unfold lift. intros [= -> <-]. split; reflexivity. Qed.

Lemma load_config_ok (w : world) (cfg : dict) (w1 : world) :
  load_config w = (Ok cfg, w1) -> w1 = w.
Proof. unfold load_config. now intros [= _ <-]. Qed.

Section MainFacts.
Variable py_str : pyval -> string.
Variable py_eq : pyval -> pyval -> bool.

Lemma keeps_stdin_find_best_call : keeps_stdin find_best_eth_dual_one_day_call.
Proof.
  unfold find_best_eth_dual_one_day_call.
  apply keeps_stdin_bind; [apply keeps_stdin_http_get | intros plans].
  apply keeps_stdin_bind; [apply keeps_stdin_int_time | intros now].
  apply keeps_stdin_lift.
Qed.

Lemma find_best_call_inv (w : world) (plan : dict) (w1 : world) :
  find_best_eth_dual_one_day_call w = (Ok plan, w1) ->
  exists plans later now,
    responses w = Ok plans :: later
    /\ py_int (VFloat (clock w (clock_reads w))) = Ok now
    /\ find_best_eth_dual_one_day plans now = Ok plan
    /\ responses w1 = later.
Proof.
  unfold find_best_eth_dual_one_day_call. intros H.
  apply bindp_inv in H. destruct H as [(plans & w2 & E & H) | (e & _ & [=])].
  apply http_get_plain_ok in E. destruct E as (later & Hr & ->).
  apply bindp_inv in H. destruct H as [(now & w3 & E & H) | (e & _ & [=])].
  rewrite int_time_run in E. injection E as Hnow <-.
  apply lift_ok in H. destruct H as [H ->].
  exists plans, later, now. repeat split; assumption.
Qed.

Lemma get_futures_contract_inv (settle contract : pyval) (w : world) (info : dict)
    (w1 : world) :
  get_futures_contract py_str py_eq settle contract w = (Ok info, w1) ->
  exists data later cs,
    responses w = Ok data :: later
    /\ py_iter data = Ok cs
    /\ find_contract py_eq contract cs = Ok info.
Proof.
  unfold get_futures_contract. intros H.
  apply bindp_inv in H. destruct H as [(data & w2 & E & H) | (e & _ & [=])].
  apply http_get_plain_ok in E. destruct E as (later & Hr & ->).
  apply bindp_inv in H. destruct H as [(cs & w3 & E & H) | (e & _ & [=])].
  apply lift_ok in E. destruct E as [Hcs ->].
  apply lift_ok in H. destruct H as [H _].
  exists data, later, cs. repeat split; assumption.
Qed.

Lemma keeps_stdin_get_futures_contract (settle contract : pyval) :
  keeps_stdin (get_futures_contract py_str py_eq settle contract).
Proof.
  unfold get_futures_contract.
  apply keeps_stdin_bind; [apply keeps_stdin_http_get | intros data].
  apply keeps_stdin_bind; [apply keeps_stdin_lift | intros cs].
  apply keeps_stdin_lift.
Qed.

Lemma keeps_stdin_get_futures_ticker (settle contract : pyval) :
  keeps_stdin (get_futures_ticker py_str settle contract).
Proof.
  unfold get_futures_ticker.
  apply keeps_stdin_bind; [apply keeps_stdin_http_get | intros data].
  destruct data as [| | | | | [| x l] |];
    apply keeps_stdin_ret || apply keeps_stdin_lift.
Qed.

Lemma keeps_stdin_correlation_tag : keeps_stdin correlation_tag.
Proof.
  unfold correlation_tag.
  apply keeps_stdin_bind; [apply keeps_stdin_int_time | intros t].
  apply keeps_stdin_ret.
Qed.

Lemma place_dual_order_sends (plan : dict) (amount : float) (key secret : pyval)
    (text : string) (w : world) (r : result pyval) (w' : world) :
  place_dual_order py_str plan amount key secret text w = (r, w') ->
  (trace w' = trace w /\ exists e, r = Raise e)
  \/ exists id inv body,
       plan !! "id" = Some id
       /\ trace w' = trace w ++ [Http inv]
       /\ is_investment_post (Http inv) = true
       /\ req_body inv = Some body
       /\ body !! "plan_id" = Some (VStr (py_str id))
       /\ body !! "amount" = Some (VStr (py_str (VFloat amount)))
       /\ body !! "text" = Some (VStr text).
Proof.
  unfold place_dual_order, bindp, lift, dict_item.
  destruct (plan !! "id") as [id |].
  - intros H. apply http_post_run in H. destruct H as [H | [ts H]]; [now left |].
    right. exists id. eexists. eexists. split; [reflexivity |].
    split; [exact H |]. cbn. repeat split; reflexivity.
  - intros [= <- <-]. left. eauto.
Qed.

(** A run of [main] adds fetches alone to the trace, or has done all that
    [submitted] lists. *)
Lemma main_inv (w : world) (r : result unit) (w' : world) (added : list event) :
  main py_str py_eq w = (r, w') ->
  trace w' = trace w ++ added ->
  Forall (fun ev => is_get ev = true) added \/ submitted py_str py_eq w added.
Proof.
  intros H Hadd. unfold main in H.
  assert (trace w = trace w ++ []) as HT by now rewrite app_nil_r.
  assert (Forall (fun ev : event => is_get ev = true) []) as HG by constructor.
  (* cfg, api_key, api_secret *)
  eapply step_fetch;
    [apply fetches_load_config | apply keeps_stdin_load_config
    | exact HT | exact HG | exact H | exact Hadd |].
  clear H HT HG. intros cfg w1 G1 Ecfg _ HT HG H.
  pose proof (load_config_ok _ _ _ Ecfg) as Hw1. subst w1.
  eapply step_fetch;
    [apply fetches_lift | apply keeps_stdin_lift
    | exact HT | exact HG | exact H | exact Hadd |].
  clear H HT HG. intros api_key w1 G2 E2 _ HT HG H.
  apply lift_ok in E2. destruct E2 as [_ ->].
  eapply step_fetch;
    [apply fetches_lift | apply keeps_stdin_lift
    | exact HT | exact HG | exact H | exact Hadd |].
  clear H HT HG. intros api_secret w1 G3 E3 _ HT HG H.
  apply lift_ok in E3. destruct E3 as [_ ->].
  (* the amount *)
  eapply step_input; [exact HT | exact HG | exact H | exact Hadd |].
  clear H HT. intros line rest1 Hline HT H.
  eapply step_fetch;
    [apply fetches_lift | apply keeps_stdin_lift
    | exact HT | exact HG | exact H | exact Hadd |].
  clear H HT HG. intros amount w1 G5 Eamount _ HT HG H.
  apply lift_ok in Eamount. destruct Eamount as [Eamount ->].
  (* the plan *)
  eapply step_fetch;
    [apply fetches_find_best_call | apply keeps_stdin_find_best_call
    | exact HT | exact HG | exact H | exact Hadd |].
  clear H HT HG. intros plan w6 G6 Eplan Hs6 HT HG H.
  apply find_best_call_inv in Eplan.
  destruct Eplan as (plans & later & now & Hresp & Hnow & Eplan & Hresp6).
  change (responses w = Ok plans :: later) in Hresp.
  change (py_int (VFloat (clock w (clock_reads w))) = Ok now) in Hnow.
  change (stdin w6 = rest1) in Hs6.
  (* exercise price, apy, delivery time *)
  eapply step_fetch;
    [apply fetches_lift | apply keeps_stdin_lift
    | exact HT | exact HG | exact H | exact Hadd |].
  clear H HT HG. intros epv w1 G7 E7 _ HT HG H.
  apply lift_ok in E7. destruct E7 as [_ ->].
  eapply step_fetch;
    [apply fetches_lift | apply keeps_stdin_lift
    | exact HT | exact HG | exact H | exact Hadd |].
  clear H HT HG. intros ep w1 G8 E8 _ HT HG H.
  apply lift_ok in E8. destruct E8 as [_ ->].
  eapply step_fetch;
    [apply fetches_lift | apply keeps_stdin_lift
    | exact HT | exact HG | exact H | exact Hadd |].
  clear H HT HG. intros apy w1 G9 E9 _ HT HG H.
  apply lift_ok in E9. destruct E9 as [_ ->].
  eapply step_fetch;
    [apply fetches_lift | apply keeps_stdin_lift
    | exact HT | exact HG | exact H | exact Hadd |].
  clear H HT HG. intros dt w1 G10 E10 _ HT HG H.
  apply lift_ok in E10. destruct E10 as [_ ->].
  eapply step_fetch;
    [apply fetches_lift | apply keeps_stdin_lift
    | exact HT | exact HG | exact H | exact Hadd |].
  clear H HT HG. intros delivery_ts w1 G11 E11 _ HT HG H.
  apply lift_ok in E11. destruct E11 as [_ ->].
  eapply step_fetch;
    [apply fetches_lift | apply keeps_stdin_lift
    | exact HT | exact HG | exact H | exact Hadd |].
  clear H HT HG. intros u w1 G12 E12 _ HT HG H.
  apply lift_ok in E12. destruct E12 as [_ ->].
  (* the hedge notional *)
  eapply step_fetch;
    [apply fetches_lift | apply keeps_stdin_lift
    | exact HT | exact HG | exact H | exact Hadd |].
  clear H HT HG. intros hm w1 G13 E13 _ HT HG H.
  apply lift_ok in E13. destruct E13 as [Ehm ->]. apply dict_item_ok in Ehm.
  eapply step_fetch;
    [apply fetches_lift | apply keeps_stdin_lift
    | exact HT | exact HG | exact H | exact Hadd |].
  clear H HT HG. intros notional w1 G14 Enotional _ HT HG H.
  apply lift_ok in Enotional. destruct Enotional as [Enotional ->].
  (* settle, contract, contract info, ticker, mark price *)
  eapply step_fetch;
    [apply fetches_lift | apply keeps_stdin_lift
    | exact HT | exact HG | exact H | exact Hadd |].
  clear H HT HG. intros settle w1 G15 E15 _ HT HG H.
  apply lift_ok in E15. destruct E15 as [Esettle ->].
  apply dict_item_ok in Esettle.
  eapply step_fetch;
    [apply fetches_lift | apply keeps_stdin_lift
    | exact HT | exact HG | exact H | exact Hadd |].
  clear H HT HG. intros contract w1 G16 E16 _ HT HG H.
  apply lift_ok in E16. destruct E16 as [Econtract ->].
  apply dict_item_ok in Econtract.
  eapply step_fetch;
    [apply fetches_get_futures_contract | apply keeps_stdin_get_futures_contract
    | exact HT | exact HG | exact H | exact Hadd |].
  clear H HT HG. intros info w17 G17 Einfo Hs17 HT HG H.
  apply get_futures_contract_inv in Einfo.
  destruct Einfo as (contracts & later2 & cs & Hresp17 & Hcs & Einfo).
  assert (responses w = Ok plans :: Ok contracts :: later2) as Hresponses
    by (rewrite Hresp, <- Hresp6, Hresp17; reflexivity).
  eapply step_fetch;
    [apply fetches_get_futures_ticker | apply keeps_stdin_get_futures_ticker
    | exact HT | exact HG | exact H | exact Hadd |].
  clear H HT HG. intros ticker w18 G18 _ Hs18 HT HG H.
  eapply step_fetch;
    [apply fetches_lift | apply keeps_stdin_lift
    | exact HT | exact HG | exact H | exact Hadd |].
  clear H HT HG. intros last w1 G19 E19 _ HT HG H.
  apply lift_ok in E19. destruct E19 as [_ ->].
  eapply step_fetch;
    [apply fetches_lift | apply keeps_stdin_lift
    | exact HT | exact HG | exact H | exact Hadd |].
  clear H HT HG. intros price w1 G20 E20 _ HT HG H.
  apply lift_ok in E20. destruct E20 as [_ ->].
  eapply step_fetch;
    [apply fetches_lift | apply keeps_stdin_lift
    | exact HT | exact HG | exact H | exact Hadd |].
  clear H HT HG. intros size w1 G21 Esize _ HT HG H.
  apply lift_ok in Esize. destruct Esize as [Esize ->].
  (* the confirmation *)
  eapply step_input; [exact HT | exact HG | exact H | exact Hadd |].
  clear H HT. intros answer rest2 Hanswer HT H.
  cbv beta in H.
  destruct (String.eqb (py_lower (py_strip answer)) "yes") eqn:Eyes;
    try rewrite Eyes in H; cbn [negb] in H.
  2: { left. unfold ret in H. injection H as _ <-.
       assert (added = G21) as ->
         by (apply (app_inv_head (trace w)); now rewrite <- Hadd, HT).
       exact HG. }
  apply String.eqb_eq in Eyes.
  (* the tag and the two orders *)
  eapply step_fetch;
    [apply fetches_correlation_tag | apply keeps_stdin_correlation_tag
    | exact HT | exact HG | exact H | exact Hadd |].
  clear H HT HG. intros tag w23 G23 _ _ HT HG H.
  apply bindp_inv in H.
  assert (stdin w = line :: answer :: rest2) as Hlines
    by (rewrite Hline, <- Hs6, <- Hs17, <- Hs18, Hanswer; reflexivity).
  assert (forall ep', calc_hedge_size_usdt amount hm ep' = Ok notional) as Hnotional
    by (intros ep'; exact Enotional).
  assert (forall price', calc_contract_size_from_usdt notional info price' = Ok size)
    as Hsize by (intros price'; exact Esize).
  destruct H as [(dual & w24 & Eplace & H) | (e & Eplace & _)].
  - apply place_dual_order_sends in Eplace.
    destruct Eplace as [[_ [e [=]]] | (id & inv & body & Hid & T24 & Hinv & Hb & B1 & B2 & B3)].
    apply bindp_inv in H.
    destruct H as [(fut & w25 & Eopen & H) | (e & Eopen & _)].
    + unfold ret in H. injection H as _ <-. apply open_futures_short_run in Eopen.
      right. destruct Eopen as [[_ [e [=]]] | (hedge & T25 & _ & Hh)].
      exists cfg, line, answer, rest2, amount, plans, contracts, later2, now,
        plan, id, hm, notional, settle, contract, cs, info, size, tag, G23, inv,
        body, [hedge].
      repeat split; try assumption.
      * apply (app_inv_head (trace w)).
        rewrite <- Hadd, T25, T24, HT, <- !app_assoc. reflexivity.
      * right. eauto.
    + apply open_futures_short_run in Eopen. right.
      exists cfg, line, answer, rest2, amount, plans, contracts, later2, now,
        plan, id, hm, notional, settle, contract, cs, info, size, tag, G23, inv,
        body.
      destruct Eopen as [[T25 _] | (hedge & T25 & _ & Hh)].
      * exists []. repeat split; try assumption; [| now left].
        apply (app_inv_head (trace w)).
        rewrite <- Hadd, T25, T24, HT, <- !app_assoc. reflexivity.
      * exists [hedge]. repeat split; try assumption; [| right; eauto].
        apply (app_inv_head (trace w)).
        rewrite <- Hadd, T25, T24, HT, <- !app_assoc. reflexivity.
  - apply place_dual_order_sends in Eplace.
    destruct Eplace as [[T24 _] | (id & inv & body & Hid & T24 & Hinv & Hb & B1 & B2 & B3)].
    + left. assert (added = G23) as ->
        by (apply (app_inv_head (trace w)); now rewrite <- Hadd, T24, HT).
      exact HG.
    + right.
      exists cfg, line, answer, rest2, amount, plans, contracts, later2, now,
        plan, id, hm, notional, settle, contract, cs, info, size, tag, G23, inv,
        body, [].
      repeat split; try assumption; [| now left].
      apply (app_inv_head (trace w)).
      rewrite <- Hadd, T24, HT, <- !app_assoc. reflexivity.
Qed.

End MainFacts.

Lemma not_investment_of_get (ev : event) :
  is_get ev = true -> is_investment_post ev = false.
Proof. destruct ev as [[[] ? ? ? ?] |]; cbn; congruence. Qed.

Lemma not_investment_of_short (s : string) (size : Z) (ev : event) :
  is_short_order ("/futures/" ++ s ++ "/orders") size ev ->
  is_investment_post ev = false.
Proof.
  intros (rq & body & -> & Hm & Hu & _). cbn. rewrite Hm, Hu. reflexivity.
Qed.

Lemma hedge_of_short (s : string) (size : Z) (ev : event) :
  is_short_order ("/futures/" ++ s ++ "/orders") size ev -> is_hedge_post ev = true.
Proof.
  intros (rq & body & -> & Hm & Hu & _). cbn. rewrite Hm, Hu.
  apply prefix_append.
Qed.

Lemma bindp_ok {A B : Type} (p : prog A) (k : A -> prog B) (w : world) (a : A)
    (w1 : world) :
  p w = (Ok a, w1) -> bindp p k w = k a w1.
Proof. intros H. unfold bindp. now rewrite H. Qed.

Lemma bindp_raise {A B : Type} (p : prog A) (k : A -> prog B) (w : world)
    (e : exn) (w1 : world) :
  p w = (Raise e, w1) -> bindp p k w = (Raise e, w1).
Proof. intros H. unfold bindp. now rewrite H. Qed.

Lemma load_config_credentials (w : world) (cfg : dict) (w1 : world) :
  load_config w = (Ok cfg, w1) ->
  exists key secret, dict_item cfg "api_key" = Ok key
                     /\ dict_item cfg "api_secret" = Ok secret.
Proof.
  unfold load_config. intros [= H _].
  destruct (config_file w) as [v | e]; [| discriminate]. cbn [bind] in H.
  destruct v as [| | | | | | file]; try discriminate. cbn [as_dict bind] in H.
  unfold require_field in H.
  destruct (py_falsy (dict_get file "api_key")) eqn:K; [discriminate |].
  cbn [bind] in H.
  destruct (py_falsy (dict_get file "api_secret")) eqn:S; [discriminate |].
  cbn [bind] in H. injection H as <-.
  unfold dict_item. rewrite !lookup_setdefault. unfold dict_get in K, S.
  destruct (file !! "api_key") as [key |]; [| discriminate].
  destruct (file !! "api_secret") as [secret |]; [| discriminate].
  eauto.
Qed.

Section MainProperties.
Variable py_str : pyval -> string.
Variable py_eq : pyval -> pyval -> bool.

(** X14: no order without an explicit yes. In every run of [main] whose
    second console line, stripped and lower-cased, is not "yes", or whose
    console input has fewer than two lines, the events added to the trace
    are fetches only: neither the investment order nor the hedge order is
    sent. *)
Theorem orders_need_confirmation
    (w : world) (r : result unit) (w' : world) (added : list event) :
  main py_str py_eq w = (r, w') ->
  trace w' = trace w ++ added ->
  (forall line answer rest,
     stdin w = line :: answer :: rest ->
     py_lower (py_strip answer) <> "yes"%string) ->
  Forall (fun ev => is_get ev = true
                    /\ is_investment_post ev = false
                    /\ is_hedge_post ev = false) added.
Proof.
  intros H Hadd Hno.
  destruct (main_inv py_str py_eq w r w' added H Hadd) as [Hg | Hs].
  - eapply Forall_impl; [exact Hg |]. intros ev Hev.
    auto using not_investment_of_get, not_hedge_of_get.
  - destruct Hs as (cfg & line & answer & rest & amount & plans & contracts
                    & later & now & plan & id & hm & notional & settle & contract
                    & cs & info & size & tag & gets & inv & body & tail
                    & _ & Hlines & _ & Hyes & _).
    now destruct (Hno line answer rest Hlines).
Qed.

(** X15: sizing and submission use one amount. When a run of [main]
    over the world [w] has sent a hedge order, the first console line of
    [w] parsed to an amount, the investment order in the trace carries
    that amount, and the hedge order is the short order of the size that
    [calc_contract_size_from_usdt] gives for the notional that
    [calc_hedge_size_usdt] derives from that same amount and the
    multiplier of the configuration loaded from [w], and for the contract
    entry found under the configured name in the second response of
    [w]. *)
Theorem hedge_sized_from_submitted_amount
    (w : world) (r : result unit) (w' : world) (added : list event)
    (hedge : event) :
  main py_str py_eq w = (r, w') ->
  trace w' = trace w ++ added ->
  hedge ∈ added ->
  is_hedge_post hedge = true ->
  exists cfg line rest amount hm notional plans contracts later settle contract
         cs info size inv body,
    load_config w = (Ok cfg, w)
    /\ stdin w = line :: rest
    /\ py_float (VStr (py_strip line)) = Ok amount
    /\ cfg !! "hedge_multiplier" = Some hm
    /\ (forall ep, calc_hedge_size_usdt amount hm ep = Ok notional)
    /\ cfg !! "futures_settle" = Some settle
    /\ cfg !! "futures_contract" = Some contract
    /\ responses w = Ok plans :: Ok contracts :: later
    /\ py_iter contracts = Ok cs
    /\ find_contract py_eq contract cs = Ok info
    /\ (forall price, calc_contract_size_from_usdt notional info price = Ok size)
    /\ is_short_order ("/futures/" ++ py_str settle ++ "/orders") size hedge
    /\ Http inv ∈ added
    /\ is_investment_post (Http inv) = true
    /\ req_body inv = Some body
    /\ body !! "amount" = Some (VStr (py_str (VFloat amount))).
Proof.
  intros H Hadd Hin Hh.
  destruct (main_inv py_str py_eq w r w' added H Hadd) as [Hg | Hs].
  - rewrite Forall_forall in Hg. apply Hg, not_hedge_of_get in Hin. congruence.
  - destruct Hs as (cfg & line & answer & rest & amount & plans & contracts
                    & later & now & plan & id & hm & notional & settle & contract
                    & cs & info & size & tag & gets & inv & body & tail
                    & Hcfg & Hlines & Hamount & _ & Hresp & _ & _ & _ & Hhm
                    & Hnot & Hsettle & Hcontract & Hcs & Hinfo & Hsize & ->
                    & Hgets & Hinv & Hbody & _ & Hbamount & _ & Htail).
    exists cfg, line, (answer :: rest), amount, hm, notional, plans, contracts,
      later, settle, contract, cs, info, size, inv, body.
    split; [exact Hcfg |]. split; [exact Hlines |]. split; [exact Hamount |].
    split; [exact Hhm |]. split; [exact Hnot |]. split; [exact Hsettle |].
    split; [exact Hcontract |]. split; [exact Hresp |]. split; [exact Hcs |].
    split; [exact Hinfo |]. split; [exact Hsize |].
    split; [| split; [| split; [exact Hinv | split; [exact Hbody | exact Hbamount]]]].
    + apply elem_of_app in Hin. destruct Hin as [Hin | Hin].
      * rewrite Forall_forall in Hgets.
        apply Hgets, not_hedge_of_get in Hin. congruence.
      * apply elem_of_cons in Hin. destruct Hin as [-> | Hin].
        -- apply not_hedge_of_investment in Hinv. congruence.
        -- destruct Htail as [-> | (h & -> & Hshort)]; [inversion Hin |].
           apply list_elem_of_singleton in Hin. now subst.
    + apply elem_of_app. right. left.
Qed.

(** X16: the investment order is for the selected offer. Every
    investment order that a run of [main] over the world [w] has sent
    carries the id of the plan that the selector returned for the first
    response of [w] at the first clock reading of [w]; that plan is one
    of the offers of that response, eligible at that time, with its yield
    attached. *)
Theorem investment_order_is_for_selected_offer
    (w : world) (r : result unit) (w' : world) (added : list event)
    (ev : event) :
  main py_str py_eq w = (r, w') ->
  trace w' = trace w ++ added ->
  ev ∈ added ->
  is_investment_post ev = true ->
  exists plans later now ps d id inv body,
    responses w = Ok plans :: later
    /\ py_int (VFloat (clock w (clock_reads w))) = Ok now
    /\ find_best_eth_dual_one_day plans now = Ok (with_apy d)
    /\ py_iter plans = Ok ps /\ VDict d ∈ ps /\ eligible now d = true
    /\ with_apy d !! "id" = Some id
    /\ ev = Http inv
    /\ req_body inv = Some body
    /\ body !! "plan_id" = Some (VStr (py_str id)).
Proof.
  intros H Hadd Hin Hev.
  destruct (main_inv py_str py_eq w r w' added H Hadd) as [Hg | Hs].
  - rewrite Forall_forall in Hg. apply Hg, not_investment_of_get in Hin. congruence.
  - destruct Hs as (cfg & line & answer & rest & amount & plans & contracts
                    & later & now & plan & id & hm & notional & settle & contract
                    & cs & info & size & tag & gets & inv & body & tail
                    & _ & _ & _ & _ & Hresp & Hnow & Hplan & Hid & _
                    & _ & _ & _ & _ & _ & _ & ->
                    & Hgets & Hinv & Hbody & Hbid & _ & _ & Htail).
    destruct (find_best_from_plans _ _ _ Hplan)
      as (ps & d & t & Hps & Hd & He & _ & _ & ->).
    exists plans, (Ok contracts :: later), now, ps, d, id, inv, body.
    split; [exact Hresp |]. split; [exact Hnow |]. split; [exact Hplan |].
    split; [exact Hps |]. split; [exact Hd |]. split; [exact He |].
    split; [exact Hid |]. split; [| split; [exact Hbody | exact Hbid]].
    apply elem_of_app in Hin. destruct Hin as [Hin | Hin].
    + rewrite Forall_forall in Hgets.
      apply Hgets, not_investment_of_get in Hin. congruence.
    + apply elem_of_cons in Hin. destruct Hin as [-> | Hin]; [reflexivity |].
      destruct Htail as [-> | (h & -> & Hshort)]; [inversion Hin |].
      apply list_elem_of_singleton in Hin. subst.
      apply not_investment_of_short in Hshort. congruence.
Qed.

(** X17: an amount that is no number stops the run before anything is
    fetched. With a loadable configuration, [main] on an empty console
    input raises [EOFError], and on a first line that [float] rejects it
    raises that error; in both cases no request is sent, no response is
    consumed and the clock is not read. *)
Theorem main_rejects_bad_amount (w : world) (cfg : dict) :
  load_config w = (Ok cfg, w) ->
  (stdin w = [] -> main py_str py_eq w = (Raise EOFError, w))
  /\ (forall line rest e,
        stdin w = line :: rest ->
        py_float (VStr (py_strip line)) = Raise e ->
        main py_str py_eq w = (Raise e, with_stdin w rest)).
Proof.
  intros Hcfg.
  destruct (load_config_credentials _ _ _ Hcfg) as (key & secret & Hk & Hs).
  split.
  - intros Hin. unfold main.
    rewrite (bindp_ok _ _ _ _ _ Hcfg). unfold lift at 1.
    rewrite (bindp_ok _ _ w key w) by now rewrite Hk. unfold lift at 1.
    rewrite (bindp_ok _ _ w secret w) by now rewrite Hs.
    apply bindp_raise. unfold input. now rewrite Hin.
  - intros line rest e Hin Hbad. unfold main.
    rewrite (bindp_ok _ _ _ _ _ Hcfg). unfold lift at 1.
    rewrite (bindp_ok _ _ w key w) by now rewrite Hk. unfold lift at 1.
    rewrite (bindp_ok _ _ w secret w) by now rewrite Hs.
    rewrite (bindp_ok _ _ w line (with_stdin w rest))
      by (unfold input; now rewrite Hin).
    apply bindp_raise. unfold lift. now rewrite Hbad.
Qed.

(** X18: a failed selection stops the run after the single fetch of the
    plans. With a loadable configuration and a numeric amount, when the
    selector raises on the fetched plans, the no-eligible-offer error
    included, [main] raises that error having sent only the GET of the
    investment plans: no futures data is fetched and no order is sent. *)
Theorem main_stops_when_selection_fails
    (w : world) (cfg : dict) (line : string) (rest : list string)
    (amount : float) (plans : pyval) (later : list (result pyval)) (now : Z)
    (e : exn) :
  load_config w = (Ok cfg, w) ->
  stdin w = line :: rest ->
  py_float (VStr (py_strip line)) = Ok amount ->
  responses w = Ok plans :: later ->
  py_int (VFloat (clock w (clock_reads w))) = Ok now ->
  find_best_eth_dual_one_day plans now = Raise e ->
  exists w',
    main py_str py_eq w = (Raise e, w')
    /\ trace w' = trace w ++ [get_event "/earn/dual/investment_plan" ""]
    /\ responses w' = later
    /\ stdin w' = rest.
Proof.
  intros Hcfg Hin Hamount Hresp Hnow Hfind.
  destruct (load_config_credentials _ _ _ Hcfg) as (key & secret & Hk & Hs).
  unfold main.
  rewrite (bindp_ok _ _ _ _ _ Hcfg). unfold lift at 1.
  rewrite (bindp_ok _ _ w key w) by now rewrite Hk. unfold lift at 1.
  rewrite (bindp_ok _ _ w secret w) by now rewrite Hs.
  rewrite (bindp_ok _ _ w line (with_stdin w rest))
    by (unfold input; now rewrite Hin).
  unfold lift at 1.
  rewrite (bindp_ok _ _ (with_stdin w rest) amount (with_stdin w rest))
    by now rewrite Hamount.
  eexists. split.
  - apply bindp_raise. unfold find_best_eth_dual_one_day_call.
    rewrite (bindp_ok _ _ _ plans
               (after_get (with_stdin w rest) "/earn/dual/investment_plan" "" later))
      by (apply http_get_plain_run; exact Hresp).
    rewrite (bindp_ok _ _ _ now
               (with_clock_reads
                  (after_get (with_stdin w rest) "/earn/dual/investment_plan" ""
                     later)
                  (S (clock_reads w))))
      by (rewrite int_time_run; f_equal; exact Hnow).
    unfold lift. rewrite Hfind. reflexivity.
  - repeat split; reflexivity.
Qed.

End MainProperties.

Lemma orders_need_confirmation_witness :
  Forall (fun ev => is_get ev = true
                    /\ is_investment_post ev = false
                    /\ is_hedge_post ev = false)
    (trace (snd (main str_sample eq_sample declined_world))).
Proof.
  apply (orders_need_confirmation str_sample eq_sample declined_world
           (fst (main str_sample eq_sample declined_world))
           (snd (main str_sample eq_sample declined_world))).
  - apply surjective_pairing.
  - change (trace declined_world) with (@nil event). reflexivity.
  - intros line answer rest H. injection H as _ <- _. vm_compute. discriminate.
Defined.

Lemma hedge_sized_from_submitted_amount_witness :
  exists hedge cfg amount hm notional info size,
    load_config e2e_world = (Ok cfg, e2e_world)
    /\ py_float (VStr (py_strip "1000")) = Ok amount
    /\ cfg !! "hedge_multiplier" = Some hm
    /\ calc_hedge_size_usdt amount hm PyFloat.zero = Ok notional
    /\ calc_contract_size_from_usdt notional info PyFloat.zero = Ok size
    /\ is_short_order "/futures/usdt/orders" size hedge.
Proof.
  destruct (e2e_run str_sample eq_sample (fun x y => eq_refl))
    as (w' & g1 & g2 & g3 & inv & hedge & Hrun & Htrace & _ & Hshort).
  destruct (hedge_sized_from_submitted_amount str_sample eq_sample e2e_world
              (Ok tt) w' (trace w') hedge Hrun)
    as (cfg & line & rest & amount & hm & notional & plans & contracts & later
        & settle & contract & cs & info & size & inv' & body
        & H1 & H2 & H3 & H4 & H5 & _ & _ & _ & _ & _ & H6 & H7 & _).
  - change (trace e2e_world) with (@nil event). reflexivity.
  - rewrite Htrace. do 4 right. left.
  - exact (hedge_of_short _ _ _ Hshort).
  - injection H2 as <- _.
    destruct H7 as (rq & b & -> & Hm & Hu & Hrest).
    destruct Hshort as (rq0 & b0 & Heq & _ & Hu0 & _). injection Heq as <-.
    exists (Http rq), cfg, amount, hm, notional, info, size.
    split; [exact H1 |]. split; [exact H3 |]. split; [exact H4 |].
    split; [exact (H5 PyFloat.zero) |]. split; [exact (H6 PyFloat.zero) |].
    exists rq, b. split; [reflexivity |]. split; [exact Hm |].
    split; [exact Hu0 | exact Hrest].
Defined.

Lemma investment_order_is_for_selected_offer_witness :
  exists inv plans later now ps d id body,
    Http inv ∈ trace (snd (main str_sample eq_sample e2e_world))
    /\ responses e2e_world = Ok plans :: later
    /\ find_best_eth_dual_one_day plans now = Ok (with_apy d)
    /\ py_iter plans = Ok ps /\ VDict d ∈ ps /\ eligible now d = true
    /\ with_apy d !! "id" = Some id
    /\ req_body inv = Some body
    /\ body !! "plan_id" = Some (VStr (str_sample id)).
Proof.
  destruct (e2e_run str_sample eq_sample (fun x y => eq_refl))
    as (w' & g1 & g2 & g3 & ev & hedge & Hrun & Htrace & Hinv & _).
  assert (ev ∈ trace w') as Hin by (rewrite Htrace; do 3 right; left).
  destruct (investment_order_is_for_selected_offer str_sample eq_sample e2e_world
              (Ok tt) w' (trace w') ev Hrun)
    as (plans & later & now & ps & d & id & inv & body
        & H1 & _ & H3 & H4 & H5 & H6 & H7 & -> & H9 & H10).
  - change (trace e2e_world) with (@nil event). reflexivity.
  - exact Hin.
  - exact Hinv.
  - exists inv, plans, later, now, ps, d, id, body. rewrite Hrun. cbn [snd].
    auto 10.
Defined.

Lemma main_rejects_bad_amount_witness :
  main str_sample eq_sample bad_amount_world
  = (Raise ValueError, with_stdin bad_amount_world ["yes"%string]).
Proof.
  assert (is_ok (fst (load_config bad_amount_world)) = true) as Hok
    by (vm_compute; reflexivity).
  destruct (load_config bad_amount_world) as [r w1] eqn:E.
  destruct (is_ok_inv _ Hok) as [cfg Hcfg]. cbn [fst] in Hcfg. subst r.
  pose proof (load_config_ok _ _ _ E) as ->.
  destruct (main_rejects_bad_amount str_sample eq_sample bad_amount_world cfg E)
    as [_ Hbad].
  apply (Hbad "a lot"%string ["yes"%string] ValueError).
  - reflexivity.
  - vm_compute. reflexivity.
Defined.

Lemma main_stops_when_selection_fails_witness :
  exists w',
    main str_sample eq_sample no_offer_world
    = (Raise (RuntimeError NoEligibleOffer), w')
    /\ trace w' = [get_event "/earn/dual/investment_plan" ""].
Proof.
  assert (is_ok (fst (load_config no_offer_world)) = true) as Hok
    by (vm_compute; reflexivity).
  destruct (load_config no_offer_world) as [r w1] eqn:E.
  destruct (is_ok_inv _ Hok) as [cfg Hcfg]. cbn [fst] in Hcfg. subst r.
  pose proof (load_config_ok _ _ _ E) as ->.
  assert (exists amount, py_float (VStr (py_strip "1000")) = Ok amount)
    as [amount Hamount] by (eexists; vm_compute; reflexivity).
  destruct (main_stops_when_selection_fails str_sample eq_sample no_offer_world
              cfg "1000"%string ["yes"%string] amount (offer_list [offer_late])
              [] sample_now (RuntimeError NoEligibleOffer) E)
    as (w' & Hrun & Htrace & _).
  - reflexivity.
  - exact Hamount.
  - reflexivity.
  - vm_compute. reflexivity.
  - vm_compute. reflexivity.
  - exists w'. split; [exact Hrun | exact Htrace].
Defined.

Section OrderProperties.
Variable py_str : pyval -> string.
Variable py_eq : pyval -> pyval -> bool.

(** X19: [place_dual_order] refuses a plan without an id with [KeyError]
    before the clock is read or anything is sent. With an id, string
    credentials and a clock reading of whole seconds [t], it sends exactly
    one POST to the dual orders path, stamped [t], whose body has the
    three fields plan_id, amount and text and no other, and it returns the
    exchange's answer as it is, an error included. *)
Theorem investment_order_needs_plan_id
    (plan : dict) (amount : float) (text : string) (w : world) :
  (forall key secret,
     plan !! "id" = None ->
     place_dual_order py_str plan amount key secret text w = (Raise KeyError, w))
  /\ (forall id k s t resp rest,
        plan !! "id" = Some id ->
        py_int (VFloat (clock w (clock_reads w))) = Ok t ->
        responses w = resp :: rest ->
        exists inv body w',
          place_dual_order py_str plan amount (VStr k) (VStr s) text w = (resp, w')
          /\ trace w' = trace w ++ [Http inv]
          /\ responses w' = rest
          /\ req_method inv = POST
          /\ req_url inv = "/earn/dual/orders"%string
          /\ req_timestamp inv = Some (str_of_int t)
          /\ req_body inv = Some body
          /\ forall field,
               body !! field
               = investment_body (py_str id) (py_str (VFloat amount)) text field).
Proof.
  split.
  - intros key secret Hid. unfold place_dual_order, bindp, lift, dict_item.
    now rewrite Hid.
  - intros id k s t resp rest Hid Ht Hresp.
    unfold place_dual_order, bindp, lift, dict_item. rewrite Hid.
    unfold http_post, bindp. rewrite gen_sign_run, Ht. cbn [bind].
    unfold send, bindp, emit, next_response. cbn. rewrite Hresp.
    eexists. eexists. eexists. split; [reflexivity |].
    split; [reflexivity |]. split; [reflexivity |]. split; [reflexivity |].
    split; [reflexivity |]. split; [reflexivity |]. split; [reflexivity |].
    intros field. unfold investment_body.
    destruct (String.eqb_spec field "plan_id") as [-> | Hp]; [reflexivity |].
    destruct (String.eqb_spec field "amount") as [-> | Ha]; [reflexivity |].
    destruct (String.eqb_spec field "text") as [-> | Hx];
      [now rewrite lookup_insert_eq |].
    rewrite !lookup_insert_ne by congruence. apply lookup_empty.
Qed.

(** X20: the selector accepts an offer whose yield is a string that is no
    number, ranking it as zero, but [main] converts that field again
    without a guard. With a loadable configuration and a numeric amount,
    when the selector returns such an offer, [main] raises [ValueError]
    having sent only the GET of the investment plans: no futures data is
    fetched and no order is sent. *)
Theorem main_fails_on_selected_malformed_yield
    (w : world) (cfg : dict) (line : string) (rest : list string)
    (amount : float) (plans : pyval) (later : list (result pyval)) (now : Z)
    (d : dict) (s : string) (ep : pyval) (price : float) :
  load_config w = (Ok cfg, w) ->
  stdin w = line :: rest ->
  py_float (VStr (py_strip line)) = Ok amount ->
  responses w = Ok plans :: later ->
  py_int (VFloat (clock w (clock_reads w))) = Ok now ->
  find_best_eth_dual_one_day plans now = Ok (with_apy d) ->
  d !! "apy_display" = Some (VStr s) ->
  Parse.parse_float s = None ->
  d !! "exercise_price" = Some ep ->
  py_float ep = Ok price ->
  with_apy d !! "_apy" = Some (VFloat PyFloat.zero)
  /\ exists w',
       main py_str py_eq w = (Raise ValueError, w')
       /\ trace w' = trace w ++ [get_event "/earn/dual/investment_plan" ""]
       /\ responses w' = later
       /\ stdin w' = rest.
Proof.
  intros Hcfg Hin Hamount Hresp Hnow Hfind Hy Hs Hep Hprice.
  split.
  - unfold with_apy. rewrite lookup_insert_eq. do 2 f_equal.
    assert (apy_of d = Ok PyFloat.zero) as Hz
      by (apply apy_of_missing_or_malformed; right; eauto).
    unfold parsed_yield. now rewrite Hz.
  - destruct (load_config_credentials _ _ _ Hcfg) as (key & secret & Hk & Hsec).
    unfold main.
    rewrite (bindp_ok _ _ _ _ _ Hcfg). unfold lift at 1.
    rewrite (bindp_ok _ _ w key w) by now rewrite Hk. unfold lift at 1.
    rewrite (bindp_ok _ _ w secret w) by now rewrite Hsec.
    rewrite (bindp_ok _ _ w line (with_stdin w rest))
      by (unfold input; now rewrite Hin).
    unfold lift at 1.
    rewrite (bindp_ok _ _ (with_stdin w rest) amount (with_stdin w rest))
      by now rewrite Hamount.
    set (w1 := with_clock_reads
                 (after_get (with_stdin w rest) "/earn/dual/investment_plan" ""
                    later)
                 (S (clock_reads w))).
    assert (find_best_eth_dual_one_day_call (with_stdin w rest)
            = (Ok (with_apy d), w1)) as Hcall.
    { unfold find_best_eth_dual_one_day_call.
      rewrite (bindp_ok _ _ _ plans
                 (after_get (with_stdin w rest) "/earn/dual/investment_plan" ""
                    later))
        by (apply http_get_plain_run; exact Hresp).
      rewrite (bindp_ok _ _ _ now w1)
        by (rewrite int_time_run; f_equal; exact Hnow).
      unfold lift. now rewrite Hfind. }
    rewrite (bindp_ok _ _ _ _ _ Hcall).
    assert (with_apy d !! "exercise_price" = Some ep) as Hep'
      by (unfold with_apy; now rewrite lookup_insert_ne).
    assert (with_apy d !! "apy_display" = Some (VStr s)) as Hy'
      by (unfold with_apy; now rewrite lookup_insert_ne).
    unfold lift at 1.
    rewrite (bindp_ok _ _ w1 ep w1) by (unfold dict_item; now rewrite Hep').
    unfold lift at 1.
    rewrite (bindp_ok _ _ w1 price w1) by now rewrite Hprice.
    exists w1. split; [| repeat split; reflexivity].
    apply bindp_raise. unfold lift, dict_get_or. rewrite Hy'. f_equal.
    change (py_float (VStr s) = Raise ValueError). unfold py_float.
    now rewrite Hs.
Qed.

End OrderProperties.

Lemma investment_order_needs_plan_id_witness :
  exists inv body w',
    place_dual_order str_sample e2e_offer PyFloat.one (VStr "key") (VStr "secret")
      sample_tag polling_world = (Ok (VList [other_order]), w')
    /\ trace w' = trace polling_world ++ [Http inv]
    /\ req_body inv = Some body
    /\ body !! "plan_id" = Some (VStr "7").
Proof.
  destruct (investment_order_needs_plan_id str_sample e2e_offer PyFloat.one
              sample_tag polling_world) as [_ H].
  destruct (H (VInt 7) "key"%string "secret"%string 1700000000
              (Ok (VList [other_order])) (tl (responses polling_world)))
    as (inv & body & w' & Hrun & Htrace & _ & _ & _ & _ & Hbody & Hfields).
  - vm_compute. reflexivity.
  - vm_compute. reflexivity.
  - reflexivity.
  - exists inv, body, w'. split; [exact Hrun |]. split; [exact Htrace |].
    split; [exact Hbody |]. rewrite Hfields. reflexivity.
Defined.

Lemma main_fails_on_selected_malformed_yield_witness :
  exists w',
    main str_sample eq_sample malformed_yield_world = (Raise ValueError, w')
    /\ trace w' = [get_event "/earn/dual/investment_plan" ""].
Proof.
  assert (is_ok (fst (load_config malformed_yield_world)) = true) as Hok
    by (vm_compute; reflexivity).
  destruct (load_config malformed_yield_world) as [r w1] eqn:E.
  destruct (is_ok_inv _ Hok) as [cfg Hcfg]. cbn [fst] in Hcfg. subst r.
  pose proof (load_config_ok _ _ _ E) as ->.
  assert (exists amount, py_float (VStr (py_strip "1000")) = Ok amount)
    as [amount Hamount] by (eexists; vm_compute; reflexivity).
  assert (exists price, py_float (VStr "3000") = Ok price)
    as [price Hprice] by (eexists; vm_compute; reflexivity).
  assert (is_ok (find_best_eth_dual_one_day (offer_list [offer_malformed])
                   sample_now) = true) as Hsel by (vm_compute; reflexivity).
  destruct (is_ok_inv _ Hsel) as [plan Hplan].
  destruct (find_best_from_plans _ _ _ Hplan)
    as (ps & d & t & Hps & Hd & _ & _ & _ & ->).
  rewrite py_iter_offer_list in Hps. injection Hps as <-.
  apply list_elem_of_singleton in Hd. injection Hd as ->.
  destruct (main_fails_on_selected_malformed_yield str_sample eq_sample
              malformed_yield_world cfg "1000"%string ["yes"%string] amount
              (offer_list [offer_malformed]) [] sample_now offer_malformed
              "n/a"%string (VStr "3000") price E)
    as (_ & w' & Hrun & Htrace & _).
  - reflexivity.
  - exact Hamount.
  - reflexivity.
  - vm_compute. reflexivity.
  - exact Hplan.
  - vm_compute. reflexivity.
  - vm_compute. reflexivity.
  - vm_compute. reflexivity.
  - exact Hprice.
  - exists w'. split; [exact Hrun | exact Htrace].
Defined.
